(** * E2C: the PDF structuring pipeline of [para.py] and [para-kimi.py]

    A shallow embedding of the document-structuring core: the streaming
    response assembler and the structured result parser of
    [LLMProcessor.analyze_document], and the paragraph materializer of
    [PDFProcessor.extract_text] with its helpers [_create_paragraph_dict]
    and [_estimate_page_number].

    Python values are embedded as follows.
    - [str] is a list of Unicode code points ([N]); indexing and slicing
      count code points, as in Python.
    - [bytes] is a list of octets ([N] below 256).
    - Decoded JSON (and every other dynamically typed value the code
      handles) is a [pyval]; [int] is unbounded, so it is [Z].
    - A raised exception is the [Raise] case of [result]; text written by
      [print] is a list of [event]s.
    - [uuid.uuid4], the HTTP request and the PDF reader are inputs.
    - The interpreter is a 64-bit build with memory to spare, and its
      console is UTF-8: [print] raises [UnicodeEncodeError] on a string that
      holds a lone surrogate.  Such a string can come out of the escapes of
      a JSON string, so the prints that can fail are the echo of a fragment
      (line 128) and a row of the overview (line 301); the payload printed
      on line 150 is made of fragments that were echoed, and the body of a
      response is decoded from bytes. *)

From Stdlib Require Import Ascii String.
From Stdlib Require Import List ZArith NArith Lia Bool.
From Stdlib Require Import DecimalString.
Import ListNotations.

Set Warnings "-register-all".

Local Open Scope Z_scope.

(** ** Python strings *)

Definition str := list N.
Definition bytes := list N.

(** ASCII literals of the source, as code points. *)
Definition lit (s : string) : str :=
  List.map N_of_ascii (list_ascii_of_string s).

(** [str.isspace] for one code point: the characters [str.strip()] and
    [str.split()] treat as whitespace. *)
Definition isspace (c : N) : bool :=
  ((9 <=? c) && (c <=? 13) || (28 <=? c) && (c <=? 32)
   || (c =? 133) || (c =? 160) || (c =? 5760)
   || (8192 <=? c) && (c <=? 8202)
   || (c =? 8232) || (c =? 8233) || (c =? 8239) || (c =? 8287)
   || (c =? 12288))%N.

Fixpoint lstrip (s : str) : str :=
  match s with
  | [] => []
  | c :: t => if isspace c then lstrip t else s
  end.

Definition rstrip (s : str) : str := rev (lstrip (rev s)).

(** [s.strip()] *)
Definition strip (s : str) : str := rstrip (lstrip s).

(** [s.split()]: the maximal runs of non-whitespace, in order.  [cur] is the
    run being read, reversed; [None] between runs. *)
Fixpoint split_from (cur : option str) (s : str) : list str :=
  match s with
  | [] => match cur with None => [] | Some w => [rev w] end
  | c :: t =>
      if isspace c
      then match cur with
           | None => split_from None t
           | Some w => rev w :: split_from None t
           end
      else match cur with
           | None => split_from (Some [c]) t
           | Some w => split_from (Some (c :: w)) t
           end
  end.

Definition split (s : str) : list str := split_from None s.

Fixpoint str_eqb (a b : str) : bool :=
  match a, b with
  | [], [] => true
  | x :: a', y :: b' => (x =? y)%N && str_eqb a' b'
  | _, _ => false
  end.

(** [s.startswith(p)] *)
Fixpoint startswith (s p : str) {struct p} : bool :=
  match p, s with
  | [], _ => true
  | x :: p', y :: s' => (x =? y)%N && startswith s' p'
  | _ :: _, [] => false
  end.

(** [s.endswith(p)] *)
Definition endswith (s p : str) : bool := startswith (rev s) (rev p).

(** Slice bounds as [PySlice_AdjustIndices] computes them for step 1: a
    negative index counts from the end, and the result is brought into
    [0 .. len]. *)
Definition adjust_index (len i : Z) : Z :=
  if i <? 0 then Z.max 0 (i + len) else Z.min i len.

(** [s[start:stop]]; [None] is an omitted bound. *)
Definition slice (s : str) (start stop : option Z) : str :=
  let len := Z.of_nat (length s) in
  let a := match start with None => 0 | Some i => adjust_index len i end in
  let b := match stop with None => len | Some j => adjust_index len j end in
  firstn (Z.to_nat (b - a)) (skipn (Z.to_nat a) s).

(** [c * n] for a one-character string [c]. *)
Definition str_mul (c : N) (n : Z) : str := repeat c (Z.to_nat n).

(** ** Python values *)

(** A [float] is kept as the decimal literal it was read from: sign,
    digits and power of ten (or one of the three special literals).  Only
    its comparison with zero is ever needed. *)
Inductive pyfloat : Type :=
| FNan
| FInf (neg : bool)
| FDec (neg : bool) (mant : N) (exp10 : Z).

Inductive pyval : Type :=
| PNone
| PBool (b : bool)
| PInt (z : Z)
| PFloat (f : pyfloat)
| PStr (s : str)
| PList (l : list pyval)
| PDict (d : list (str * pyval)).

(** A decimal literal converts to a non-zero binary64 exactly when its
    magnitude exceeds [2^-1075], half of the least subnormal (the tie
    itself rounds to the even neighbour, zero). *)
Definition float_nonzero (f : pyfloat) : bool :=
  match f with
  | FNan | FInf _ => true
  | FDec _ m e =>
      if 0 <=? e then (0 <? Z.of_N m)
      else (10 ^ (- e) <? Z.of_N m * 2 ^ 1075)
  end.

(** [f > 0] *)
Definition float_pos (f : pyfloat) : bool :=
  match f with
  | FNan => false
  | FInf neg => negb neg
  | FDec neg _ _ => negb neg && float_nonzero f
  end.

(** Truth value of an object, as [if x:] tests it. *)
Definition truthy (v : pyval) : bool :=
  match v with
  | PNone => false
  | PBool b => b
  | PInt z => negb (z =? 0)
  | PFloat f => float_nonzero f
  | PStr s => match s with [] => false | _ => true end
  | PList l => match l with [] => false | _ => true end
  | PDict d => match d with [] => false | _ => true end
  end.

(** ** Exceptions and results *)

(** The messages of [json.JSONDecodeError]. *)
Inductive decode_msg : Type :=
| ExpectingValue
| ExtraData
| ExpectingPropertyName
| ExpectingColon
| ExpectingComma
| UnterminatedString
| InvalidControlCharacter
| InvalidEscape
| InvalidUnicodeEscape
| UnexpectedBOM.

Inductive exn : Type :=
| KeyError (key : pyval)
| IndexError
| TypeError
| AttributeError (attr : str)
| ValueError (msg : str)
| JSONDecodeError (msg : decode_msg) (doc : str) (pos : Z)
| UnicodeDecodeError
| UnicodeEncodeError
| OverflowError
| MemoryError
| RecursionError
| ApiError (status : Z) (body : str)
| Exception (msg : str).

Inductive result (A : Type) : Type :=
| Ok (a : A)
| Raise (e : exn).

Arguments Ok {A} a.
Arguments Raise {A} e.

Definition bind {A B : Type} (m : result A) (k : A -> result B) : result B :=
  match m with
  | Ok a => k a
  | Raise e => Raise e
  end.

Notation "x <- m ;; k" := (bind m (fun x => k))
  (at level 61, m at next level, right associativity).

(** ** Dictionaries, subscripts and iteration *)

Fixpoint dict_get (d : list (str * pyval)) (k : str) : option pyval :=
  match d with
  | [] => None
  | (k', v) :: d' => if str_eqb k' k then Some v else dict_get d' k
  end.

(** [d[k] = v]: overwrite in place, or append a new key. *)
Fixpoint dict_set (d : list (str * pyval)) (k : str) (v : pyval)
  : list (str * pyval) :=
  match d with
  | [] => [(k, v)]
  | (k', v') :: d' =>
      if str_eqb k' k then (k', v) :: d' else (k', v') :: dict_set d' k v
  end.

(** [obj[key]] for a string key: only a [dict] accepts one. *)
Definition getitem (obj : pyval) (key : str) : result pyval :=
  match obj with
  | PDict d =>
      match dict_get d key with
      | Some v => Ok v
      | None => Raise (KeyError (PStr key))
      end
  | _ => Raise TypeError
  end.

(** [iter(obj)] run to the end. *)
Definition py_iter (obj : pyval) : result (list pyval) :=
  match obj with
  | PList l => Ok l
  | PStr s => Ok (List.map (fun c => PStr [c]) s)
  | PDict d => Ok (List.map (fun kv => PStr (fst kv)) d)
  | _ => Raise TypeError
  end.

(** A slice bound: [None], or an object with [__index__]. *)
Definition as_bound (v : pyval) : result (option Z) :=
  match v with
  | PNone => Ok None
  | PBool b => Ok (Some (if b then 1 else 0))
  | PInt z => Ok (Some z)
  | _ => Raise TypeError
  end.

(** [text[start:stop]] with dynamically typed bounds. *)
Definition slice_val (text : str) (start stop : pyval) : result str :=
  a <- as_bound start ;;
  b <- as_bound stop ;;
  Ok (slice text a b).

(** [heading_level > 0] *)
Definition gt_zero (v : pyval) : result bool :=
  match v with
  | PInt z => Ok (0 <? z)
  | PBool b => Ok b
  | PFloat f => Ok (float_pos f)
  | _ => Raise TypeError
  end.

(** [sys.maxsize] of a 64-bit build, and the size of the address space a
    process of such a system has: no string of that size is ever built. *)
Definition PY_SSIZE_T_MAX : Z := 2 ^ 63 - 1.
Definition ADDRESS_SPACE : Z := 2 ^ 47.

(** ['#' * heading_level].  A count that does not fit an index raises
    [OverflowError], and a string that does not fit the address space
    raises [MemoryError].  Below that the string is built if the machine
    has the memory for it, which the model takes for granted; the
    properties that need the string keep the level within the 0 to 6 of the
    data model. *)
Definition hashes (v : pyval) : result str :=
  match v with
  | PInt z =>
      if (PY_SSIZE_T_MAX <? z) || (z <? - PY_SSIZE_T_MAX - 1)
      then Raise OverflowError
      else if ADDRESS_SPACE <=? z then Raise MemoryError
      else Ok (str_mul 35 z)
  | PBool b => Ok (str_mul 35 (if b then 1 else 0))
  | _ => Raise TypeError
  end.

(** ** [json.loads]

    The decoder of the standard library, as its scanner proceeds: one value
    with optional whitespace around it, objects decoded into dictionaries
    (a repeated key keeps its first position and its last value), [NaN],
    [Infinity] and [-Infinity] accepted, strings in strict mode.  The
    functions consume a list of code points; an error records how many
    characters were left at the offending position.  The recursion limit of
    the interpreter is not part of the model: nesting of any depth is
    decoded. *)

Inductive parsed (A : Type) : Type :=
| Parsed (a : A) (rest : str)
| Failed (msg : decode_msg) (remaining : nat)
| Overflow.

Arguments Parsed {A} a rest.
Arguments Failed {A} msg remaining.
Arguments Overflow {A}.

Definition is_json_ws (c : N) : bool :=
  ((c =? 32) || (c =? 9) || (c =? 10) || (c =? 13))%N.

Fixpoint skip_ws (s : str) : str :=
  match s with
  | [] => []
  | c :: t => if is_json_ws c then skip_ws t else s
  end.

Definition is_digit (c : N) : bool := ((48 <=? c) && (c <=? 57))%N.

(** The next character is [c]. *)
Definition head_is (c : N) (s : str) : bool :=
  match s with
  | x :: _ => (x =? c)%N
  | [] => false
  end.

Definition hex_digit (c : N) : option N :=
  (if (48 <=? c) && (c <=? 57) then Some (c - 48)
   else if (97 <=? c) && (c <=? 102) then Some (c - 87)
   else if (65 <=? c) && (c <=? 70) then Some (c - 55)
   else None)%N.

Definition hex4 (a b c d : N) : option N :=
  match hex_digit a, hex_digit b, hex_digit c, hex_digit d with
  | Some x, Some y, Some z, Some w => Some (((x * 16 + y) * 16 + z) * 16 + w)%N
  | _, _, _, _ => None
  end.

(** The character a one-letter escape stands for. *)
Definition unescape (c : N) : option N :=
  (if c =? 34 then Some 34 else if c =? 92 then Some 92
   else if c =? 47 then Some 47 else if c =? 98 then Some 8
   else if c =? 102 then Some 12 else if c =? 110 then Some 10
   else if c =? 114 then Some 13 else if c =? 116 then Some 9
   else None)%N.

(** The body of a string literal, after its opening quote: the characters
    read so far ([acc], reversed), each marked when it was written as a
    [\uXXXX] escape.  [opening] counts the characters from the opening quote on. *)
Fixpoint scan_units (opening : nat) (s : str) (acc : list (N * bool))
  : parsed (list (N * bool)) :=
  match s with
  | [] => Failed UnterminatedString opening
  | c :: t =>
      if (c =? 34)%N then Parsed (rev acc) t
      else if (c =? 92)%N then
        match t with
        | [] => Failed UnterminatedString opening
        | e :: t' =>
            if (e =? 117)%N then
              match t' with
              | h1 :: h2 :: h3 :: h4 :: (_ :: _) as t'' =>
                  match hex4 h1 h2 h3 h4 with
                  | Some u => scan_units opening t'' ((u, true) :: acc)
                  | None => Failed InvalidUnicodeEscape (length t)
                  end
              | _ => Failed InvalidUnicodeEscape (length t)
              end
            else
              match unescape e with
              | Some c' => scan_units opening t' ((c', false) :: acc)
              | None => Failed InvalidEscape (length s)
              end
        end
      else if (c <=? 31)%N then Failed InvalidControlCharacter (length s)
      else scan_units opening t ((c, false) :: acc)
  end.

(** An escaped high surrogate directly followed by an escaped low surrogate
    is one character. *)
Fixpoint join_surrogates (units : list (N * bool)) : str :=
  match units with
  | [] => []
  | (u, esc) :: rest =>
      match rest with
      | (u2, true) :: rest' =>
          if (esc && (55296 <=? u) && (u <=? 56319)
              && (56320 <=? u2) && (u2 <=? 57343))%N
          then (65536 + (u - 55296) * 1024 + (u2 - 56320))%N
               :: join_surrogates rest'
          else u :: join_surrogates rest
      | _ => u :: join_surrogates rest
      end
  end.

(** [scanstring], strict. *)
Definition scanstring (opening : nat) (s : str) : parsed str :=
  match scan_units opening s [] with
  | Parsed units rest => Parsed (join_surrogates units) rest
  | Failed msg n => Failed msg n
  | Overflow => Overflow
  end.

(** The longest prefix of digits, with what follows it. *)
Fixpoint take_digits (s : str) : str * str :=
  match s with
  | [] => ([], [])
  | c :: t =>
      if is_digit c
      then let (ds, r) := take_digits t in (c :: ds, r)
      else ([], s)
  end.

Definition digits_value (ds : str) : N :=
  fold_left (fun acc c => (acc * 10 + (c - 48))%N) ds 0%N.

(** The integer part: an optional minus sign, then a single zero or a
    digit other than zero followed by any digits. *)
Definition match_int (s : str) : option (bool * str * str) :=
  let (neg, s1) :=
    match s with
    | c :: t => if (c =? 45)%N then (true, t) else (false, s)
    | [] => (false, s)
    end in
  match s1 with
  | c :: t =>
      if (c =? 48)%N then Some (neg, [c], t)
      else if is_digit c
           then let (ds, r) := take_digits t in Some (neg, c :: ds, r)
           else None
  | [] => None
  end.

(** The fraction, if any: a point followed by at least one digit. *)
Definition match_frac (s : str) : str * str :=
  match s with
  | dot :: d :: t =>
      if ((dot =? 46) && is_digit d)%N then take_digits (d :: t) else ([], s)
  | _ => ([], s)
  end.

(** The exponent, if any: [e] or [E], an optional sign and at least one
    digit; nothing is read when no digit follows. *)
Definition match_exp (s : str) : option (bool * str) * str :=
  match s with
  | e :: t =>
      if ((e =? 101) || (e =? 69))%N then
        let (eneg, t1) :=
          match t with
          | sg :: t' =>
              if (sg =? 45)%N then (true, t')
              else if (sg =? 43)%N then (false, t') else (false, t)
          | [] => (false, t)
          end in
        match take_digits t1 with
        | ([], _) => (None, s)
        | (ds, r) => (Some (eneg, ds), r)
        end
      else (None, s)
  | [] => (None, s)
  end.

(** A number literal: an [int] when it has neither fraction nor exponent,
    else a [float]. *)
Definition match_number (s : str) : option (pyval * str) :=
  match match_int s with
  | None => None
  | Some (neg, ipart, r1) =>
      let (fpart, r2) := match_frac r1 in
      let (epart, r3) := match_exp r2 in
      match fpart, epart with
      | [], None =>
          let n := Z.of_N (digits_value ipart) in
          Some (PInt (if neg then - n else n), r3)
      | _, _ =>
          let e := match epart with
                   | None => 0
                   | Some (eneg, ds) =>
                       let n := Z.of_N (digits_value ds) in
                       if eneg then - n else n
                   end in
          Some (PFloat (FDec neg (digits_value (ipart ++ fpart))
                             (e - Z.of_nat (length fpart))), r3)
      end
  end.

Definition NULL : str := Eval cbv in lit "null".
Definition TRUE : str := Eval cbv in lit "true".
Definition FALSE : str := Eval cbv in lit "false".
Definition NAN : str := Eval cbv in lit "NaN".
Definition INFINITY : str := Eval cbv in lit "Infinity".
Definition NEG_INFINITY : str := Eval cbv in lit "-Infinity".

(** The named constants, by their first letter. *)
Definition match_constant (s : str) : option (pyval * str) :=
  if startswith s NULL then Some (PNone, skipn 4 s)
  else if startswith s TRUE then Some (PBool true, skipn 4 s)
  else if startswith s FALSE then Some (PBool false, skipn 5 s)
  else if startswith s NAN then Some (PFloat FNan, skipn 3 s)
  else if startswith s INFINITY then Some (PFloat (FInf false), skipn 8 s)
  else if startswith s NEG_INFINITY then Some (PFloat (FInf true), skipn 9 s)
  else None.

(** [scan_once] with the loops of [_parse_array] and [_parse_object].  Each
    call spends one unit of [fuel]. *)
Fixpoint scan_once (fuel : nat) (s : str) : parsed pyval :=
  match fuel with
  | O => Overflow
  | S fuel' =>
      match s with
      | [] => Failed ExpectingValue 0
      | c :: t =>
          if (c =? 34)%N then
            match scanstring (length s) t with
            | Parsed k r => Parsed (PStr k) r
            | Failed msg n => Failed msg n
            | Overflow => Overflow
            end
          else if (c =? 123)%N then
            let s1 := skip_ws t in
            if head_is 125 s1 then Parsed (PDict []) (tl s1)
            else object_loop fuel' s1 []
          else if (c =? 91)%N then
            let s1 := skip_ws t in
            if head_is 93 s1 then Parsed (PList []) (tl s1)
            else array_loop fuel' s1 []
          else
            match match_constant s with
            | Some (v, r) => Parsed v r
            | None =>
                match match_number s with
                | Some (v, r) => Parsed v r
                | None => Failed ExpectingValue (length s)
                end
            end
      end
  end

with array_loop (fuel : nat) (s : str) (acc : list pyval) : parsed pyval :=
  match fuel with
  | O => Overflow
  | S fuel' =>
      match scan_once fuel' s with
      | Parsed v r =>
          match skip_ws r with
          | [] => Failed ExpectingComma 0
          | c :: r' =>
              if (c =? 93)%N then Parsed (PList (rev (v :: acc))) r'
              else if (c =? 44)%N
                   then array_loop fuel' (skip_ws r') (v :: acc)
                   else Failed ExpectingComma (S (length r'))
          end
      | Failed msg n => Failed msg n
      | Overflow => Overflow
      end
  end

with object_loop (fuel : nat) (s : str) (d : list (str * pyval))
  : parsed pyval :=
  match fuel with
  | O => Overflow
  | S fuel' =>
      match s with
      | [] => Failed ExpectingPropertyName 0
      | q :: t =>
          if (q =? 34)%N then
            match scanstring (length s) t with
            | Parsed key r =>
                match skip_ws r with
                | [] => Failed ExpectingColon 0
                | c :: r' =>
                    if (c =? 58)%N then
                      match scan_once fuel' (skip_ws r') with
                      | Parsed v r2 =>
                          let d' := dict_set d key v in
                          match skip_ws r2 with
                          | [] => Failed ExpectingComma 0
                          | c2 :: r3 =>
                              if (c2 =? 125)%N then Parsed (PDict d') r3
                              else if (c2 =? 44)%N
                                   then object_loop fuel' (skip_ws r3) d'
                                   else Failed ExpectingComma (S (length r3))
                          end
                      | Failed msg n => Failed msg n
                      | Overflow => Overflow
                      end
                    else Failed ExpectingColon (S (length r'))
                end
            | Failed msg n => Failed msg n
            | Overflow => Overflow
            end
          else Failed ExpectingPropertyName (length s)
      end
  end.

(** [json.loads(s)] for a [str]. *)
Definition json_loads (s : str) : result pyval :=
  let len := length s in
  let position (remaining : nat) := Z.of_nat len - Z.of_nat remaining in
  if startswith s [65279%N]
  then Raise (JSONDecodeError UnexpectedBOM s 0)
  else
    match scan_once (S (2 * len)) (skip_ws s) with
    | Parsed obj rest =>
        match skip_ws rest with
        | [] => Ok obj
        | extra => Raise (JSONDecodeError ExtraData s (position (length extra)))
        end
    | Failed msg n => Raise (JSONDecodeError msg s (position n))
    | Overflow => Raise RecursionError
    end.

(** ** UTF-8

    [bytes.decode('utf-8')], strict: well-formed sequences only, no
    surrogates, nothing above U+10FFFF. *)

Definition is_cont (b : N) : bool := ((128 <=? b) && (b <=? 191))%N.

Definition low6 (b : N) : N := (b - 128)%N.

Fixpoint utf8_decode (b : bytes) : result str :=
  match b with
  | [] => Ok []
  | b0 :: t =>
      if (b0 <? 128)%N then
        s <- utf8_decode t ;; Ok (b0 :: s)
      else if ((194 <=? b0) && (b0 <=? 223))%N then
        match t with
        | b1 :: t1 =>
            if is_cont b1
            then s <- utf8_decode t1 ;;
                 Ok (((b0 - 192) * 64 + low6 b1)%N :: s)
            else Raise UnicodeDecodeError
        | _ => Raise UnicodeDecodeError
        end
      else if ((224 <=? b0) && (b0 <=? 239))%N then
        match t with
        | b1 :: b2 :: t2 =>
            if (is_cont b1 && is_cont b2
                && (negb (b0 =? 224) || (160 <=? b1))
                && (negb (b0 =? 237) || (b1 <=? 159)))%N
            then s <- utf8_decode t2 ;;
                 Ok ((((b0 - 224) * 64 + low6 b1) * 64 + low6 b2)%N :: s)
            else Raise UnicodeDecodeError
        | _ => Raise UnicodeDecodeError
        end
      else if ((240 <=? b0) && (b0 <=? 244))%N then
        match t with
        | b1 :: b2 :: b3 :: t3 =>
            if (is_cont b1 && is_cont b2 && is_cont b3
                && (negb (b0 =? 240) || (144 <=? b1))
                && (negb (b0 =? 244) || (b1 <=? 143)))%N
            then s <- utf8_decode t3 ;;
                 Ok (((((b0 - 240) * 64 + low6 b1) * 64 + low6 b2) * 64
                      + low6 b3)%N :: s)
            else Raise UnicodeDecodeError
        | _ => Raise UnicodeDecodeError
        end
      else Raise UnicodeDecodeError
  end.

(** ** Console output and the operations of [analyze_document] *)

(** One event per [print] (and per [logging.error]) from the arrival of the
    response on, with the values it formats. *)
Inductive event : Type :=
| PrintStatus (code : Z)
| PrintReceiving
| PrintDivider
| PrintFragment (content : pyval)
| PrintStreamError (e : exn)
| PrintReceived
| PrintCleaning
| PrintFenceDetected
| PrintFinalHeader
| PrintFinalContent (content : str)
| PrintParsing
| PrintParsed
| PrintSectionsLength (n : Z)
| PrintValidated
| PrintJSONError (e : exn)
| PrintErrorPosition (lineno colno : Z)
| PrintErrorChar (c : pyval)
| PrintProblemLineHeader
| PrintProblemLine (line : str)
| PrintCaret (marker : str)
| PrintApiFailed (code : Z) (body : str)
| PrintLLMError (e : exn)
| PrintTraceback (e : exn)
| LogError (e : exn).

(** The console is UTF-8, as the messages of the program need it: it
    encodes every character but a lone surrogate, which the escapes of a
    JSON string can bring in. *)
Definition is_surrogate (c : N) : bool := ((55296 <=? c) && (c <=? 57343))%N.

Definition console_accepts (s : str) : bool :=
  forallb (fun c => negb (is_surrogate c)) s.

(** A computation that prints and then returns or raises. *)
Definition io (A : Type) : Type := (list event * result A)%type.

Definition ret {A : Type} (a : A) : io A := ([], Ok a).

Definition print (e : event) : io unit := ([e], Ok tt).

Definition lift {A : Type} (r : result A) : io A := ([], r).

(** [print(value)], recorded as [ev].  A string is written as it is, and
    nothing of it is written when the console cannot encode it; any other
    value is written as its [repr], which escapes what cannot be shown. *)
Definition print_value (value : pyval) (ev : event) : io unit :=
  match value with
  | PStr s =>
      if console_accepts s then print ev else lift (Raise UnicodeEncodeError)
  | _ => print ev
  end.

Definition io_bind {A B : Type} (m : io A) (k : A -> io B) : io B :=
  match m with
  | (out, Ok a) => let (out', r) := k a in (out ++ out', r)
  | (out, Raise e) => (out, Raise e)
  end.

Notation "x <~ m ;; k" := (io_bind m (fun x => k))
  (at level 61, m at next level, right associativity).

Notation "m >> k" := (io_bind m (fun _ => k))
  (at level 61, right associativity).

(** [try: body / except <class> as e: handler e], where [catches] tells the
    exceptions of the class. *)
Definition try_except {A : Type} (body : io A) (catches : exn -> bool)
    (handler : exn -> io A) : io A :=
  match body with
  | (out, Raise e) =>
      if catches e
      then let (out', r) := handler e in (out ++ out', r)
      else (out, Raise e)
  | done => done
  end.

Definition is_JSONDecodeError (e : exn) : bool :=
  match e with JSONDecodeError _ _ _ => true | _ => false end.

(** Every exception of the model derives from [Exception]. *)
Definition is_Exception (e : exn) : bool := true.

(** [obj[0]] *)
Definition getitem0 (obj : pyval) : result pyval :=
  match obj with
  | PList (v :: _) => Ok v
  | PList [] => Raise IndexError
  | PStr (c :: _) => Ok (PStr [c])
  | PStr [] => Raise IndexError
  | PDict _ => Raise (KeyError (PInt 0))
  | _ => Raise TypeError
  end.

(** [obj.get(key, default)]: a method of [dict] only. *)
Definition get_method (obj : pyval) (key : str) (default : pyval)
  : result pyval :=
  match obj with
  | PDict d =>
      Ok match dict_get d key with Some v => v | None => default end
  | _ => Raise (AttributeError (lit "get"))
  end.

(** [full_content += content] *)
Definition str_iadd (full_content : str) (content : pyval) : result str :=
  match content with
  | PStr s => Ok (full_content ++ s)
  | _ => Raise TypeError
  end.

Definition is_none (v : pyval) : bool :=
  match v with PNone => true | _ => false end.

(** [needle in haystack] for strings. *)
Fixpoint is_substring (needle haystack : str) : bool :=
  startswith haystack needle
  || match haystack with
     | [] => false
     | _ :: t => is_substring needle t
     end.

(** [key in obj] for a string [key]. *)
Definition contains (obj : pyval) (key : str) : result bool :=
  match obj with
  | PDict d => Ok match dict_get d key with Some _ => true | None => false end
  | PList l =>
      Ok (existsb (fun v => match v with
                            | PStr s => str_eqb s key
                            | _ => false
                            end) l)
  | PStr s => Ok (is_substring key s)
  | _ => Raise TypeError
  end.

(** [len(obj)] *)
Definition py_len (obj : pyval) : result Z :=
  match obj with
  | PStr s => Ok (Z.of_nat (length s))
  | PList l => Ok (Z.of_nat (length l))
  | PDict d => Ok (Z.of_nat (length d))
  | _ => Raise TypeError
  end.

(** [s.split(sep)] for a one-character separator; [cur] is the piece being
    read, reversed. *)
Fixpoint split_on_from (sep : N) (cur : str) (s : str) : list str :=
  match s with
  | [] => [rev cur]
  | c :: t =>
      if (c =? sep)%N then rev cur :: split_on_from sep [] t
      else split_on_from sep (c :: cur) t
  end.

Definition split_on (sep : N) (s : str) : list str := split_on_from sep [] s.

(** [doc.rfind(c, 0, pos)] *)
Definition rfind (doc : str) (c : N) (pos : Z) : Z :=
  let fix go (s : str) (i : Z) (found : Z) : Z :=
    match s with
    | [] => found
    | x :: t => go t (i + 1) (if (x =? c)%N then i else found)
    end in
  go (slice doc (Some 0) (Some pos)) 0 (-1).

(** The attributes [JSONDecodeError.__init__] computes. *)
Definition lineno (doc : str) (pos : Z) : Z :=
  Z.of_nat (count_occ N.eq_dec (slice doc (Some 0) (Some pos)) 10%N) + 1.

Definition colno (doc : str) (pos : Z) : Z := pos - rfind doc 10%N pos.

(** The unformatted messages of the decoder. *)
Definition message_text (msg : decode_msg) : str :=
  match msg with
  | ExpectingValue => lit "Expecting value"
  | ExtraData => lit "Extra data"
  | ExpectingPropertyName =>
      lit "Expecting property name enclosed in double quotes"
  | ExpectingColon => lit "Expecting ':' delimiter"
  | ExpectingComma => lit "Expecting ',' delimiter"
  | UnterminatedString => lit "Unterminated string starting at"
  | InvalidControlCharacter => lit "Invalid control character at"
  | InvalidEscape => lit "Invalid \escape"
  | InvalidUnicodeEscape => lit "Invalid \uXXXX escape"
  | UnexpectedBOM => lit "Unexpected UTF-8 BOM (decode using utf-8-sig)"
  end.

(** [e.<attr>] for a [JSONDecodeError]: it has [msg], [doc], [pos],
    [lineno] and [colno]. *)
Definition decode_error_attr (msg : decode_msg) (doc : str) (pos : Z)
    (attr : str) : result pyval :=
  if str_eqb attr (lit "msg") then Ok (PStr (message_text msg))
  else if str_eqb attr (lit "doc") then Ok (PStr doc)
  else if str_eqb attr (lit "pos") then Ok (PInt pos)
  else if str_eqb attr (lit "lineno") then Ok (PInt (lineno doc pos))
  else if str_eqb attr (lit "colno") then Ok (PInt (colno doc pos))
  else Raise (AttributeError attr).

(** ** [para.py] *)

Module Para.

(** *** [LLMProcessor.analyze_document], from the response on *)

Definition DATA_PREFIX : str := Eval cbv in lit "data: ".

(** The opening marker of line 141 and the closing marker of line 144. *)
Definition FENCE_JSON : str := [96; 96; 96; 106; 115; 111; 110]%N.
Definition FENCE : str := [96; 96; 96]%N.

(** The message of line 158. *)
Definition MISSING_SECTIONS : str :=
  [36820; 22238; 30340; 74; 83; 79; 78; 32570; 23569; 39;
   115; 101; 99; 116; 105; 111; 110; 115; 39; 23383; 27573]%N.

(** [data['choices'][0]] *)
Definition first_choice (data : pyval) : result pyval :=
  choices <- getitem data (lit "choices") ;;
  getitem0 choices.

(** The [try] block of lines 119-129 for one line of the stream; the result
    is the value of [full_content] after it. *)
Definition stream_chunk (full_content : str) (line : bytes) : io str :=
  line' <~ lift (utf8_decode line) ;;
  if startswith line' DATA_PREFIX then
    data <~ lift (json_loads (slice line' (Some 6) None)) ;;
    choice <~ lift (first_choice data) ;;
    finish_reason <~ lift (getitem choice (lit "finish_reason")) ;;
    if negb (is_none finish_reason) then ret full_content
    else
      choice' <~ lift (first_choice data) ;;
      delta <~ lift (getitem choice' (lit "delta")) ;;
      content <~ lift (get_method delta (lit "content") (PStr [])) ;;
      if truthy content then
        print_value content (PrintFragment content) >>
        lift (str_iadd full_content content)
      else ret full_content
  else ret full_content.

(** One iteration of the loop of line 117: an empty line is passed over,
    and an exception of the [try] block is printed and the loop goes on
    with [full_content] as it was. *)
Definition stream_line (full_content : str) (line : bytes) : io str :=
  match line with
  | [] => ret full_content
  | _ =>
      try_except (stream_chunk full_content line) is_Exception
        (fun e => print (PrintStreamError e) >> ret full_content)
  end.

(** The loop over [response.iter_lines()]. *)
Fixpoint receive (lines : list bytes) (full_content : str) : io str :=
  match lines with
  | [] => ret full_content
  | line :: rest =>
      full_content' <~ stream_line full_content line ;;
      receive rest full_content'
  end.

(** Lines 140-146: the payload without its fence. *)
Definition strip_fence (full_content : str) : io str :=
  let content := strip full_content in
  content <~ (if startswith content FENCE_JSON
              then print PrintFenceDetected >>
                   ret (slice content (Some 7) None)
              else ret content) ;;
  let content := if endswith content FENCE
                 then slice content None (Some (-3))
                 else content in
  ret (strip content).

(** Lines 148-163, after the payload was cleaned. *)
Definition decode_sections (content : str) : io pyval :=
  print PrintFinalHeader >> print PrintDivider >>
  print (PrintFinalContent content) >> print PrintDivider >>
  print PrintParsing >>
  parsed_result <~ lift (json_loads content) ;;
  print PrintParsed >>
  present <~ lift (contains parsed_result (lit "sections")) ;;
  if negb present then lift (Raise (ValueError MISSING_SECTIONS))
  else
    sections <~ lift (getitem parsed_result (lit "sections")) ;;
    n <~ lift (py_len sections) ;;
    print (PrintSectionsLength n) >>
    print PrintValidated >>
    ret parsed_result.

(** The handler of lines 165-174, entered with the cleaned [content]. *)
Definition on_decode_error (content : str) (e : exn) : io pyval :=
  match e with
  | JSONDecodeError msg doc pos =>
      print (PrintJSONError e) >>
      print (PrintErrorPosition (lineno doc pos) (colno doc pos)) >>
      char <~ lift (decode_error_attr msg doc pos (lit "char")) ;;
      print (PrintErrorChar char) >>
      print PrintProblemLineHeader >>
      let lines := split_on 10 content in
      (if lineno doc pos <=? Z.of_nat (length lines)
       then
         match nth_error lines (Z.to_nat (lineno doc pos - 1)) with
         | Some line =>
             print (PrintProblemLine line) >>
             print (PrintCaret (str_mul 32 (colno doc pos - 1) ++ [94%N]))
         | None => lift (Raise IndexError)
         end
       else ret tt) >>
      lift (Raise e)
  | _ => lift (Raise e)
  end.

(** Lines 138-174.  The handler sees the value [content] has when the
    decoder raises, which is the cleaned payload. *)
Definition parse_payload (full_content : str) : io pyval :=
  print PrintCleaning >>
  content <~ strip_fence full_content ;;
  try_except (decode_sections content) is_JSONDecodeError
    (on_decode_error content).

(** The handler of lines 189-194. *)
Definition on_error (e : exn) : io pyval :=
  print (PrintLLMError e) >> print (PrintTraceback e) >> lift (Raise e).

(** [analyze_document] from line 107 on: [status_code], the lines of
    [iter_lines()] and [response.text] are what the request returned. *)
Definition analyze_document (status_code : Z) (lines : list bytes)
    (text : str) : io pyval :=
  try_except
    (print (PrintStatus status_code) >>
     if status_code =? 200 then
       print PrintReceiving >> print PrintDivider >>
       full_content <~ receive lines [] ;;
       print PrintReceived >> print PrintDivider >>
       parse_payload full_content
     else
       print (PrintApiFailed status_code text) >>
       lift (Raise (ApiError status_code text)))
    is_Exception on_error.

(** *** [PDFProcessor] *)

Record ParagraphRecord : Type := {
  paragraph_id : str;
  heading_level : pyval;
  chapter : pyval;
  content : str;
  word_count : Z;
  translation_status : str;
  position_page : Z;
  position_sequence : pyval
}.

(** The literal of line 253. *)
Definition FALLBACK_CHAPTER : str := [26410; 31867]%N.

Definition PENDING : str := Eval cbv in lit "pending".

(** [PDFProcessor._estimate_page_number] *)
Definition _estimate_page_number (start_position : Z) : Z :=
  let chars_per_page := 2000 in
  Z.max 1 (start_position / chars_per_page + 1).

(** [start_position // chars_per_page + 1] is reached only after
    [start_position] has been used as a slice bound, so it is [None], a
    [bool] or an [int]; [None] has no floor division. *)
Definition estimate_page_of (start_position : pyval) : result Z :=
  match start_position with
  | PInt z => Ok (_estimate_page_number z)
  | PBool b => Ok (_estimate_page_number (if b then 1 else 0))
  | _ => Raise TypeError
  end.

(** [PDFProcessor._create_paragraph_dict]; [new_id] is the value of
    [str(uuid.uuid4())]. *)
Definition _create_paragraph_dict (new_id : str) (content : str)
    (heading_level chapter_path : pyval) (page_num : Z)
  : result ParagraphRecord :=
  is_heading <- gt_zero heading_level ;;
  formatted_chapter <-
    (if is_heading
     then h <- hashes heading_level ;; Ok (PStr (h ++ [32%N] ++ content))
     else Ok (if truthy chapter_path
              then chapter_path
              else PStr FALLBACK_CHAPTER)) ;;
  Ok {| paragraph_id := new_id;
        heading_level := heading_level;
        chapter := formatted_chapter;
        content := strip content;
        word_count := Z.of_nat (length (split content));
        translation_status := PENDING;
        position_page := page_num;
        position_sequence := PNone |}.

Section Materializer.

(** [uuid4 n] is the identifier the generator returns on its [n]-th call. *)
Variable uuid4 : nat -> str.

(** The body of the loop of [extract_text] (lines 226-236) for one
    [section]; [n] counts the identifiers drawn so far. *)
Definition materialize_section (full_text : str) (n : nat) (section : pyval)
  : result ParagraphRecord :=
  start_position <- getitem section (lit "start_position") ;;
  end_position <- getitem section (lit "end_position") ;;
  span <- slice_val full_text start_position end_position ;;
  let content := strip span in
  heading_level <- getitem section (lit "heading_level") ;;
  chapter_path <- getitem section (lit "chapter_path") ;;
  start_position' <- getitem section (lit "start_position") ;;
  page_num <- estimate_page_of start_position' ;;
  _create_paragraph_dict (uuid4 n) content heading_level chapter_path page_num.

(** The loop itself: [paragraphs.append] in iteration order; an exception
    in any iteration leaves the loop. *)
Fixpoint materialize_from (full_text : str) (n : nat) (sections : list pyval)
  : result (list ParagraphRecord) :=
  match sections with
  | [] => Ok []
  | section :: rest =>
      para_dict <- materialize_section full_text n section ;;
      paragraphs <- materialize_from full_text (S n) rest ;;
      Ok (para_dict :: paragraphs)
  end.

(** Lines 221-238 of [extract_text], from the result of
    [analyze_document] on. *)
Definition materialize (full_text : str) (llm_result : pyval)
  : result (list ParagraphRecord) :=
  if negb (truthy llm_result)
  then Raise (Exception [76; 76; 77; 20998; 26512; 22833; 36133]%N)
  else
    sections_val <- getitem llm_result (lit "sections") ;;
    sections <- py_iter sections_val ;;
    materialize_from full_text 0 sections.

(** [extract_text] once the text of the PDF is read: the request, the
    materializer, and the handler of lines 240-242. *)
Definition extract_text (full_text : str) (status_code : Z)
    (lines : list bytes) (text : str) : io (list ParagraphRecord) :=
  try_except
    (llm_result <~ analyze_document status_code lines text ;;
     lift (materialize full_text llm_result))
    is_Exception
    (fun e => print (LogError e) >> lift (Raise e)).

End Materializer.

End Para.

(** ** [para-kimi.py] *)

Module ParaKimi.

Record ParagraphRecord : Type := {
  paragraph_id : str;
  heading_level : pyval;
  chapter : str;
  content : str;
  word_count : Z;
  translation_status : str;
  position_page : Z;
  position_sequence : pyval
}.

(** The literal of line 187. *)
Definition FALLBACK_CHAPTER : str := [26410; 20998; 31867]%N.

Definition PENDING : str := Eval cbv in lit "pending".

Definition SEPARATOR : str := Eval cbv in lit " > ".

(** [PDFProcessor._estimate_page_number] *)
Definition _estimate_page_number (position : Z) : Z :=
  Z.max 1 (position / 2000 + 1).

(** [sep.join(paths)] *)
Fixpoint join (sep : str) (paths : list str) : str :=
  match paths with
  | [] => []
  | [p] => p
  | p :: rest => p ++ sep ++ join sep rest
  end.

(** The loop of lines 183-184, for titles that are strings. *)
Fixpoint format_paths (chapter_stack : list (pyval * str))
  : result (list str) :=
  match chapter_stack with
  | [] => Ok []
  | (level, title) :: rest =>
      h <- hashes level ;;
      paths <- format_paths rest ;;
      Ok ((h ++ [32%N] ++ title) :: paths)
  end.

(** [PDFProcessor._create_paragraph_dict], for a [content] that is a
    string. *)
Definition _create_paragraph_dict (new_id : str) (content : str)
    (heading_level : pyval) (chapter_stack : list (pyval * str))
    (page_num : Z) : result ParagraphRecord :=
  is_heading <- gt_zero heading_level ;;
  chapter_path <-
    (if is_heading
     then h <- hashes heading_level ;; Ok (h ++ [32%N] ++ content)
     else match chapter_stack with
          | _ :: _ =>
              paths <- format_paths chapter_stack ;;
              Ok (join SEPARATOR paths)
          | [] => Ok FALLBACK_CHAPTER
          end) ;;
  Ok {| paragraph_id := new_id;
        heading_level := heading_level;
        chapter := chapter_path;
        content := strip content;
        word_count := Z.of_nat (length (split content));
        translation_status := PENDING;
        position_page := page_num;
        position_sequence := PNone |}.

End ParaKimi.

(** ** The specification's wording, for comparison *)

(** [text[start:stop]] for offsets already inside the text. *)
Definition span (text : str) (start stop : Z) : str :=
  firstn (Z.to_nat (stop - start)) (skipn (Z.to_nat start) text).

(** An offset brought into [0 .. len] by clamping. *)
Definition clamp (len i : Z) : Z := Z.max 0 (Z.min i len).

(** The span between two clamped offsets. *)
Definition clamped_span (text : str) (start stop : Z) : str :=
  let len := Z.of_nat (length text) in
  span text (clamp len start) (clamp len stop).

(** The fallback literal of the specification. *)
Definition UNCLASSIFIED : str := [26410; 20998; 31867]%N.

(** A section as the data model types it. *)
Record SectionDescriptor : Type := {
  d_heading_level : Z;
  d_chapter_path : str;
  d_start_position : Z;
  d_end_position : Z
}.

(** The decoded object [section] carries the fields of [d]; other keys may
    be present. *)
Definition describes (section : pyval) (d : SectionDescriptor) : Prop :=
  getitem section (lit "heading_level") = Ok (PInt (d_heading_level d)) /\
  getitem section (lit "chapter_path") = Ok (PStr (d_chapter_path d)) /\
  getitem section (lit "start_position") = Ok (PInt (d_start_position d)) /\
  getitem section (lit "end_position") = Ok (PInt (d_end_position d)).

(** The object the prompt asks the model to emit for [d]. *)
Definition section_object (d : SectionDescriptor) : pyval :=
  PDict [(lit "heading_level", PInt (d_heading_level d));
         (lit "chapter_path", PStr (d_chapter_path d));
         (lit "start_position", PInt (d_start_position d));
         (lit "end_position", PInt (d_end_position d))].

Definition valid_offsets (text : str) (d : SectionDescriptor) : Prop :=
  0 <= d_start_position d /\
  d_start_position d <= d_end_position d /\
  d_end_position d <= Z.of_nat (length text).

(** The text the assembler has accumulated when the stream ends. *)
Definition assembled (lines : list bytes) : result str :=
  snd (Para.receive lines []).

(** [line] is a well-formed chunk of the stream that holds [fragment]:
    the marker, then an object whose first choice has no finish reason and
    a delta with that content (no content at all is the empty fragment). *)
Definition chunk_holds (line : bytes) (fragment : str) : Prop :=
  line <> [] /\
  exists text data choice delta,
    utf8_decode line = Ok text /\
    startswith text Para.DATA_PREFIX = true /\
    json_loads (slice text (Some 6) None) = Ok data /\
    Para.first_choice data = Ok choice /\
    getitem choice (lit "finish_reason") = Ok PNone /\
    getitem choice (lit "delta") = Ok delta /\
    get_method delta (lit "content") (PStr []) = Ok (PStr fragment).

(** [line] carries [fragment] into the text: it holds it, and the console
    can show it. *)
Definition chunk_carries (line : bytes) (fragment : str) : Prop :=
  chunk_holds line fragment /\ console_accepts fragment = true.

(** The heading level of the data model. *)
Definition valid_level (d : SectionDescriptor) : Prop :=
  0 <= d_heading_level d <= 6.

(** [content] is [span] without the whitespace at its two ends. *)
Definition trimmed (span content : str) : Prop :=
  exists w1 w2,
    span = w1 ++ content ++ w2 /\
    Forall (fun c => isspace c = true) w1 /\
    Forall (fun c => isspace c = true) w2 /\
    match content with [] => True | c :: _ => isspace c = false end /\
    match rev content with [] => True | c :: _ => isspace c = false end.


(** What the loop over the stream may print. *)
Definition is_stream_event (ev : event) : Prop :=
  match ev with
  | PrintFragment _ | PrintStreamError _ => True
  | _ => False
  end.

(** A literal written with apostrophes where the text has double quotes. *)
Definition quoted (s : string) : str :=
  List.map (fun c => if (c =? 39)%N then 34%N else c) (lit s).

(** Lines of a stream, for the examples. *)
Definition chunk_ab : bytes :=
  quoted "data: {'choices': [{'delta': {'content': 'ab'}, 'finish_reason': null}]}".

Definition chunk_cd : bytes :=
  quoted "data: {'choices': [{'delta': {'content': 'cd'}, 'finish_reason': null}]}".

Definition chunk_abcd : bytes :=
  quoted "data: {'choices': [{'delta': {'content': 'abcd'}, 'finish_reason': null}]}".


(** Chunks whose content has the escape of a lone surrogate, alone and
    inside a text. *)
Definition LONE_SURROGATE : N := 55357.

Definition chunk_lone : bytes :=
  quoted "data: {'choices': [{'delta': {'content': '\ud83d'}, 'finish_reason': null}]}".


(** ** Vocabulary for the properties of the decoder and the parser *)

(** [s] does not begin with whitespace. *)
Definition no_lead (s : str) : Prop :=
  match s with
  | [] => True
  | c :: _ => isspace c = false
  end.

(** Whitespace of JSON only. *)
Definition json_blank (w : str) : Prop :=
  Forall (fun c => is_json_ws c = true) w.

(** [r] does not begin with whitespace of JSON. *)
Definition head_not_blank (r : str) : Prop :=
  match r with
  | [] => True
  | x :: _ => is_json_ws x = false
  end.

(** [r] does not begin with a digit. *)
Definition no_digit_head (r : str) : Prop :=
  match r with
  | [] => True
  | x :: _ => is_digit x = false
  end.

(** What may follow a number without changing how it is read. *)
Definition stops (r : str) : Prop :=
  match r with
  | [] => True
  | x :: _ => is_digit x = false /\ x <> 46%N /\ x <> 101%N /\ x <> 69%N
  end.

Definition all_digits (ds : str) : Prop :=
  Forall (fun c => is_digit c = true) ds.

(** The sign of a number as written. *)
Definition minus_sign (neg : bool) : str := if neg then [45%N] else [].

(** The text of an exponent: the letter, the sign as written, the
    digits. *)
Definition exp_text (ec : str) (eneg : bool) (ds : str) : Prop :=
  exists e sign,
    ec = e :: sign ++ ds /\
    (e = 101%N \/ e = 69%N) /\
    (sign = [] /\ eneg = false \/ sign = [43%N] /\ eneg = false
     \/ sign = [45%N] /\ eneg = true).

(** The text of a number begins with a digit, or a minus sign and a digit,
    and ends with a digit. *)
Definition number_text (c : str) : Prop :=
  (exists d c', is_digit d = true /\ (c = d :: c' \/ c = 45%N :: d :: c')) /\
  (exists c' l, is_digit l = true /\ c = c' ++ [l]).

(** A character that trimming keeps and that belongs to no fence: no
    whitespace, no backquote, no byte order mark. *)
Definition edge (x : N) : bool :=
  negb (isspace x) && negb (x =? 96)%N && negb (x =? 65279)%N.

(** The text of a value: not empty, with such a character at each end. *)
Definition value_text (c : str) : Prop :=
  c <> [] /\ edge (hd 0%N c) = true /\ edge (last c 0%N) = true.

(** [scan_once] read [v] from the front of [s] and left [rest]: the text
    it read is the text of a value, and is read to [v] again before any
    continuation that cannot extend a number, given fuel for twice its
    length. *)
Definition value_local (s : str) (v : pyval) (rest : str) : Prop :=
  exists c,
    s = c ++ rest /\ value_text c /\
    forall fuel rest',
      (2 * length c <= fuel)%nat -> stops rest' ->
      scan_once fuel (c ++ rest') = Parsed v rest'.

(** The same for the loop of an array, up to its closing bracket. *)
Definition array_local (s : str) (acc : list pyval) (v : pyval) (rest : str)
  : Prop :=
  exists c,
    s = c ++ 93%N :: rest /\ c <> [] /\
    forall fuel rest',
      (2 * length c + 2 <= fuel)%nat ->
      array_loop fuel (c ++ 93%N :: rest') acc = Parsed v rest'.

(** The same for the loop of an object, up to its closing brace. *)
Definition object_local (s : str) (d : list (str * pyval)) (v : pyval)
    (rest : str) : Prop :=
  exists c,
    s = c ++ 125%N :: rest /\ c <> [] /\
    forall fuel rest',
      (2 * length c + 2 <= fuel)%nat ->
      object_loop fuel (c ++ 125%N :: rest') d = Parsed v rest'.

(** The text of a named constant. *)
Definition constant_text (c : str) : Prop :=
  c = NULL \/ c = TRUE \/ c = FALSE \/ c = NAN \/ c = INFINITY
  \/ c = NEG_INFINITY.

(** Whitespace as [strip] understands it. *)
Definition blank (w : str) : Prop := Forall (fun c => isspace c = true) w.

(** [payload] between an opening marker and the closing marker, with
    whitespace around the markers. *)
Definition fenced (opening w1 w2 w3 w4 payload : str) : str :=
  w1 ++ opening ++ w2 ++ payload ++ w3 ++ Para.FENCE ++ w4.

(** An object whose [sections] field holds an array. *)
Definition structured_result (v : pyval) : Prop :=
  exists d sections,
    v = PDict d /\ dict_get d (lit "sections") = Some (PList sections).

(** A payload with no section, for the examples. *)
Definition payload_empty_sections : str := quoted "{'sections': []}".

(** The text of the string fragments among what was printed. *)
Fixpoint echoed (out : list event) : str :=
  match out with
  | [] => []
  | PrintFragment (PStr s) :: rest => s ++ echoed rest
  | _ :: rest => echoed rest
  end.

(** [line] is no chunk: it is empty, or it is text without the marker. *)
Definition not_a_chunk (line : bytes) : Prop :=
  line = [] \/
  exists text,
    utf8_decode line = Ok text /\ startswith text Para.DATA_PREFIX = false.

(** [line] carries the marker and an object whose first choice is
    [choice]. *)
Definition chunk_of_choice (line : bytes) (choice : pyval) : Prop :=
  line <> [] /\
  exists text data,
    utf8_decode line = Ok text /\
    startswith text Para.DATA_PREFIX = true /\
    json_loads (slice text (Some 6) None) = Ok data /\
    Para.first_choice data = Ok choice.

(** ** [PDFProcessor.print_summary] of [para.py] *)

Module Summary.

(** What [print_summary] prints: the title, a rule of 110 dashes, the
    column heads, one row per listed paragraph and the totals. *)
Inductive summary_event : Type :=
| SummaryTitle
| SummaryRule
| SummaryColumns
| SummaryRow (idx : Z) (heading chapter : str) (word_count page : Z)
    (status : str)
| SummaryTotals (total_paras total_words : Z).

(** The labels of line 298. *)
Definition HEADING_LABEL : str := [26631; 39064]%N.
Definition BODY_LABEL : str := [27491; 25991]%N.

(** [s.ljust(width)] *)
Definition ljust (s : str) (width : nat) : str :=
  s ++ repeat 32%N (width - length s).

Section Table.

(** The exception of [d[:28]] for a dictionary [d], which depends on the
    version of the interpreter. *)
Variable dict_slice_error : exn.

(** The condition of the comprehension of line 295. *)
Definition significant (p : Para.ParagraphRecord) : result bool :=
  is_heading <- gt_zero (Para.heading_level p) ;;
  Ok (is_heading || (100 <? Para.word_count p)).

(** The comprehension itself. *)
Fixpoint significant_paras (paragraphs : list Para.ParagraphRecord)
  : result (list Para.ParagraphRecord) :=
  match paragraphs with
  | [] => Ok []
  | p :: rest =>
      keep <- significant p ;;
      kept <- significant_paras rest ;;
      Ok (if keep then p :: kept else kept)
  end.

(** The expression of line 300. *)
Definition chapter_column (chapter : pyval) : result str :=
  n <- py_len chapter ;;
  if 30 <? n
  then match chapter with
       | PStr s => Ok (slice s None (Some 28) ++ [46; 46]%N)
       | PDict _ => Raise dict_slice_error
       | _ => Raise TypeError
       end
  else match chapter with
       | PStr s => Ok (ljust s 30)
       | _ => Raise (AttributeError (lit "ljust"))
       end.

(** The loop of line 297, from the row numbered [idx] on.  The row is
    printed on line 301, and the console refuses a chapter that holds a
    lone surrogate. *)
Fixpoint summary_rows (idx : Z) (paras : list Para.ParagraphRecord)
  : list summary_event * result unit :=
  match paras with
  | [] => ([], Ok tt)
  | para :: rest =>
      match gt_zero (Para.heading_level para) with
      | Raise e => ([], Raise e)
      | Ok is_heading =>
          let heading := if is_heading then HEADING_LABEL else BODY_LABEL in
          match chapter_column (Para.chapter para) with
          | Raise e => ([], Raise e)
          | Ok chapter =>
              if console_accepts chapter then
                let row := SummaryRow idx heading chapter
                             (Para.word_count para)
                             (Para.position_page para)
                             (Para.translation_status para) in
                let (out, r) := summary_rows (idx + 1) rest in
                (row :: out, r)
              else ([], Raise UnicodeEncodeError)
          end
      end
  end.

(** [sum(p['word_count'] for p in paragraphs)] *)
Definition total_words (paragraphs : list Para.ParagraphRecord) : Z :=
  fold_left (fun acc p => acc + Para.word_count p) paragraphs 0.

(** [print_summary] *)
Definition print_summary (paragraphs : list Para.ParagraphRecord)
  : list summary_event * result unit :=
  let head := [SummaryTitle; SummaryRule; SummaryColumns; SummaryRule] in
  match significant_paras paragraphs with
  | Raise e => (head, Raise e)
  | Ok paras =>
      match summary_rows 1 paras with
      | (rows, Raise e) => (head ++ rows, Raise e)
      | (rows, Ok _) =>
          (head ++ rows ++
           [SummaryRule;
            SummaryTotals (Z.of_nat (length paragraphs))
                          (total_words paragraphs)],
           Ok tt)
      end
  end.

End Table.

End Summary.

(** Whether [print_summary] lists the record, and the label it gives it. *)
Definition listed (p : Para.ParagraphRecord) : bool :=
  match Summary.significant p with
  | Ok keep => keep
  | Raise _ => false
  end.

Definition label (p : Para.ParagraphRecord) : str :=
  match gt_zero (Para.heading_level p) with
  | Ok true => Summary.HEADING_LABEL
  | _ => Summary.BODY_LABEL
  end.

(** The chapter column for a chapter that is a string: cut to 28 characters
    and two dots when it has more than 30, padded to 30 otherwise. *)
Definition column_text (s : str) : str :=
  if (30 <? length s)%nat
  then firstn 28 s ++ [46; 46]%N
  else s ++ repeat 32%N (30 - length s).

(** ** [welcome], [save_json] and [main] of [para.py] *)

Module Main.

(** What [main] catches: the two [FileNotFoundError]s of [welcome], or an
    exception of the run. *)
Inductive failure : Type :=
| NoPdfFile
| NoSuchFile (file_path : str)
| Failed (e : exn).

Inductive outcome (A : Type) : Type :=
| Done (a : A)
| Fail (f : failure).

Arguments Done {A} a.
Arguments Fail {A} f.

(** What the program prints and logs outside [analyze_document] and
    [print_summary], whose own output is wrapped; [AskPath] is the prompt
    of [input]. *)
Inductive main_event : Type :=
| WelcomeRule
| WelcomeTitle
| WelcomeSubtitle
| AskPath
| LogStart (pdf_path : str)
| PrintExtracted (length : Z)
| PrintAnalyzing
| Console (ev : event)
| LogSaved (input_path : str)
| LogSaveError (e : exn)
| Table (ev : Summary.summary_event)
| PrintDone
| LogMainError (f : failure)
| PrintMainError (f : failure).

(** What the program finds around it: the answer to [input], the files
    that [glob] lists, which paths exist, the text of each PDF, the
    response of the service, and whether the result file can be written. *)
Record World : Type := {
  typed : result str;
  pdf_files : list str;
  path_exists : str -> bool;
  pdf_text : str -> result str;
  status_code : Z;
  lines : list bytes;
  text : str;
  write : list Para.ParagraphRecord -> str -> result unit
}.

(** [PDFProcessor.welcome] *)
Definition welcome (w : World) : list main_event * outcome str :=
  let banner :=
    [WelcomeRule; WelcomeTitle; WelcomeSubtitle; WelcomeRule; AskPath] in
  match typed w with
  | Raise e => (banner, Fail (Failed e))
  | Ok answer =>
      let file_path := strip answer in
      match file_path with
      | [] =>
          match pdf_files w with
          | [] => (banner, Fail NoPdfFile)
          | first :: _ => (banner, Done first)
          end
      | _ :: _ =>
          if negb (path_exists w file_path)
          then (banner, Fail (NoSuchFile file_path))
          else (banner, Done file_path)
      end
  end.

(** [PDFProcessor.save_json] *)
Definition save_json (w : World) (paragraphs : list Para.ParagraphRecord)
    (input_path : str) : list main_event * result unit :=
  match write w paragraphs input_path with
  | Ok _ => ([LogSaved input_path], Ok tt)
  | Raise e => ([LogSaveError e], Raise e)
  end.

Section Program.

Variable dict_slice_error : exn.
Variable uuid4 : nat -> str.

(** [PDFProcessor.extract_text], with the reading of the PDF. *)
Definition extract_text (w : World) (pdf_path : str)
  : list main_event * result (list Para.ParagraphRecord) :=
  match pdf_text w pdf_path with
  | Raise e => ([LogStart pdf_path; Console (LogError e)], Raise e)
  | Ok full_text =>
      let (out, r) :=
        Para.extract_text uuid4 full_text (status_code w) (lines w) (text w)
      in
      (LogStart pdf_path :: PrintExtracted (Z.of_nat (length full_text))
         :: PrintAnalyzing :: map Console out,
       r)
  end.

(** The handler of lines 348-351. *)
Definition report_failure (out : list main_event) (f : failure)
  : list main_event * Z :=
  (out ++ [LogMainError f; PrintMainError f], 1).

(** [main] from its [try] on: the output and the exit status. *)
Definition main (w : World) : list main_event * Z :=
  match welcome w with
  | (o1, Fail f) => report_failure o1 f
  | (o1, Done pdf_path) =>
      match extract_text w pdf_path with
      | (o2, Raise e) => report_failure (o1 ++ o2) (Failed e)
      | (o2, Ok paragraphs) =>
          match save_json w paragraphs pdf_path with
          | (o3, Raise e) => report_failure (o1 ++ o2 ++ o3) (Failed e)
          | (o3, Ok _) =>
              match Summary.print_summary dict_slice_error paragraphs with
              | (o4, Raise e) =>
                  report_failure (o1 ++ o2 ++ o3 ++ map Table o4) (Failed e)
              | (o4, Ok _) =>
                  (o1 ++ o2 ++ o3 ++ map Table o4 ++ [PrintDone], 0)
              end
          end
      end
  end.

End Program.

End Main.

(** ** [str.format] with the one keyword argument [text]

    The two prompts are format strings, and [analyze_document] calls
    [prompt.format(text=text)] on them.  The scanner below follows
    CPython's [MarkupIterator_next], [parse_field] and [get_field_object]
    for a call with no positional argument and the one keyword [text].  What
    happens to a field that does find [text] but then asks for more (an
    attribute or an index, a conversion, a format specification that is not
    empty) is left to the parameter [render_other]. *)

(** A literal of the source that is not ASCII, from its UTF-8 bytes; a
    circumflex stands for a double quote. *)
Definition text_of (s : string) : str :=
  match utf8_decode (List.map (fun c => if (c =? 94)%N then 34%N else c)
                              (lit s)) with
  | Ok t => t
  | Raise _ => []
  end.

Module Format.

Definition SINGLE_OPEN : str :=
  Eval cbv in lit "Single '{' encountered in format string".
Definition SINGLE_CLOSE : str :=
  Eval cbv in lit "Single '}' encountered in format string".
Definition UNEXPECTED_OPEN : str :=
  Eval cbv in lit "unexpected '{' in field name".
Definition EXPECTED_CLOSE : str :=
  Eval cbv in lit "expected '}' before end of string".
Definition END_IN_CONVERSION : str :=
  Eval cbv in lit "end of string while looking for conversion specifier".
Definition EXPECTED_COLON : str :=
  Eval cbv in lit "expected ':' after conversion specifier".
Definition UNMATCHED_OPEN : str :=
  Eval cbv in lit "unmatched '{' in format spec".
Definition TOO_MANY_DIGITS : str :=
  Eval cbv in lit "Too many decimal digits in format string".

(** [PY_SSIZE_T_MAX] of a 64-bit build. *)
Definition PY_SSIZE_T_MAX : Z := 2 ^ 63 - 1.

(** The literal text up to the next brace, and the rest from that brace
    on. *)
Fixpoint literal_run (s : str) : str * str :=
  match s with
  | [] => ([], [])
  | c :: rest =>
      if ((c =? 123) || (c =? 125))%N then ([], s)
      else let (l, r) := literal_run rest in (c :: l, r)
  end.

(** The field name, the character that ends it (a closing brace, a colon
    or an exclamation mark) and what follows; [inside] is set between a
    bracket and its closing bracket, where every character is passed over. *)
Fixpoint field_name_end (inside : bool) (s : str) : result (str * N * str) :=
  match s with
  | [] => Raise (ValueError EXPECTED_CLOSE)
  | c :: rest =>
      if inside then
        r <- field_name_end (negb (c =? 93)%N) rest ;;
        let '(name, stop, after) := r in Ok (c :: name, stop, after)
      else if (c =? 123)%N then Raise (ValueError UNEXPECTED_OPEN)
      else if ((c =? 125) || (c =? 58) || (c =? 33))%N then Ok ([], c, rest)
      else
        r <- field_name_end (c =? 91)%N rest ;;
        let '(name, stop, after) := r in Ok (c :: name, stop, after)
  end.

(** The format specification, up to the brace that closes the field;
    [depth] counts the braces opened inside it. *)
Fixpoint spec_end (depth : nat) (s : str) : result (str * str) :=
  match s with
  | [] => Raise (ValueError UNMATCHED_OPEN)
  | c :: rest =>
      if (c =? 123)%N then
        r <- spec_end (S depth) rest ;;
        let (spec, after) := r in Ok (c :: spec, after)
      else if (c =? 125)%N then
        match depth with
        | O => Ok ([], rest)
        | S depth' =>
            r <- spec_end depth' rest ;;
            let (spec, after) := r in Ok (c :: spec, after)
        end
      else
        r <- spec_end depth rest ;;
        let (spec, after) := r in Ok (c :: spec, after)
  end.

(** A replacement field: its name, its conversion, its format
    specification, and the text after it. *)
Record field : Type := {
  field_name : str;
  conversion : option N;
  format_spec : option str;
  remaining : str
}.

(** [parse_field], on the text after the opening brace. *)
Definition parse_field (s : str) : result field :=
  r <- field_name_end false s ;;
  let '(name, stop, rest) := r in
  if (stop =? 125)%N then
    Ok {| field_name := name; conversion := None; format_spec := None;
          remaining := rest |}
  else if (stop =? 33)%N then
    match rest with
    | [] => Raise (ValueError END_IN_CONVERSION)
    | conv :: [] => Raise (ValueError UNMATCHED_OPEN)
    | conv :: c :: rest' =>
        if (c =? 125)%N then
          Ok {| field_name := name; conversion := Some conv;
                format_spec := None; remaining := rest' |}
        else if (c =? 58)%N then
          r' <- spec_end 0 rest' ;;
          let (spec, after) := r' in
          Ok {| field_name := name; conversion := Some conv;
                format_spec := Some spec; remaining := after |}
        else Raise (ValueError EXPECTED_COLON)
    end
  else
    r' <- spec_end 0 rest ;;
    let (spec, after) := r' in
    Ok {| field_name := name; conversion := None; format_spec := Some spec;
          remaining := after |}.

(** The part of a field name before its first dot or bracket, and the
    rest. *)
Fixpoint first_part (name : str) : str * str :=
  match name with
  | [] => ([], [])
  | c :: rest =>
      if ((c =? 46) || (c =? 91))%N then ([], name)
      else let (f, r) := first_part rest in (c :: f, r)
  end.

Section Formatting.

(** The decimal value of a digit that is not ASCII. *)
Variable unicode_decimal : N -> option Z.

(** The text of a field that finds [text] and asks for more: the rest of
    the name, the conversion and the format specification. *)
Variable render_other : str -> str -> option N -> option str -> result str.

Definition decimal_value (c : N) : option Z :=
  if ((48 <=? c) && (c <=? 57))%N then Some (Z.of_N c - 48)
  else if (c <? 128)%N then None
  else unicode_decimal c.

(** [get_integer]: the number a name denotes, if it is made of digits. *)
Fixpoint get_integer_from (accumulator : Z) (s : str) : result (option Z) :=
  match s with
  | [] => Ok (Some accumulator)
  | c :: rest =>
      match decimal_value c with
      | None => Ok None
      | Some digitval =>
          if (PY_SSIZE_T_MAX - digitval) / 10 <? accumulator
          then Raise (ValueError TOO_MANY_DIGITS)
          else get_integer_from (accumulator * 10 + digitval) rest
      end
  end.

Definition get_integer (s : str) : result (option Z) :=
  match s with
  | [] => Ok None
  | _ :: _ => get_integer_from 0 s
  end.

(** The text a field is replaced with.  A name that is empty or a number
    indexes the positional arguments, of which there are none; any other is
    looked up among the keywords. *)
Definition field_text (text : str) (f : field) : result str :=
  let (first, rest) := first_part (field_name f) in
  index <- get_integer first ;;
  match first, index with
  | [], _ => Raise IndexError
  | _ :: _, Some _ => Raise IndexError
  | _ :: _, None =>
      if str_eqb first (lit "text") then
        match rest, conversion f, format_spec f with
        | [], None, None => Ok text
        | [], None, Some [] => Ok text
        | _, _, _ => render_other text rest (conversion f) (format_spec f)
        end
      else Raise (KeyError (PStr first))
  end.

(** The loop of [build_string]: literal text, then an escaped brace or a
    field, until the template is used up.  Every round uses up at least two
    characters, so [fuel] above half the length is enough. *)
Fixpoint build_string (fuel : nat) (text : str) (template : str)
  : result str :=
  let (literal, rest) := literal_run template in
  match rest with
  | [] => Ok literal
  | c :: [] =>
      Raise (ValueError (if (c =? 125)%N then SINGLE_CLOSE else SINGLE_OPEN))
  | c :: (c' :: rest'') as rest' =>
      match fuel with
      | O => Raise RecursionError
      | S fuel' =>
          if (c' =? c)%N then
            out <- build_string fuel' text rest'' ;;
            Ok (literal ++ [c] ++ out)
          else if (c =? 125)%N then Raise (ValueError SINGLE_CLOSE)
          else
            f <- parse_field rest' ;;
            value <- field_text text f ;;
            out <- build_string fuel' text (remaining f) ;;
            Ok (literal ++ value ++ out)
      end
  end.

(** [template.format(text=text)] *)
Definition format (template text : str) : result str :=
  build_string (length template) text template.

End Formatting.

End Format.

(** ** The requests

    The prompt of [para.py] (lines 48-69) and the prompt of [para-kimi.py]
    (lines 48-68), character for character. *)

Module ParaRequest.

Definition prompt : str := text_of
"你是一个专业的文献分析助手。请分析以下学术文献的结构，识别所有标题及其层级。

        请严格按照以下JSON格式返回结果，确保返回的是合法的JSON（不要包含任何其他文本）：
        {{
            ^sections^: [
                {{
                    ^heading_level^: 0-6,  # 0表示正文，1-6表示标题级别
                    ^chapter_path^: ^完整的章节路径^,
                    ^start_position^: 在原文中的起始位置,
                    ^end_position^: 在原文中的结束位置
                }}
            ]
        }}

        注意：
        1. 只需返回文档结构信息，不要包含具体内容
        2. 对于正文段落，使用其所属章节作为chapter_path
        3. 确保start_position和end_position准确标记每个部分在原文中的位置

        以下是需要分析的文献内容：
        {text}
        ".

(** The prompt as the model is to receive it, before and after the
    document. *)
Definition PROMPT_HEAD : str := text_of
"你是一个专业的文献分析助手。请分析以下学术文献的结构，识别所有标题及其层级。

        请严格按照以下JSON格式返回结果，确保返回的是合法的JSON（不要包含任何其他文本）：
        {
            ^sections^: [
                {
                    ^heading_level^: 0-6,  # 0表示正文，1-6表示标题级别
                    ^chapter_path^: ^完整的章节路径^,
                    ^start_position^: 在原文中的起始位置,
                    ^end_position^: 在原文中的结束位置
                }
            ]
        }

        注意：
        1. 只需返回文档结构信息，不要包含具体内容
        2. 对于正文段落，使用其所属章节作为chapter_path
        3. 确保start_position和end_position准确标记每个部分在原文中的位置

        以下是需要分析的文献内容：
        ".

Definition PROMPT_TAIL : str := text_of
"
        ".

End ParaRequest.

Module KimiRequest.

Definition prompt : str := text_of
"你是一个专业的文献分析助手。请分析以下学术文献，并按照以下格式返回JSON结果：
        1. 识别所有标题及其层级（1-6级）
        2. 将正文按照语义完整性分段（每段建议400-600字）
        3. 为每个段落标注所属章节

        请返回如下格式的JSON：
        {
            ^sections^: [
                {
                    ^content^: ^段落内容^,
                    ^heading_level^: 0-6,
                    ^chapter_path^: ^完整的章节路径，例如：'引言 > 研究背景 > 具体小节'^,
                    ^start_position^: 正文中的起始位置,
                    ^end_position^: 正文中的结束位置
                }
            ]
        }

        以下是需要分析的文献内容：
        {text}
        ".

(** The text between the first brace of that prompt and the colon that
    follows it: a line break, twelve spaces and the quoted word. *)
Definition FIRST_FIELD : str :=
  [10%N] ++ repeat 32%N 12 ++ text_of "^sections^".

End KimiRequest.

(** The messages that accompany the prompts. *)
Definition PARA_SYSTEM_MESSAGE : str := text_of
"你是一个专业的文献分析助手。请只返回JSON格式的响应，不要包含任何其他文本。".

Definition KIMI_SYSTEM_MESSAGE : str := text_of "你是一个专业的文献分析助手。".

(** [str(n)] for an integer. *)
Definition str_of_int (n : Z) : str := lit (NilZero.string_of_int (Z.to_int n)).

Section Requests.

Variable unicode_decimal : N -> option Z.
Variable render_other : str -> str -> option N -> option str -> result str.

(** [request_data] of [para.py] (lines 82-90); [model] is what the
    environment gives for [KIMI_DEFAULT_MODEL]. *)
Definition request_data (model : pyval) (text : str) : result pyval :=
  content <- Format.format unicode_decimal render_other
               ParaRequest.prompt text ;;
  Ok (PDict
        [(lit "model", model);
         (lit "messages",
          PList [PDict [(lit "role", PStr (lit "system"));
                        (lit "content", PStr PARA_SYSTEM_MESSAGE)];
                 PDict [(lit "role", PStr (lit "user"));
                        (lit "content", PStr content)]]);
         (lit "temperature", PFloat (FDec false 3 (-1)));
         (lit "stream", PBool true)]).

End Requests.

(** ** [LLMProcessor.analyze_document] of [para-kimi.py] *)

Module KimiLLM.

Inductive kimi_event : Type :=
| PrintResponseHeader
| PrintRule
| PrintContent (content : pyval)
| PrintError (e : exn)
| LogFailure (e : exn).

(** What [requests.post] returns: the status, and what [response.json()]
    gives. *)
Record Response : Type := {
  status_code : Z;
  json : result pyval
}.

(** The message of line 92, without the status. *)
Definition API_FAILED : str := text_of "API调用失败: ".

(** Whether [print(value)] goes through: a string with a lone surrogate
    is refused by the console. *)
Definition shown_by_console (value : pyval) : bool :=
  match value with
  | PStr s => console_accepts s
  | _ => true
  end.

(** [result['choices'][0]['message']['content']] *)
Definition message_content (result' : pyval) : result pyval :=
  choices <- getitem result' (lit "choices") ;;
  choice <- getitem0 choices ;;
  message <- getitem choice (lit "message") ;;
  getitem message (lit "content").

Section Call.

Variable unicode_decimal : N -> option Z.
Variable render_other : str -> str -> option N -> option str -> result str.

(** The service: what [requests.post] does with the body it is sent. *)
Variable post : pyval -> result Response.

(** The [json] argument of lines 74-81. *)
Definition request_json (model : pyval) (text : str) : result pyval :=
  content <- Format.format unicode_decimal render_other
               KimiRequest.prompt text ;;
  Ok (PDict
        [(lit "model", model);
         (lit "messages",
          PList [PDict [(lit "role", PStr (lit "system"));
                        (lit "content", PStr KIMI_SYSTEM_MESSAGE)];
                 PDict [(lit "role", PStr (lit "user"));
                        (lit "content", PStr content)]]);
         (lit "temperature", PFloat (FDec false 3 (-1)))]).

(** The [try] block of lines 70-92. *)
Definition call (model : pyval) (text : str)
  : list kimi_event * result pyval :=
  match request_json model text with
  | Raise e => ([], Raise e)
  | Ok body =>
      match post body with
      | Raise e => ([], Raise e)
      | Ok response =>
          if status_code response =? 200 then
            match json response with
            | Raise e => ([], Raise e)
            | Ok result' =>
                match message_content result' with
                | Raise e => ([PrintResponseHeader; PrintRule], Raise e)
                | Ok content =>
                    if shown_by_console content then
                      ([PrintResponseHeader; PrintRule; PrintContent content;
                        PrintRule],
                       Ok content)
                    else
                      ([PrintResponseHeader; PrintRule],
                       Raise UnicodeEncodeError)
                end
            end
          else
            ([], Raise (Exception
                          (API_FAILED ++ str_of_int (status_code response))))
      end
  end.

(** [analyze_document]: whatever the block raises is printed, and [None]
    is returned. *)
Definition analyze_document (model : pyval) (text : str)
  : list kimi_event * pyval :=
  match call model text with
  | (out, Ok content) => (out, content)
  | (out, Raise e) => (out ++ [PrintError e], PNone)
  end.

End Call.

End KimiLLM.

(** ** [PDFProcessor.extract_text] of [para-kimi.py] *)

Module KimiPDF.

(** A record of [para-kimi.py]; the page is whatever [max] returns. *)
Record ParagraphRecord : Type := {
  paragraph_id : str;
  heading_level : pyval;
  chapter : str;
  content : str;
  word_count : Z;
  translation_status : str;
  position_page : pyval;
  position_sequence : pyval
}.

(** The message of line 144. *)
Definition ANALYSIS_FAILED : str := text_of "LLM分析失败".

Section Loop.

Variable uuid4 : nat -> str.

(** The text an f-string gives a value that is not a string. *)
Variable str_of : pyval -> str.

(** [max(1, position // 2000 + 1)] for a float. *)
Variable float_page : pyfloat -> pyval.

Definition shown (v : pyval) : str :=
  match v with
  | PStr s => s
  | _ => str_of v
  end.

(** [_estimate_page_number] for whatever the section holds. *)
Definition _estimate_page_number (position : pyval) : result pyval :=
  match position with
  | PInt z => Ok (PInt (ParaKimi._estimate_page_number z))
  | PBool b =>
      Ok (PInt (ParaKimi._estimate_page_number (if b then 1 else 0)))
  | PFloat f => Ok (float_page f)
  | _ => Raise TypeError
  end.

(** The loop of lines 183-184. *)
Fixpoint format_paths (chapter_stack : list (pyval * pyval))
  : result (list str) :=
  match chapter_stack with
  | [] => Ok []
  | (level, title) :: rest =>
      h <- hashes level ;;
      paths <- format_paths rest ;;
      Ok ((h ++ [32%N] ++ shown title) :: paths)
  end.

(** [_create_paragraph_dict] for whatever the section holds; [n] counts the
    identifiers drawn so far. *)
Definition _create_paragraph_dict (n : nat) (content heading_level : pyval)
    (chapter_stack : list (pyval * pyval)) (page_num : pyval)
  : result ParagraphRecord :=
  is_heading <- gt_zero heading_level ;;
  chapter_path <-
    (if is_heading
     then h <- hashes heading_level ;; Ok (h ++ [32%N] ++ shown content)
     else match chapter_stack with
          | _ :: _ =>
              paths <- format_paths chapter_stack ;;
              Ok (ParaKimi.join ParaKimi.SEPARATOR paths)
          | [] => Ok ParaKimi.FALLBACK_CHAPTER
          end) ;;
  match content with
  | PStr c =>
      Ok {| paragraph_id := uuid4 n;
            heading_level := heading_level;
            chapter := chapter_path;
            content := strip c;
            word_count := Z.of_nat (length (split c));
            translation_status := ParaKimi.PENDING;
            position_page := page_num;
            position_sequence := PNone |}
  | _ => Raise (AttributeError (lit "strip"))
  end.

(** The body of the loop of lines 151-158. *)
Definition paragraph_of (n : nat) (section : pyval) : result ParagraphRecord :=
  content <- getitem section (lit "content") ;;
  heading_level <- getitem section (lit "heading_level") ;;
  level <- getitem section (lit "heading_level") ;;
  title <- getitem section (lit "chapter_path") ;;
  position <- getitem section (lit "start_position") ;;
  page_num <- _estimate_page_number position ;;
  _create_paragraph_dict n content heading_level [(level, title)] page_num.

Fixpoint paragraphs_from (n : nat) (sections : list pyval)
  : result (list ParagraphRecord) :=
  match sections with
  | [] => Ok []
  | section :: rest =>
      para_dict <- paragraph_of n section ;;
      paragraphs <- paragraphs_from (S n) rest ;;
      Ok (para_dict :: paragraphs)
  end.

(** Lines 143-160, from the result of [analyze_document] on. *)
Definition materialize (llm_result : pyval)
  : result (list ParagraphRecord) :=
  if negb (truthy llm_result) then Raise (Exception ANALYSIS_FAILED)
  else
    decoded <- match llm_result with
               | PStr s => json_loads s
               | _ => Raise TypeError
               end ;;
    sections_val <- getitem decoded (lit "sections") ;;
    sections <- py_iter sections_val ;;
    paragraphs_from 0 sections.

Variable unicode_decimal : N -> option Z.
Variable render_other : str -> str -> option N -> option str -> result str.
Variable post : pyval -> result KimiLLM.Response.

(** [extract_text] from the call of [analyze_document] (line 141) on,
    with the handler of lines 162-164. *)
Definition extract_text (model : pyval) (full_text : str)
  : list KimiLLM.kimi_event * result (list ParagraphRecord) :=
  let (out, llm_result) :=
    KimiLLM.analyze_document unicode_decimal render_other post model
      full_text in
  match materialize llm_result with
  | Ok paragraphs => (out, Ok paragraphs)
  | Raise e => (out ++ [KimiLLM.LogFailure e], Raise e)
  end.

End Loop.

End KimiPDF.

(** More lines of a stream, for the examples: a chunk that closes the
    stream, a chunk whose choice has no finish reason, a chunk whose
    content is a number, a comment line, and a chunk that carries a whole
    payload. *)
Definition chunk_stop : bytes :=
  quoted "data: {'choices': [{'delta': {'content': 'zz'}, 'finish_reason': 'stop'}]}".

Definition chunk_bare_delta : bytes :=
  quoted "data: {'choices': [{'delta': {'content': 'zz'}}]}".

Definition chunk_number : bytes :=
  quoted "data: {'choices': [{'delta': {'content': 5}, 'finish_reason': null}]}".

Definition keep_alive : bytes := lit ": keep-alive".

(** A chunk that carries a payload with one heading over the first five
    characters. *)
Definition chunk_title : bytes :=
  quoted "data: {'choices': [{'delta': {'content': '{\'sections\': [{\'heading_level\': 1, \'chapter_path\': \'Title\', \'start_position\': 0, \'end_position\': 5}]}'}, 'finish_reason': null}]}".

Definition title_descriptor : SectionDescriptor :=
  {| d_heading_level := 1; d_chapter_path := lit "Title";
     d_start_position := 0; d_end_position := 5 |}.

Definition title_text : str := lit "Title  body of the text ".

Definition title_result : pyval :=
  PDict [(lit "sections", PList [section_object title_descriptor])].

(** A generator that never repeats itself. *)
Definition counting_uuid4 (n : nat) : str := repeat 97%N n.

(** A body of 101 words whose section gives a number as its chapter path. *)
Definition long_text : str := concat (repeat (lit "w ") 101).

Definition long_body_result : pyval :=
  PDict [(lit "sections",
          PList [PDict [(lit "heading_level", PInt 0);
                        (lit "chapter_path", PInt 5);
                        (lit "start_position", PInt 0);
                        (lit "end_position", PInt 202)]])].

Definition chunk_long_body : bytes :=
  quoted "data: {'choices': [{'delta': {'content': '{\'sections\': [{\'heading_level\': 0, \'chapter_path\': 5, \'start_position\': 0, \'end_position\': 202}]}'}, 'finish_reason': null}]}".

(** The records of a run, or none. *)
Definition records_of (full_text : str) (llm_result : pyval)
  : list Para.ParagraphRecord :=
  match Para.materialize counting_uuid4 full_text llm_result with
  | Ok paragraphs => paragraphs
  | Raise _ => []
  end.

(** A run in which the path is typed, the PDF holds [full_text], the
    service streams [lines] and the result file can be written. *)
Definition example_world (full_text : str) (lines : list bytes)
  : Main.World :=
  {| Main.typed := Ok (lit " paper.pdf ");
     Main.pdf_files := [];
     Main.path_exists := fun _ => true;
     Main.pdf_text := fun _ => Ok full_text;
     Main.status_code := 200;
     Main.lines := lines;
     Main.text := [];
     Main.write := fun _ _ => Ok tt |}.

(** A body section as [para-kimi.py] expects it. *)
Definition kimi_section : pyval :=
  PDict [(lit "content", PStr (lit "Body text"));
         (lit "heading_level", PInt 0);
         (lit "chapter_path", PStr (lit "Intro"));
         (lit "start_position", PInt 0)].

(** A payload with a heading and a body, delivered in two chunks between
    the tagged opening marker and the closing marker. *)
Definition body_descriptor : SectionDescriptor :=
  {| d_heading_level := 0; d_chapter_path := lit "Title";
     d_start_position := 6; d_end_position := 24 |}.

Definition two_result : pyval :=
  PDict [(lit "sections",
          PList [section_object title_descriptor;
                 section_object body_descriptor])].

Definition payload_head : str :=
  quoted "{'sections': [{'heading_level': 1, 'chapter_path': 'Title', 'start_position': 0, 'end_position': 5}, ".

Definition payload_tail : str :=
  quoted "{'heading_level': 0, 'chapter_path': 'Title', 'start_position': 6, 'end_position': 24}]}".

Definition chunk_head : bytes :=
  quoted "data: {'choices': [{'delta': {'content': '```json\n{\'sections\': [{\'heading_level\': 1, \'chapter_path\': \'Title\', \'start_position\': 0, \'end_position\': 5}, '}, 'finish_reason': null}]}".

Definition chunk_tail : bytes :=
  quoted "data: {'choices': [{'delta': {'content': '{\'heading_level\': 0, \'chapter_path\': \'Title\', \'start_position\': 6, \'end_position\': 24}]}\n```'}, 'finish_reason': null}]}".

(** A text with a title, a body of 101 words and a short body, and its
    three sections; the chapter path of the bodies has 45 characters. *)
Definition overview_text : str :=
  lit "Title " ++ long_text ++ lit "short body".

Definition LONG_PATH : str :=
  lit "A chapter path of more than thirty characters".

Definition overview_descriptors : list SectionDescriptor :=
  [{| d_heading_level := 1; d_chapter_path := lit "Title";
      d_start_position := 0; d_end_position := 5 |};
   {| d_heading_level := 0; d_chapter_path := LONG_PATH;
      d_start_position := 6; d_end_position := 208 |};
   {| d_heading_level := 0; d_chapter_path := LONG_PATH;
      d_start_position := 208; d_end_position := 218 |}].

Definition overview_result : pyval :=
  PDict [(lit "sections", PList (map section_object overview_descriptors))].

(** * Properties *)

(** ** Trimming *)

Lemma lstrip_no_lead (s : str) : no_lead (lstrip s).
Proof.
  induction s as [|c t IH]; simpl; [exact I|].
  destruct (isspace c) eqn:E; [exact IH | exact E].
Qed.

Lemma lstrip_fixed (s : str) : no_lead s -> lstrip s = s.
Proof.
  destruct s as [|c t]; simpl; [reflexivity|].
  intros H; rewrite H; reflexivity.
Qed.

Lemma lstrip_idem (s : str) : lstrip (lstrip s) = lstrip s.
Proof. apply lstrip_fixed, lstrip_no_lead. Qed.

Lemma lstrip_split (s : str) :
  exists w, Forall (fun c => isspace c = true) w /\ s = w ++ lstrip s.
Proof.
  induction s as [|c t (w & Hw & IH)]; simpl.
  - exists []; split; [constructor | reflexivity].
  - destruct (isspace c) eqn:E.
    + exists (c :: w); split; [constructor; assumption|].
      simpl; f_equal; exact IH.
    + exists []; split; [constructor | reflexivity].
Qed.

Lemma lstrip_spaces (w s : str) :
  Forall (fun c => isspace c = true) w -> lstrip (w ++ s) = lstrip s.
Proof.
  induction 1 as [|c w Hc _ IH]; simpl; [reflexivity|].
  rewrite Hc; exact IH.
Qed.

Lemma lstrip_app (a b : str) :
  lstrip (a ++ b) = match lstrip a with [] => lstrip b | _ => lstrip a ++ b end.
Proof.
  induction a as [|c t IH]; simpl; [reflexivity|].
  destruct (isspace c); [exact IH | reflexivity].
Qed.

Lemma rstrip_idem (s : str) : rstrip (rstrip s) = rstrip s.
Proof. unfold rstrip; rewrite rev_involutive, lstrip_idem; reflexivity. Qed.

Lemma rstrip_split (s : str) :
  exists w, Forall (fun c => isspace c = true) w /\ s = rstrip s ++ w.
Proof.
  destruct (lstrip_split (rev s)) as (w & Hw & E).
  exists (rev w); split.
  - apply Forall_rev; exact Hw.
  - unfold rstrip; rewrite <- rev_app_distr, <- E, rev_involutive; reflexivity.
Qed.

Lemma rstrip_no_lead (s : str) : no_lead s -> no_lead (rstrip s).
Proof.
  intros H; destruct (rstrip_split s) as (w & _ & E).
  destruct (rstrip s) as [|c t]; [exact I|].
  rewrite E in H; exact H.
Qed.

Lemma strip_idem (s : str) : strip (strip s) = strip s.
Proof.
  unfold strip at 1.
  rewrite (lstrip_fixed (strip s)).
  - unfold strip; apply rstrip_idem.
  - apply rstrip_no_lead, lstrip_no_lead.
Qed.

(** ** Slicing *)

Lemma slice_adjusted (text : str) (start stop : Z) :
  slice text (Some start) (Some stop) =
  span text (adjust_index (Z.of_nat (length text)) start)
            (adjust_index (Z.of_nat (length text)) stop).
Proof. reflexivity. Qed.

Lemma adjust_index_range (len i : Z) :
  0 <= len -> 0 <= adjust_index len i <= len.
Proof. unfold adjust_index; destruct (i <? 0) eqn:E; lia. Qed.

Lemma adjust_index_inside (len i : Z) :
  0 <= i <= len -> adjust_index len i = i.
Proof. unfold adjust_index; destruct (i <? 0) eqn:E; lia. Qed.

Lemma adjust_index_nonneg (len i : Z) :
  0 <= len -> 0 <= i -> adjust_index len i = clamp len i.
Proof. unfold adjust_index, clamp; destruct (i <? 0) eqn:E; lia. Qed.

Lemma span_reversed (text : str) (a b : Z) : b <= a -> span text a b = [].
Proof.
  intros H; unfold span.
  replace (Z.to_nat (b - a)) with 0%nat by lia; reflexivity.
Qed.

(** ** The page estimate *)

Lemma estimate_page_number_lower (z : Z) : 1 <= Para._estimate_page_number z.
Proof. unfold Para._estimate_page_number; lia. Qed.

Lemma estimate_page_number_mono (a b : Z) :
  a <= b -> Para._estimate_page_number a <= Para._estimate_page_number b.
Proof.
  intros H; unfold Para._estimate_page_number.
  pose proof (Z.div_le_mono a b 2000 ltac:(lia) H); lia.
Qed.

(** C8: for a start position that is not negative the estimated page is
    [max(1, start_position // 2000 + 1)]; it is at least 1, it does not
    decrease when the start position grows, position 0 is on page 1 and
    position 4500 on page 3. *)
Theorem C8_page_estimate (a b : Z) :
  0 <= a -> a <= b ->
  Para._estimate_page_number a = Z.max 1 (a / 2000 + 1) /\
  Para._estimate_page_number a = a / 2000 + 1 /\
  1 <= Para._estimate_page_number a /\
  Para._estimate_page_number a <= Para._estimate_page_number b /\
  Para._estimate_page_number 0 = 1 /\
  Para._estimate_page_number 4500 = 3.
Proof.
  intros Ha Hab; repeat split.
  - unfold Para._estimate_page_number.
    pose proof (Z.div_pos a 2000 Ha ltac:(lia)); lia.
  - apply estimate_page_number_lower.
  - apply estimate_page_number_mono; exact Hab.
Qed.

Lemma C8_page_estimate_witness :
  Para._estimate_page_number 1999 <= Para._estimate_page_number 2000.
Proof. apply (C8_page_estimate 1999 2000); lia. Defined.

(** C10: the page estimate is defined on every integer, is never below 1,
    and is exactly 1 on every start position below 2000, the negative ones
    included; the same holds of the estimator of [para-kimi.py]. *)
Theorem C10_page_estimate_total (start_position : Z) :
  1 <= Para._estimate_page_number start_position /\
  1 <= ParaKimi._estimate_page_number start_position /\
  (start_position < 2000 ->
   Para._estimate_page_number start_position = 1 /\
   ParaKimi._estimate_page_number start_position = 1).
Proof.
  unfold Para._estimate_page_number, ParaKimi._estimate_page_number.
  split; [lia | split; [lia|]].
  intros H.
  assert (start_position / 2000 <= 0).
  { destruct (Z_lt_le_dec start_position 0) as [Hn|Hp].
    - pose proof (Z.div_lt_upper_bound start_position 2000 0); lia.
    - rewrite Z.div_small; lia. }
  lia.
Qed.

Lemma C10_page_estimate_total_witness :
  Para._estimate_page_number (-4001) = 1 /\
  ParaKimi._estimate_page_number (-4001) = 1.
Proof. apply (C10_page_estimate_total (-4001)); lia. Defined.

(** ** The paragraph materializer *)

(** The hashes of a level of the data model are built. *)
Lemma hashes_level (z : Z) :
  0 <= z <= 6 -> hashes (PInt z) = Ok (str_mul 35 z).
Proof.
  intros H; unfold hashes.
  replace (PY_SSIZE_T_MAX <? z) with false
    by (symmetry; apply Z.ltb_ge; unfold PY_SSIZE_T_MAX; lia).
  replace (z <? - PY_SSIZE_T_MAX - 1) with false
    by (symmetry; apply Z.ltb_ge; unfold PY_SSIZE_T_MAX; lia).
  replace (ADDRESS_SPACE <=? z) with false; [reflexivity|].
  symmetry; apply Z.leb_gt; unfold ADDRESS_SPACE; lia.
Qed.

(** What [strip] returns is its argument without the whitespace at its two
    ends. *)
Lemma strip_is_trimmed (s : str) : trimmed s (strip s).
Proof.
  destruct (lstrip_split s) as (w1 & Hw1 & E1).
  destruct (rstrip_split (lstrip s)) as (w2 & Hw2 & E2).
  exists w1, w2; unfold strip.
  split; [rewrite <- E2; exact E1|].
  split; [exact Hw1|]; split; [exact Hw2|]; split.
  - apply rstrip_no_lead, lstrip_no_lead.
  - unfold rstrip; rewrite rev_involutive; apply lstrip_no_lead.
Qed.

Section MaterializerFacts.

Variable uuid4 : nat -> str.
Variable full_text : str.

(** One well-typed section yields one record, whatever its offsets are. *)
Lemma materialize_section_described (n : nat) (section : pyval)
    (d : SectionDescriptor) :
  describes section d ->
  valid_level d ->
  exists p,
    Para.materialize_section uuid4 full_text n section = Ok p /\
    Para.paragraph_id p = uuid4 n /\
    Para.heading_level p = PInt (d_heading_level d) /\
    Para.content p =
      strip (slice full_text (Some (d_start_position d))
                             (Some (d_end_position d))) /\
    Para.position_page p = Para._estimate_page_number (d_start_position d).
Proof.
  intros (Hh & Hc & Hs & He) Hlevel.
  unfold Para.materialize_section.
  rewrite Hs, He, Hh, Hc; cbn [bind slice_val as_bound Para.estimate_page_of].
  unfold Para._create_paragraph_dict; cbn [gt_zero bind].
  rewrite (hashes_level _ Hlevel).
  destruct (0 <? d_heading_level d); cbn [bind];
    (eexists; split; [reflexivity|]); cbn; rewrite strip_idem; auto.
Qed.

Lemma materialize_from_described (sections : list pyval)
    (ds : list SectionDescriptor) :
  Forall2 describes sections ds ->
  Forall valid_level ds ->
  forall n, exists paragraphs,
    Para.materialize_from uuid4 full_text n sections = Ok paragraphs /\
    Forall2 (fun d p =>
               Para.heading_level p = PInt (d_heading_level d) /\
               Para.content p =
                 strip (slice full_text (Some (d_start_position d))
                                        (Some (d_end_position d))) /\
               Para.position_page p =
                 Para._estimate_page_number (d_start_position d))
            ds paragraphs.
Proof.
  induction 1 as [|section d sections ds Hd _ IH]; intros Hlevels n; cbn.
  - exists []; split; [reflexivity | constructor].
  - inversion Hlevels as [|? ? Hlevel Hlevels']; subst.
    destruct (materialize_section_described n section d Hd Hlevel)
      as (p & Hp & _ & Hh & Hc & Hg).
    destruct (IH Hlevels' (S n)) as (ps & Hps & Hall).
    rewrite Hp, Hps; cbn.
    exists (p :: ps); split; [reflexivity|].
    constructor; auto.
Qed.

Lemma materialize_described (llm_result : pyval) (sections : list pyval)
    (ds : list SectionDescriptor) :
  getitem llm_result (lit "sections") = Ok (PList sections) ->
  Forall2 describes sections ds ->
  Forall valid_level ds ->
  exists paragraphs,
    Para.materialize uuid4 full_text llm_result = Ok paragraphs /\
    Forall2 (fun d p =>
               Para.heading_level p = PInt (d_heading_level d) /\
               Para.content p =
                 strip (slice full_text (Some (d_start_position d))
                                        (Some (d_end_position d))) /\
               Para.position_page p =
                 Para._estimate_page_number (d_start_position d))
            ds paragraphs.
Proof.
  intros Hget Hds Hlevels.
  unfold Para.materialize.
  assert (Ht : truthy llm_result = true).
  { destruct llm_result; try discriminate Hget.
    destruct d; [discriminate Hget | reflexivity]. }
  rewrite Ht, Hget; cbn.
  apply materialize_from_described; assumption.
Qed.

End MaterializerFacts.

(** C1: when every descriptor is one of the data model (a heading level
    from 0 to 6) and has [0 <= start_position <= end_position <=
    len(full_text)], the materializer returns one record per descriptor, in
    the order of the input array, and the content of each record is
    [full_text[start_position:end_position]] without the whitespace at its
    two ends: the span is whitespace, then the content, then whitespace,
    and the content neither begins nor ends with whitespace. *)
Theorem C1_materializer_content_in_order
    (uuid4 : nat -> str) (full_text : str) (llm_result : pyval)
    (sections : list pyval) (ds : list SectionDescriptor) :
  getitem llm_result (lit "sections") = Ok (PList sections) ->
  Forall2 describes sections ds ->
  Forall valid_level ds ->
  Forall (valid_offsets full_text) ds ->
  exists paragraphs,
    Para.materialize uuid4 full_text llm_result = Ok paragraphs /\
    length paragraphs = length sections /\
    Forall2 (fun d p =>
               Para.heading_level p = PInt (d_heading_level d) /\
               trimmed (span full_text (d_start_position d)
                                       (d_end_position d))
                       (Para.content p))
            ds paragraphs.
Proof.
  intros Hget Hds Hlevels Hvalid.
  destruct (materialize_described uuid4 full_text _ _ _ Hget Hds Hlevels)
    as (ps & Hps & Hall).
  exists ps; split; [exact Hps|]; split.
  - rewrite (Forall2_length Hds), (Forall2_length Hall); reflexivity.
  - clear Hps Hds Hget Hlevels.
    induction Hall as [|d p ds' ps' (Hh & Hc & _) _ IH]; constructor.
    + inversion Hvalid as [|? ? (H0 & H1 & H2) _]; subst.
      split; [exact Hh|].
      rewrite Hc, slice_adjusted, !adjust_index_inside by lia.
      apply strip_is_trimmed.
    + apply IH; inversion Hvalid; assumption.
Qed.

Lemma section_object_describes (d : SectionDescriptor) :
  describes (section_object d) d.
Proof. repeat split. Qed.

Lemma C1_materializer_content_in_order_witness :
  let text := lit "Title  body of the text " in
  let d1 := {| d_heading_level := 0; d_chapter_path := lit "Title";
               d_start_position := 6; d_end_position := 24 |} in
  let d2 := {| d_heading_level := 1; d_chapter_path := lit "Title";
               d_start_position := 0; d_end_position := 5 |} in
  exists paragraphs,
    Para.materialize (fun _ => []) text
      (PDict [(lit "sections", PList [section_object d1; section_object d2])])
    = Ok paragraphs /\
    length paragraphs = 2%nat /\
    Forall2 (fun d p =>
               Para.heading_level p = PInt (d_heading_level d) /\
               trimmed (span text (d_start_position d) (d_end_position d))
                       (Para.content p))
            [d1; d2] paragraphs /\
    span text 6 24 = lit " body of the text " /\
    span text 0 5 = lit "Title" /\
    map Para.content paragraphs = [lit "body of the text"; lit "Title"].
Proof.
  intros text d1 d2.
  destruct (C1_materializer_content_in_order (fun _ => []) text
              (PDict [(lit "sections",
                       PList [section_object d1; section_object d2])])
              [section_object d1; section_object d2] [d1; d2])
    as (paragraphs & Hm & Hlen & Hall).
  - reflexivity.
  - repeat constructor.
  - repeat constructor; cbn; lia.
  - repeat constructor; cbn; lia.
  - exists paragraphs; split; [exact Hm|]; split; [exact Hlen|].
    split; [exact Hall|]; split; [reflexivity|]; split; [reflexivity|].
    vm_compute in Hm; injection Hm as <-; reflexivity.
Defined.

(** C9 as the code has it: for integer offsets of any sign and order, and
    heading levels of the data model (0 to 6), the materializer raises
    nothing and returns one record per descriptor.  Each
    offset is adjusted as a slice bound: an offset past the end becomes the
    length, a negative offset counts from the end (and becomes 0 when it
    reaches before the start), and a stop at or before the start gives an
    empty content.  For offsets that are not negative this is the clamped
    span. *)
Theorem C9_materializer_total_on_integer_offsets
    (uuid4 : nat -> str) (full_text : str) (llm_result : pyval)
    (sections : list pyval) (ds : list SectionDescriptor) :
  getitem llm_result (lit "sections") = Ok (PList sections) ->
  Forall2 describes sections ds ->
  Forall valid_level ds ->
  exists paragraphs,
    Para.materialize uuid4 full_text llm_result = Ok paragraphs /\
    Forall2 (fun d p =>
               let len := Z.of_nat (length full_text) in
               let a := adjust_index len (d_start_position d) in
               let b := adjust_index len (d_end_position d) in
               Para.content p = strip (span full_text a b) /\
               0 <= a <= len /\ 0 <= b <= len /\
               (len <= d_start_position d -> a = len) /\
               (len <= d_end_position d -> b = len) /\
               (d_start_position d < 0 ->
                a = Z.max 0 (len + d_start_position d)) /\
               (d_end_position d < 0 ->
                b = Z.max 0 (len + d_end_position d)) /\
               (b <= a -> Para.content p = []) /\
               (0 <= d_start_position d -> 0 <= d_end_position d ->
                Para.content p =
                  strip (clamped_span full_text (d_start_position d)
                                                (d_end_position d))))
            ds paragraphs.
Proof.
  intros Hget Hds Hlevels.
  destruct (materialize_described uuid4 full_text _ _ _ Hget Hds Hlevels)
    as (ps & Hps & Hall).
  exists ps; split; [exact Hps|].
  clear Hps Hds Hget Hlevels.
  induction Hall as [|d p ds' ps' (_ & Hc & _) _ IH]; constructor;
    [|exact IH].
  cbv zeta.
  pose proof (Nat2Z.is_nonneg (length full_text)) as Hlen.
  rewrite slice_adjusted in Hc.
  split; [exact Hc|].
  split; [apply adjust_index_range; exact Hlen|].
  split; [apply adjust_index_range; exact Hlen|].
  split; [unfold adjust_index;
          destruct (d_start_position d <? 0) eqn:E; lia|].
  split; [unfold adjust_index;
          destruct (d_end_position d <? 0) eqn:E; lia|].
  split; [unfold adjust_index;
          destruct (d_start_position d <? 0) eqn:E; lia|].
  split; [unfold adjust_index;
          destruct (d_end_position d <? 0) eqn:E; lia|].
  split.
  - intros Hba; rewrite Hc, span_reversed by exact Hba; reflexivity.
  - intros Hs He; rewrite Hc; unfold clamped_span.
    rewrite !adjust_index_nonneg by assumption; reflexivity.
Qed.

Lemma C9_materializer_total_on_integer_offsets_witness :
  let text := lit "abcdef" in
  let d := {| d_heading_level := 0; d_chapter_path := lit "x";
              d_start_position := 9; d_end_position := 2 |} in
  exists paragraphs,
    Para.materialize (fun _ => []) text
      (PDict [(lit "sections", PList [section_object d])]) = Ok paragraphs /\
    Forall2 (fun _ p => Para.content p = []) [d] paragraphs.
Proof.
  intros text d.
  destruct (C9_materializer_total_on_integer_offsets (fun _ => []) text
              (PDict [(lit "sections", PList [section_object d])])
              [section_object d] [d])
    as (ps & Hps & Hall).
  - reflexivity.
  - repeat constructor.
  - repeat constructor; cbn; lia.
  - exists ps; split; [exact Hps|].
    inversion Hall as [|? p ? ps' Hp Hrest]; subst.
    inversion Hrest; subst.
    constructor; [|constructor].
    destruct Hp as (_ & _ & _ & _ & _ & _ & _ & Hrev & _).
    apply Hrev; vm_compute; discriminate.
Defined.

(** C9 as the specification words it fails: a negative offset is not
    clamped to 0.  On the text [abcdef] the descriptor with offsets -2 and 6
    is kept, and its content is [ef], while clamping gives [abcdef]. *)
Lemma C9_negative_offset_not_clamped :
  let text := lit "abcdef" in
  let d := {| d_heading_level := 0; d_chapter_path := lit "x";
              d_start_position := -2; d_end_position := 6 |} in
  exists p,
    Para.materialize (fun _ => []) text
      (PDict [(lit "sections", PList [section_object d])]) = Ok [p] /\
    Para.content p = lit "ef" /\
    strip (clamped_span text (d_start_position d) (d_end_position d))
      = lit "abcdef" /\
    Para.content p <>
      strip (clamped_span text (d_start_position d) (d_end_position d)).
Proof.
  cbv zeta; eexists; split; [vm_compute; reflexivity|].
  split; [reflexivity|]; split; [reflexivity|].
  vm_compute; discriminate.
Qed.

(** ** Chapter formatting *)

Lemma create_paragraph_dict_heading (new_id content : str) (level : Z)
    (chapter_path : pyval) (page_num : Z) :
  0 < level <= 6 ->
  exists r,
    Para._create_paragraph_dict new_id content (PInt level) chapter_path
      page_num = Ok r /\
    Para.chapter r = PStr (str_mul 35 level ++ [32%N] ++ content).
Proof.
  intros H6; unfold Para._create_paragraph_dict; cbn [gt_zero bind].
  rewrite (hashes_level level) by lia.
  replace (0 <? level) with true by (symmetry; apply Z.ltb_lt; lia).
  cbn [bind].
  eexists; split; reflexivity.
Qed.

Lemma create_paragraph_dict_body (new_id content : str) (level : Z)
    (chapter_path : pyval) (page_num : Z) :
  level <= 0 ->
  exists r,
    Para._create_paragraph_dict new_id content (PInt level) chapter_path
      page_num = Ok r /\
    Para.chapter r =
      if truthy chapter_path then chapter_path
      else PStr Para.FALLBACK_CHAPTER.
Proof.
  intros H; unfold Para._create_paragraph_dict; cbn [gt_zero bind].
  apply Z.ltb_ge in H; rewrite H; cbn [bind].
  eexists; split; reflexivity.
Qed.

(** C7, evaluated on the code: a heading of level 2 with content [Methods]
    gets the chapter [## Methods], and a body paragraph keeps a chapter path
    that is not empty; but for an empty chapter path [para.py] writes the
    two-character literal of its line 253, which is not the three-character
    fallback literal that the specification names and that [para-kimi.py]
    has on its line 187 ([para-kimi.py] itself puts a space before the
    chapter path of a body paragraph). *)
Theorem C7_fallback_literal_of_para_py :
  (exists r,
     Para._create_paragraph_dict [] (lit "Methods") (PInt 2)
       (PStr (lit "Intro")) 1 = Ok r /\
     Para.chapter r = PStr (lit "## Methods")) /\
  (exists r,
     Para._create_paragraph_dict [] (lit "text") (PInt 0)
       (PStr (lit "Intro")) 1 = Ok r /\
     Para.chapter r = PStr (lit "Intro")) /\
  (exists r,
     Para._create_paragraph_dict [] (lit "text") (PInt 0) (PStr []) 1
       = Ok r /\
     Para.chapter r = PStr [26410; 31867]%N /\
     Para.chapter r <> PStr UNCLASSIFIED) /\
  (exists r,
     Para._create_paragraph_dict [] (lit "text") (PInt 0) PNone 1 = Ok r /\
     Para.chapter r = PStr [26410; 31867]%N) /\
  (exists r,
     ParaKimi._create_paragraph_dict [] (lit "text") (PInt 0) [] 1 = Ok r /\
     ParaKimi.chapter r = UNCLASSIFIED) /\
  (exists r,
     ParaKimi._create_paragraph_dict [] (lit "text") (PInt 0)
       [(PInt 0, lit "Intro")] 1 = Ok r /\
     ParaKimi.chapter r = lit " Intro").
Proof.
  repeat split; eexists; (split; [reflexivity|]);
    try reflexivity.
  split; [reflexivity | discriminate].
Qed.

(** ** Printing computations *)

Lemma lift_ok_bind {A B : Type} (a : A) (k : A -> io B) :
  io_bind (lift (Ok a)) k = k a.
Proof. unfold io_bind, lift; destruct (k a); reflexivity. Qed.

Lemma lift_raise_bind {A B : Type} (e : exn) (k : A -> io B) :
  io_bind (lift (Raise e)) k = ([], Raise e).
Proof. reflexivity. Qed.

Lemma ret_bind {A B : Type} (a : A) (k : A -> io B) :
  io_bind (ret a) k = k a.
Proof. unfold io_bind, ret; destruct (k a); reflexivity. Qed.

Lemma print_bind {B : Type} (ev : event) (k : unit -> io B) :
  io_bind (print ev) k = (ev :: fst (k tt), snd (k tt)).
Proof. unfold io_bind, print; destruct (k tt); reflexivity. Qed.

Lemma io_bind_ok {A B : Type} (m : io A) (k : A -> io B) (a : A) :
  snd m = Ok a -> io_bind m k = (fst m ++ fst (k a), snd (k a)).
Proof.
  destruct m as [out r]; cbn; intros ->; destruct (k a); reflexivity.
Qed.

Lemma io_bind_raise {A B : Type} (m : io A) (k : A -> io B) (e : exn) :
  snd m = Raise e -> io_bind m k = (fst m, Raise e).
Proof. destruct m as [out r]; cbn; intros ->; reflexivity. Qed.

Lemma try_except_ok {A : Type} (body : io A) (catches : exn -> bool)
    (handler : exn -> io A) (a : A) :
  snd body = Ok a -> try_except body catches handler = body.
Proof. destruct body as [out r]; cbn; intros ->; reflexivity. Qed.

Lemma try_except_caught {A : Type} (body : io A) (catches : exn -> bool)
    (handler : exn -> io A) (e : exn) :
  snd body = Raise e -> catches e = true ->
  try_except body catches handler
  = (fst body ++ fst (handler e), snd (handler e)).
Proof.
  destruct body as [out r]; cbn; intros -> ->.
  destruct (handler e); reflexivity.
Qed.

Lemma try_except_passed {A : Type} (body : io A) (catches : exn -> bool)
    (handler : exn -> io A) (e : exn) :
  snd body = Raise e -> catches e = false ->
  try_except body catches handler = body.
Proof. destruct body as [out r]; cbn; intros -> ->; reflexivity. Qed.

(** ** The streaming assembler *)

Ltac io_step :=
  rewrite ?lift_ok_bind, ?lift_raise_bind, ?ret_bind, ?print_bind;
  cbv beta.

Ltac io_done :=
  cbn [try_except is_Exception io_bind print ret lift app fst snd str_iadd];
  try (eexists _, []; rewrite ?app_nil_r;
       split; [reflexivity | split; [reflexivity | repeat constructor]]);
  try (eexists _, _;
       split; [reflexivity | split; [reflexivity | repeat constructor]]).

(** No line of the stream makes the loop raise: its content is kept or
    extended, and what it prints does not depend on the content so far. *)
Lemma stream_line_appends (line : bytes) (full_content : str) :
  exists out added,
    Para.stream_line full_content line = (out, Ok (full_content ++ added)) /\
    Para.stream_line [] line = (out, Ok added) /\
    Forall is_stream_event out.
Proof.
  destruct line as [|b line']; [io_done|].
  set (line := b :: line').
  unfold Para.stream_line; fold line.
  unfold Para.stream_chunk.
  destruct (utf8_decode line) as [text|e]; io_step; [|io_done].
  destruct (startswith text Para.DATA_PREFIX); [|io_done].
  destruct (json_loads (slice text (Some 6) None)) as [data|e];
    io_step; [|io_done].
  destruct (Para.first_choice data) as [choice|e]; io_step; [|io_done].
  destruct (getitem choice (lit "finish_reason")) as [reason|e];
    io_step; [|io_done].
  destruct (negb (is_none reason)); [io_done|].
  destruct (getitem choice (lit "delta")) as [delta|e]; io_step; [|io_done].
  destruct (get_method delta (lit "content") (PStr [])) as [content|e];
    io_step; [|io_done].
  destruct (truthy content) eqn:Ht; [|io_done].
  destruct content as [| | | |s| |]; cbn [print_value];
    try destruct (console_accepts s); io_step; io_done.
Qed.

Lemma receive_appends (lines : list bytes) (full_content : str) :
  exists out added,
    Para.receive lines full_content = (out, Ok (full_content ++ added)) /\
    Para.receive lines [] = (out, Ok added) /\
    Forall is_stream_event out.
Proof.
  revert full_content; induction lines as [|line rest IH]; intros fc.
  - exists [], []; cbn; rewrite app_nil_r; repeat split; constructor.
  - destruct (stream_line_appends line fc) as (o1 & a1 & H1 & H1' & Ho1).
    destruct (IH (fc ++ a1)) as (o2 & a2 & H2 & H2' & _).
    destruct (IH a1) as (o3 & a3 & H3 & H3' & Ho3).
    rewrite H3' in H2'; injection H2' as <- <-.
    cbn [Para.receive].
    rewrite H1, H1'.
    rewrite (io_bind_ok _ _ (fc ++ a1)), (io_bind_ok _ _ a1) by reflexivity.
    rewrite H2, H3; cbn [fst snd].
    exists (o1 ++ o3), (a1 ++ a3); rewrite <- app_assoc.
    repeat split; apply Forall_app; split; assumption.
Qed.

(** The loop never raises. *)
Lemma assembled_total (lines : list bytes) : exists text, assembled lines = Ok text.
Proof.
  destruct (receive_appends lines []) as (out & added & _ & H & _).
  exists added; unfold assembled; rewrite H; reflexivity.
Qed.

Lemma receive_app (l1 l2 : list bytes) (o1 o2 : list event) (t1 t2 : str) :
  Para.receive l1 [] = (o1, Ok t1) ->
  Para.receive l2 [] = (o2, Ok t2) ->
  Para.receive (l1 ++ l2) [] = (o1 ++ o2, Ok (t1 ++ t2)).
Proof.
  revert o1 t1; induction l1 as [|line rest IH]; intros o1 t1 H1 H2.
  - injection H1 as <- <-; exact H2.
  - destruct (stream_line_appends line []) as (o & a & _ & Hl & _).
    destruct (receive_appends rest a) as (o' & a' & Hr & Hr' & _).
    destruct (receive_appends (rest ++ l2) a) as (o'' & a'' & Hr2 & Hr2' & _).
    cbn [app Para.receive] in H1 |- *.
    rewrite Hl, (io_bind_ok _ _ a) in H1 by reflexivity.
    rewrite Hr in H1; cbn [fst snd] in H1; injection H1 as <- <-.
    rewrite Hl, (io_bind_ok _ _ a) by reflexivity.
    rewrite Hr2; cbn [fst snd].
    rewrite (IH o' a' Hr' H2) in Hr2'; injection Hr2' as <- <-.
    rewrite !app_assoc; reflexivity.
Qed.

Lemma stream_line_chunk (line : bytes) (fragment : str) :
  chunk_carries line fragment ->
  exists out, Para.stream_line [] line = (out, Ok fragment).
Proof.
  intros ((Hne & text & data & choice & delta
           & Hdec & Hpre & Hjson & Hchoice & Hfin & Hdelta & Hget) & Hacc).
  destruct line as [|b line']; [contradiction|].
  unfold Para.stream_line, Para.stream_chunk.
  rewrite Hdec; io_step; rewrite Hpre, Hjson; io_step.
  rewrite Hchoice; io_step; rewrite Hfin; io_step.
  cbn [is_none negb].
  rewrite Hdelta; io_step; rewrite Hget; io_step.
  cbn [print_value]; rewrite Hacc.
  destruct fragment; cbn; eexists; reflexivity.
Qed.

(** A chunk whose fragment the console cannot show is lost: [print] raises
    on line 128, before the fragment is added on line 129. *)
Lemma stream_line_refused (line : bytes) (fragment full_content : str) :
  chunk_holds line fragment ->
  console_accepts fragment = false ->
  Para.stream_line full_content line
  = ([PrintStreamError UnicodeEncodeError], Ok full_content).
Proof.
  intros (Hne & text & data & choice & delta
          & Hdec & Hpre & Hjson & Hchoice & Hfin & Hdelta & Hget) Hacc.
  destruct line as [|b line']; [contradiction|].
  unfold Para.stream_line, Para.stream_chunk.
  rewrite Hdec; io_step; rewrite Hpre, Hjson; io_step.
  rewrite Hchoice; io_step; rewrite Hfin; io_step.
  cbn [is_none negb].
  rewrite Hdelta; io_step; rewrite Hget; io_step.
  cbn [print_value]; rewrite Hacc.
  destruct fragment; [discriminate Hacc | reflexivity].
Qed.

Lemma console_accepts_app (a b : str) :
  console_accepts (a ++ b) = console_accepts a && console_accepts b.
Proof. apply forallb_app. Qed.


(** What a line adds to the text was printed, so the console accepts it. *)
Lemma stream_line_accepted (line : bytes) (out : list event) (added : str) :
  Para.stream_line [] line = (out, Ok added) ->
  console_accepts added = true.
Proof.
  destruct line as [|b line']; [intros [= _ <-]; reflexivity|].
  set (line := b :: line').
  unfold Para.stream_line; fold line.
  unfold Para.stream_chunk.
  destruct (utf8_decode line) as [text|e]; io_step;
    [|intros [= _ <-]; reflexivity].
  destruct (startswith text Para.DATA_PREFIX);
    [|intros [= _ <-]; reflexivity].
  destruct (json_loads (slice text (Some 6) None)) as [data|e];
    io_step; [|intros [= _ <-]; reflexivity].
  destruct (Para.first_choice data) as [choice|e]; io_step;
    [|intros [= _ <-]; reflexivity].
  destruct (getitem choice (lit "finish_reason")) as [reason|e];
    io_step; [|intros [= _ <-]; reflexivity].
  destruct (negb (is_none reason)); [intros [= _ <-]; reflexivity|].
  destruct (getitem choice (lit "delta")) as [delta|e]; io_step;
    [|intros [= _ <-]; reflexivity].
  destruct (get_method delta (lit "content") (PStr [])) as [content|e];
    io_step; [|intros [= _ <-]; reflexivity].
  destruct (truthy content) eqn:Ht; [|intros [= _ <-]; reflexivity].
  destruct content as [| | | |s| |]; cbn [print_value];
    try destruct (console_accepts s) eqn:Hs; io_step;
    cbn [try_except is_Exception io_bind print ret lift app fst snd
         str_iadd];
    intros [= _ <-]; try reflexivity.
  exact Hs.
Qed.

(** The text the loop hands to the parser can be printed: line 150 does
    not raise. *)
Lemma assembled_accepted (lines : list bytes) (text : str) :
  assembled lines = Ok text -> console_accepts text = true.
Proof.
  unfold assembled; revert text.
  induction lines as [|line rest IH]; intros text.
  - intros [= <-]; reflexivity.
  - destruct (stream_line_appends line []) as (o & a & _ & Hl & _).
    destruct (receive_appends rest a) as (o' & a' & Hr & Hr' & _).
    cbn [Para.receive].
    rewrite Hl, (io_bind_ok _ _ a) by reflexivity.
    rewrite Hr; cbn [fst snd]; intros [= <-].
    rewrite console_accepts_app, (stream_line_accepted _ _ _ Hl).
    apply IH; rewrite Hr'; reflexivity.
Qed.


Lemma assembled_chunks (lines : list bytes) (fragments : list str) :
  Forall2 chunk_carries lines fragments ->
  assembled lines = Ok (concat fragments).
Proof.
  unfold assembled.
  induction 1 as [|line f lines fs Hc _ IH].
  - reflexivity.
  - destruct (stream_line_chunk line f Hc) as (o & Hl).
    cbn [Para.receive concat].
    rewrite Hl, (io_bind_ok _ _ f) by reflexivity; cbn [fst snd].
    destruct (receive_appends lines f) as (o' & a' & Hr & Hr' & _).
    rewrite Hr; cbn [snd].
    rewrite Hr' in IH; cbn [snd] in IH; injection IH as ->; reflexivity.
Qed.





Lemma chunk_cd_holds : chunk_holds chunk_cd (lit "cd").
Proof.
  split; [discriminate|].
  exists chunk_cd; do 3 eexists; repeat split; vm_compute; reflexivity.
Qed.

Lemma chunk_abcd_holds : chunk_holds chunk_abcd (lit "abcd").
Proof.
  split; [discriminate|].
  exists chunk_abcd; do 3 eexists; repeat split; vm_compute; reflexivity.
Qed.



Lemma chunk_abcd_carries : chunk_carries chunk_abcd (lit "abcd").
Proof. split; [exact chunk_abcd_holds | reflexivity]. Qed.





(** ** The structured result parser *)

Lemma strip_fence_total (full_content : str) :
  exists out content,
    Para.strip_fence full_content = (out, Ok content) /\
    (out = [] \/ out = [PrintFenceDetected]).
Proof.
  unfold Para.strip_fence.
  destruct (startswith (strip full_content) Para.FENCE_JSON);
    io_step; eexists _, _; (split; [reflexivity|]); auto.
Qed.

Lemma decode_sections_missing_field (content : str)
    (d : list (str * pyval)) :
  json_loads content = Ok (PDict d) ->
  dict_get d (lit "sections") = None ->
  Para.decode_sections content
  = ([PrintFinalHeader; PrintDivider; PrintFinalContent content;
      PrintDivider; PrintParsing; PrintParsed],
     Raise (ValueError Para.MISSING_SECTIONS)).
Proof.
  intros Hjson Hget; unfold Para.decode_sections.
  cbn [io_bind print lift ret app]; rewrite Hjson.
  cbn [io_bind print lift ret app contains]; rewrite Hget.
  reflexivity.
Qed.

Lemma decode_sections_syntax_error (content : str) (e : exn) :
  json_loads content = Raise e ->
  Para.decode_sections content
  = ([PrintFinalHeader; PrintDivider; PrintFinalContent content;
      PrintDivider; PrintParsing],
     Raise e).
Proof.
  intros Hjson; unfold Para.decode_sections.
  cbn [io_bind print lift ret app]; rewrite Hjson.
  reflexivity.
Qed.

Lemma on_decode_error_raises (content : str) (msg : decode_msg) (doc : str)
    (pos : Z) :
  Para.on_decode_error content (JSONDecodeError msg doc pos)
  = ([PrintJSONError (JSONDecodeError msg doc pos);
      PrintErrorPosition (lineno doc pos) (colno doc pos)],
     Raise (AttributeError (lit "char"))).
Proof. reflexivity. Qed.

(** The parser on a payload whose cleaned text [content] misses the field. *)
Lemma parse_payload_missing_field (full_content content : str)
    (out : list event) (d : list (str * pyval)) :
  Para.strip_fence full_content = (out, Ok content) ->
  json_loads content = Ok (PDict d) ->
  dict_get d (lit "sections") = None ->
  Para.parse_payload full_content
  = (PrintCleaning :: out ++
     [PrintFinalHeader; PrintDivider; PrintFinalContent content;
      PrintDivider; PrintParsing; PrintParsed],
     Raise (ValueError Para.MISSING_SECTIONS)).
Proof.
  intros Hfence Hjson Hget; unfold Para.parse_payload.
  rewrite print_bind, Hfence, (io_bind_ok _ _ content) by reflexivity.
  rewrite (decode_sections_missing_field content d Hjson Hget).
  reflexivity.
Qed.

(** The parser on a payload whose cleaned text [content] is not JSON. *)
Lemma parse_payload_syntax_error (full_content content : str)
    (out : list event) (msg : decode_msg) (doc : str) (pos : Z) :
  Para.strip_fence full_content = (out, Ok content) ->
  json_loads content = Raise (JSONDecodeError msg doc pos) ->
  Para.parse_payload full_content
  = (PrintCleaning :: out ++
     [PrintFinalHeader; PrintDivider; PrintFinalContent content;
      PrintDivider; PrintParsing;
      PrintJSONError (JSONDecodeError msg doc pos);
      PrintErrorPosition (lineno doc pos) (colno doc pos)],
     Raise (AttributeError (lit "char"))).
Proof.
  intros Hfence Hjson; unfold Para.parse_payload.
  rewrite print_bind, Hfence, (io_bind_ok _ _ content) by reflexivity.
  rewrite (decode_sections_syntax_error content _ Hjson).
  reflexivity.
Qed.

(** A failure of the parser is a failure of the run: it passes the
    handlers of [analyze_document] and [extract_text], which print and
    raise it again. *)
Lemma parser_failure_fails_run (uuid4 : nat -> str) (full_text : str)
    (lines : list bytes) (text full_content : str) (out : list event)
    (e : exn) :
  assembled lines = Ok full_content ->
  Para.parse_payload full_content = (out, Raise e) ->
  exists out0,
    Forall is_stream_event out0 /\
    Para.analyze_document 200 lines text
    = ([PrintStatus 200; PrintReceiving; PrintDivider] ++ out0 ++
       [PrintReceived; PrintDivider] ++ out ++
       [PrintLLMError e; PrintTraceback e],
       Raise e) /\
    Para.extract_text uuid4 full_text 200 lines text
    = ([PrintStatus 200; PrintReceiving; PrintDivider] ++ out0 ++
       [PrintReceived; PrintDivider] ++ out ++
       [PrintLLMError e; PrintTraceback e; LogError e],
       Raise e).
Proof.
  intros Hlines Hparse.
  destruct (receive_appends lines []) as (out0 & fc & _ & Hrecv & Hout0).
  unfold assembled in Hlines; rewrite Hrecv in Hlines.
  injection Hlines as ->.
  exists out0; split; [exact Hout0|].
  assert (Ha : Para.analyze_document 200 lines text
               = ([PrintStatus 200; PrintReceiving; PrintDivider] ++ out0 ++
                  [PrintReceived; PrintDivider] ++ out ++
                  [PrintLLMError e; PrintTraceback e],
                  Raise e)).
  { unfold Para.analyze_document.
    cbn [Z.eqb Pos.eqb].
    rewrite !print_bind, Hrecv, (io_bind_ok _ _ full_content) by reflexivity.
    rewrite !print_bind, Hparse.
    cbn [fst snd try_except is_Exception Para.on_error io_bind print lift app].
    rewrite <- !app_assoc; reflexivity. }
  split; [exact Ha|].
  unfold Para.extract_text; rewrite Ha.
  cbn [io_bind try_except is_Exception print lift app fst snd].
  rewrite <- !app_assoc; cbn [app]. rewrite <- !app_assoc; reflexivity.
Qed.

Lemma not_stream_event_not_in (ev : event) (out : list event) :
  Forall is_stream_event out -> ~ is_stream_event ev -> ~ In ev out.
Proof.
  intros Hall Hev Hin.
  rewrite Forall_forall in Hall; exact (Hev (Hall ev Hin)).
Qed.

(** C5: a payload that decodes to a JSON object without the key
    [sections] makes the parser raise the [ValueError] of line 158, whose
    message names the field; no JSON error is reported, and the run fails
    with that error. *)
Theorem C5_missing_sections_is_schema_error
    (full_content content : str) (d : list (str * pyval)) :
  snd (Para.strip_fence full_content) = Ok content ->
  json_loads content = Ok (PDict d) ->
  dict_get d (lit "sections") = None ->
  snd (Para.parse_payload full_content)
    = Raise (ValueError Para.MISSING_SECTIONS) /\
  is_JSONDecodeError (ValueError Para.MISSING_SECTIONS) = false /\
  is_substring (lit "'sections'") Para.MISSING_SECTIONS = true /\
  (forall e, ~ In (PrintJSONError e) (fst (Para.parse_payload full_content))) /\
  (forall (uuid4 : nat -> str) (full_text : str) (lines : list bytes)
          (text : str),
      assembled lines = Ok full_content ->
      snd (Para.extract_text uuid4 full_text 200 lines text)
        = Raise (ValueError Para.MISSING_SECTIONS)).
Proof.
  intros Hfence Hjson Hget.
  destruct (strip_fence_total full_content) as (out & c & Hsf & Hout).
  rewrite Hsf in Hfence; injection Hfence as ->.
  pose proof (parse_payload_missing_field _ _ _ _ Hsf Hjson Hget) as Hp.
  rewrite Hp; cbn [fst snd].
  split; [reflexivity|]; split; [reflexivity|]; split; [reflexivity|]; split.
  - intros e [Hin|Hin]; [discriminate|].
    apply in_app_or in Hin; destruct Hin as [Hin|Hin].
    + destruct Hout as [-> | ->]; cbn in Hin; intuition discriminate.
    + cbn in Hin; intuition discriminate.
  - intros uuid4 full_text lines text Hlines.
    destruct (parser_failure_fails_run uuid4 full_text lines text _ _ _
                Hlines Hp) as (out0 & _ & _ & He).
    rewrite He; reflexivity.
Qed.

Lemma C5_missing_sections_is_schema_error_witness :
  snd (Para.parse_payload (quoted "{'section': []}"))
    = Raise (ValueError Para.MISSING_SECTIONS).
Proof.
  apply (C5_missing_sections_is_schema_error
           (quoted "{'section': []}") (quoted "{'section': []}")
           [(lit "section", PList [])]); reflexivity.
Defined.

(** C6 on the code: when the cleaned payload is not JSON the run fails,
    and the line and the column of the error are printed; but the handler
    then reads [e.char], which a [JSONDecodeError] does not have, so what
    is raised is an [AttributeError] and the offending line of the payload
    is never printed. *)
Theorem C6_decode_error_report_stops_at_char
    (full_content content : str) (msg : decode_msg) (doc : str) (pos : Z) :
  snd (Para.strip_fence full_content) = Ok content ->
  json_loads content = Raise (JSONDecodeError msg doc pos) ->
  snd (Para.parse_payload full_content)
    = Raise (AttributeError (lit "char")) /\
  In (PrintErrorPosition (lineno doc pos) (colno doc pos))
     (fst (Para.parse_payload full_content)) /\
  (forall (uuid4 : nat -> str) (full_text : str) (lines : list bytes)
          (text : str),
      assembled lines = Ok full_content ->
      snd (Para.extract_text uuid4 full_text 200 lines text)
        = Raise (AttributeError (lit "char")) /\
      forall line,
        ~ In (PrintProblemLine line)
             (fst (Para.extract_text uuid4 full_text 200 lines text))).
Proof.
  intros Hfence Hjson.
  destruct (strip_fence_total full_content) as (out & c & Hsf & Hout).
  rewrite Hsf in Hfence; injection Hfence as ->.
  pose proof (parse_payload_syntax_error _ _ _ _ _ _ Hsf Hjson) as Hp.
  rewrite Hp; cbn [fst snd].
  split; [reflexivity|]; split.
  - right; apply in_or_app; right; cbn; auto 10.
  - intros uuid4 full_text lines text Hlines.
    destruct (parser_failure_fails_run uuid4 full_text lines text _ _ _
                Hlines Hp) as (out0 & Hout0 & _ & He).
    rewrite He; cbn [fst snd]; split; [reflexivity|].
    intros line Hin.
    apply in_app_or in Hin; destruct Hin as [Hin|Hin];
      [cbn in Hin; intuition discriminate|].
    apply in_app_or in Hin; destruct Hin as [Hin|Hin];
      [exact (not_stream_event_not_in (PrintProblemLine line) out0 Hout0
                (fun H : False => H) Hin)|].
    apply in_app_or in Hin; destruct Hin as [Hin|Hin];
      [cbn in Hin; intuition discriminate|].
    destruct Hin as [Hin|Hin]; [discriminate|].
    apply in_app_or in Hin; destruct Hin as [Hin|Hin].
    + destruct Hout as [-> | ->]; cbn in Hin; intuition discriminate.
    + cbn in Hin; intuition discriminate.
Qed.

Lemma C6_decode_error_report_stops_at_char_witness :
  snd (Para.parse_payload (quoted "{'sections': [}"))
    = Raise (AttributeError (lit "char")) /\
  In (PrintErrorPosition 1 15)
     (fst (Para.parse_payload (quoted "{'sections': [}"))).
Proof.
  destruct (C6_decode_error_report_stops_at_char
              (quoted "{'sections': [}") (quoted "{'sections': [}")
              ExpectingValue (quoted "{'sections': [}") 14)
    as (H1 & H2 & _); [reflexivity | reflexivity |].
  split; [exact H1 | exact H2].
Defined.

(** ** The decoder reads no further than the value *)

Lemma skip_ws_split (s : str) :
  exists w, json_blank w /\ s = w ++ skip_ws s.
Proof.
  induction s as [|c t (w & Hw & IH)]; cbn.
  - exists []; split; [constructor | reflexivity].
  - destruct (is_json_ws c) eqn:E.
    + exists (c :: w); split; [constructor; assumption|].
      cbn; f_equal; exact IH.
    + exists []; split; [constructor | reflexivity].
Qed.

Lemma skip_ws_app (w s : str) : json_blank w -> skip_ws (w ++ s) = skip_ws s.
Proof.
  induction 1 as [|c w Hc _ IH]; cbn; [reflexivity|].
  rewrite Hc; exact IH.
Qed.

Lemma skip_ws_head (s : str) : head_not_blank (skip_ws s).
Proof.
  induction s as [|c t IH]; cbn; [exact I|].
  destruct (is_json_ws c) eqn:E; [exact IH | exact E].
Qed.

Lemma skip_ws_fixed (s : str) : head_not_blank s -> skip_ws s = s.
Proof.
  destruct s as [|c t]; cbn; [reflexivity|].
  intros ->; reflexivity.
Qed.

Lemma head_not_blank_app (c r r' : str) :
  c <> [] -> head_not_blank (c ++ r) -> head_not_blank (c ++ r').
Proof. destruct c; [contradiction | intros _ H; exact H]. Qed.

Lemma stops_no_digit (r : str) : stops r -> no_digit_head r.
Proof. destruct r; [trivial | intros (H & _); exact H]. Qed.

Lemma take_digits_spec (s ds r : str) :
  take_digits s = (ds, r) ->
  s = ds ++ r /\ Forall (fun c => is_digit c = true) ds /\ no_digit_head r.
Proof.
  revert ds r; induction s as [|c t IH]; intros ds r; cbn.
  - intros [= <- <-]; repeat split; constructor.
  - destruct (is_digit c) eqn:E.
    + destruct (take_digits t) as [ds' r'] eqn:Et.
      intros [= <- <-].
      destruct (IH ds' r' eq_refl) as (-> & Hds & Hr).
      repeat split; [constructor; assumption | exact Hr].
    + intros [= <- <-]; repeat split; [constructor | exact E].
Qed.

Lemma take_digits_app (ds r : str) :
  Forall (fun c => is_digit c = true) ds -> no_digit_head r ->
  take_digits (ds ++ r) = (ds, r).
Proof.
  induction 1 as [|c ds Hc _ IH]; intros Hr; cbn.
  - destruct r as [|x r]; [reflexivity|].
    cbn in Hr |- *; rewrite Hr; reflexivity.
  - rewrite Hc, (IH Hr); reflexivity.
Qed.

Lemma is_digit_range (x : N) : is_digit x = true -> (48 <= x <= 57)%N.
Proof.
  unfold is_digit; intros H; apply andb_prop in H; destruct H as (H1 & H2).
  apply N.leb_le in H1, H2; lia.
Qed.

Lemma digit_not (x c : N) :
  is_digit x = true -> (c < 48 \/ 57 < c)%N -> (x =? c)%N = false.
Proof.
  intros H Hc; apply is_digit_range in H; apply N.eqb_neq; lia.
Qed.

Lemma match_int_spec (s : str) (neg : bool) (ip r1 : str) :
  match_int s = Some (neg, ip, r1) ->
  s = minus_sign neg ++ ip ++ r1 /\
  ip <> [] /\ all_digits ip /\
  forall r1', no_digit_head r1' ->
              match_int (minus_sign neg ++ ip ++ r1') = Some (neg, ip, r1').
Proof.
  unfold match_int.
  assert (Hbody : forall (neg0 : bool) (s1 : str),
             match s1 with
             | [] => None
             | c :: t =>
                 if (c =? 48)%N then Some (neg0, [c], t)
                 else if is_digit c
                      then let (ds, r) := take_digits t in
                           Some (neg0, c :: ds, r)
                      else None
             end = Some (neg, ip, r1) ->
             neg0 = neg /\ s1 = ip ++ r1 /\ ip <> [] /\ all_digits ip /\
             forall r1', no_digit_head r1' ->
               match ip ++ r1' with
               | [] => None
               | c :: t =>
                   if (c =? 48)%N then Some (neg0, [c], t)
                   else if is_digit c
                        then let (ds, r) := take_digits t in
                             Some (neg0, c :: ds, r)
                        else None
               end = Some (neg, ip, r1')).
  { intros neg0 [|c t]; [discriminate|].
    destruct (c =? 48)%N eqn:E0.
    - intros [= <- <- <-].
      apply N.eqb_eq in E0; subst c.
      split; [reflexivity|]; split; [reflexivity|].
      split; [discriminate|]; split; [repeat constructor|].
      intros r1' _; reflexivity.
    - destruct (is_digit c) eqn:Ed; [|discriminate].
      destruct (take_digits t) as [ds r] eqn:Et.
      intros [= <- <- <-].
      destruct (take_digits_spec _ _ _ Et) as (-> & Hds & _).
      split; [reflexivity|]; split; [reflexivity|].
      split; [discriminate|]; split; [constructor; assumption|].
      intros r1' Hr1'; cbn [app].
      rewrite E0, Ed, (take_digits_app ds r1' Hds Hr1'); reflexivity. }
  destruct s as [|c t].
  - intros H; destruct (Hbody false [] H) as (_ & _ & Hne & _).
    discriminate H.
  - destruct (c =? 45)%N eqn:E.
    + intros H; destruct (Hbody true t H) as (<- & -> & Hne & Hd & Hloc).
      apply N.eqb_eq in E; subst c.
      repeat split; auto.
    + intros H; destruct (Hbody false (c :: t) H) as (<- & Hs & Hne & Hd & Hloc).
      repeat split; auto.
      intros r1' Hr1'; cbn [minus_sign app].
      specialize (Hloc r1' Hr1').
      destruct ip as [|d ip']; [contradiction|].
      cbn [app] in Hs |- *; injection Hs as -> _.
      rewrite E; exact Hloc.
Qed.

Lemma match_frac_spec (r1 fp r2 : str) :
  match_frac r1 = (fp, r2) ->
  (fp = [] /\ r2 = r1) \/
  (fp <> [] /\ all_digits fp /\ r1 = 46%N :: fp ++ r2 /\ no_digit_head r2).
Proof.
  unfold match_frac.
  destruct r1 as [|dot [|d t]]; try (intros [= <- <-]; left; auto).
  destruct ((dot =? 46)%N && is_digit d) eqn:E.
  - intros H; right.
    apply andb_prop in E; destruct E as (Edot & Ed).
    apply N.eqb_eq in Edot; subst dot.
    destruct (take_digits_spec _ _ _ H) as (Hs & Hds & Hr).
    destruct fp as [|f fp'].
    + cbn in H; rewrite Ed in H; destruct (take_digits t); discriminate.
    + repeat split; [discriminate | exact Hds | f_equal; exact Hs | exact Hr].
  - intros [= <- <-]; left; auto.
Qed.

Lemma match_frac_some (fp r2 : str) :
  fp <> [] -> all_digits fp -> no_digit_head r2 ->
  match_frac (46%N :: fp ++ r2) = (fp, r2).
Proof.
  intros Hne Hds Hr; unfold match_frac.
  destruct fp as [|f fp']; [contradiction|].
  cbn [app].
  inversion Hds as [|? ? Hf Hfp]; subst.
  rewrite N.eqb_refl, Hf; cbn [andb].
  exact (take_digits_app (f :: fp') r2 Hds Hr).
Qed.

Lemma match_frac_none (r : str) : head_is 46 r = false -> match_frac r = ([], r).
Proof.
  unfold match_frac; destruct r as [|dot [|d t]]; try reflexivity.
  cbn; intros ->; reflexivity.
Qed.

Lemma match_exp_spec (r2 : str) (ep : option (bool * str)) (r3 : str) :
  match_exp r2 = (ep, r3) ->
  (ep = None /\ r3 = r2) \/
  (exists eneg ds ec,
      ep = Some (eneg, ds) /\ r2 = ec ++ r3 /\
      ds <> [] /\ all_digits ds /\ exp_text ec eneg ds /\
      forall r3', no_digit_head r3' ->
                  match_exp (ec ++ r3') = (Some (eneg, ds), r3')).
Proof.
  unfold match_exp.
  destruct r2 as [|e t]; [intros [= <- <-]; left; auto|].
  destruct ((e =? 101)%N || (e =? 69)%N) eqn:Ee;
    [|intros [= <- <-]; left; auto].
  assert (He : e = 101%N \/ e = 69%N).
  { apply orb_prop in Ee; destruct Ee as [E|E]; apply N.eqb_eq in E; auto. }
  set (signed := match t with
                 | [] => (false, t)
                 | sg :: t' =>
                     if (sg =? 45)%N then (true, t')
                     else if (sg =? 43)%N then (false, t') else (false, t)
                 end).
  destruct signed as [eneg t1] eqn:Es.
  destruct (take_digits t1) as [ds r] eqn:Et.
  destruct (take_digits_spec _ _ _ Et) as (Ht1 & Hds & Hr).
  destruct ds as [|d ds']; [intros [= <- <-]; left; auto|].
  intros [= <- <-]; right.
  assert (Hsign : exists sign,
             t = sign ++ t1 /\
             (sign = [] /\ eneg = false \/ sign = [43%N] /\ eneg = false
              \/ sign = [45%N] /\ eneg = true)).
  { subst signed; destruct t as [|sg t'].
    - injection Es as <- <-; exists []; auto.
    - destruct (sg =? 45)%N eqn:E45.
      + injection Es as <- <-; apply N.eqb_eq in E45; subst sg.
        exists [45%N]; auto.
      + destruct (sg =? 43)%N eqn:E43.
        * injection Es as <- <-; apply N.eqb_eq in E43; subst sg.
          exists [43%N]; auto.
        * injection Es as <- <-; exists []; auto. }
  destruct Hsign as (sign & Ht & Hsg).
  exists eneg, (d :: ds'), (e :: sign ++ d :: ds').
  split; [reflexivity|]; split.
  { rewrite Ht, Ht1; cbn [app]; rewrite <- !app_assoc; reflexivity. }
  split; [discriminate|]; split; [exact Hds|]; split.
  { exists e, sign; auto. }
  intros r3' Hr3'.
  cbn [app]; rewrite Ee.
  inversion Hds as [|? ? Hd Hds']; subst.
  pose proof (is_digit_range d Hd) as Hrange.
  assert (Hd45 : (d =? 45)%N = false) by (apply N.eqb_neq; lia).
  assert (Hd43 : (d =? 43)%N = false) by (apply N.eqb_neq; lia).
  pose proof (take_digits_app (d :: ds') r3' Hds Hr3') as Htd.
  cbn [app] in Htd.
  destruct Hsg as [(-> & ->) | [(-> & ->) | (-> & ->)]]; cbn [app].
  - rewrite Hd45, Hd43, Htd; reflexivity.
  - cbn; cbn in Htd; rewrite Htd; reflexivity.
  - cbn; cbn in Htd; rewrite Htd; reflexivity.
Qed.

Lemma match_exp_none (r : str) :
  head_is 101 r = false -> head_is 69 r = false -> match_exp r = (None, r).
Proof.
  unfold match_exp; destruct r as [|e t]; [reflexivity|].
  cbn; intros -> ->; reflexivity.
Qed.

Lemma all_digits_last (ds : str) :
  ds <> [] -> all_digits ds -> exists c' l, is_digit l = true /\ ds = c' ++ [l].
Proof.
  intros Hne Hds.
  destruct (exists_last Hne) as (c' & l & ->).
  exists c', l; split; [|reflexivity].
  apply Forall_app in Hds; destruct Hds as (_ & Hl).
  inversion Hl; assumption.
Qed.

Lemma ends_with_digit_app (a b : str) :
  (exists c' l, is_digit l = true /\ b = c' ++ [l]) ->
  exists c' l, is_digit l = true /\ a ++ b = c' ++ [l].
Proof.
  intros (c' & l & Hl & ->); exists (a ++ c'), l; split; [exact Hl|].
  rewrite app_assoc; reflexivity.
Qed.

Lemma stops_heads (r : str) :
  stops r ->
  no_digit_head r /\ head_is 46 r = false /\
  head_is 101 r = false /\ head_is 69 r = false.
Proof.
  destruct r as [|x r]; cbn; [auto|].
  intros (Hd & H46 & H101 & H69).
  repeat split; [exact Hd | | |]; apply N.eqb_neq; assumption.
Qed.

Lemma match_number_local (s : str) (v : pyval) (rest : str) :
  match_number s = Some (v, rest) ->
  exists c,
    s = c ++ rest /\ number_text c /\
    forall rest', stops rest' -> match_number (c ++ rest') = Some (v, rest').
Proof.
  unfold match_number.
  destruct (match_int s) as [[[neg ip] r1]|] eqn:Ei; [|discriminate].
  destruct (match_int_spec _ _ _ _ Ei) as (Hs & Hip & Hipd & Hiloc).
  destruct (match_frac r1) as [fp r2] eqn:Ef.
  destruct (match_exp r2) as [ep r3] eqn:Ee.
  intros Hv.
  assert (Hrest : r3 = rest).
  { destruct fp, ep as [[? ?]|]; injection Hv as _ <-; reflexivity. }
  subst r3.
  (* the text of the fraction and of the exponent *)
  assert (Hf : exists fc,
             r1 = fc ++ r2 /\
             (fc = [] /\ fp = [] \/
              fc = 46%N :: fp /\ fp <> [] /\ all_digits fp)).
  { destruct (match_frac_spec _ _ _ Ef) as [(-> & ->) | (Hne & Hd & -> & _)].
    - exists []; auto.
    - exists (46%N :: fp); auto. }
  destruct Hf as (fc & Hr1 & Hfc).
  assert (He : exists ec,
             r2 = ec ++ rest /\
             (ec = [] /\ ep = None \/
              exists eneg ds,
                ep = Some (eneg, ds) /\ ds <> [] /\ all_digits ds /\
                exp_text ec eneg ds /\
                forall r3', no_digit_head r3' ->
                            match_exp (ec ++ r3') = (Some (eneg, ds), r3'))).
  { destruct (match_exp_spec _ _ _ Ee)
      as [(-> & <-) | (eneg & ds & ec & -> & -> & Hne & Hd & Ht & Hl)].
    - exists []; auto.
    - exists ec; split; [reflexivity|]; right; exists eneg, ds; auto. }
  destruct He as (ec & Hr2 & Hec).
  exists (minus_sign neg ++ ip ++ fc ++ ec).
  split; [rewrite Hs, Hr1, Hr2, <- !app_assoc; reflexivity|].
  split.
  - (* the shape of the text *)
    split.
    + destruct ip as [|d ip']; [contradiction|].
      inversion Hipd as [|? ? Hd _]; subst.
      exists d; destruct neg; cbn; eexists; split; eauto.
    + apply ends_with_digit_app.
      destruct Hec as [(-> & _) | (eneg & ds & _ & Hne & Hd & Ht & _)].
      * rewrite app_nil_r.
        destruct Hfc as [(-> & _) | (-> & Hne & Hd)].
        -- rewrite app_nil_r; apply all_digits_last; assumption.
        -- apply ends_with_digit_app.
           apply (ends_with_digit_app [46%N]), all_digits_last; assumption.
      * do 2 apply ends_with_digit_app.
        destruct Ht as (e & sign & -> & _ & _).
        apply (ends_with_digit_app (e :: sign)), all_digits_last; assumption.
  - (* reading the same text before another continuation *)
    intros rest' Hstop.
    destruct (stops_heads rest' Hstop) as (Hnd & H46 & H101 & H69).
    assert (Hexp : match_exp (ec ++ rest') = (ep, rest')
                   /\ no_digit_head (ec ++ rest')
                   /\ head_is 46 (ec ++ rest') = false).
    { destruct Hec as [(-> & ->) | (eneg & ds & -> & _ & _ & Ht & Hl)].
      - cbn [app]; split; [apply match_exp_none; assumption | auto].
      - split; [apply Hl; exact Hnd|].
        destruct Ht as (e & sign & -> & [-> | ->] & _); cbn; auto. }
    destruct Hexp as (Hexp & Hnd2 & H46').
    assert (Hfrac : match_frac (fc ++ ec ++ rest') = (fp, ec ++ rest')
                    /\ no_digit_head (fc ++ ec ++ rest')).
    { destruct Hfc as [(-> & ->) | (-> & Hne & Hd)].
      - cbn [app]; split; [apply match_frac_none; exact H46' | exact Hnd2].
      - split; [|cbn; reflexivity].
        cbn [app]; apply match_frac_some; assumption. }
    destruct Hfrac as (Hfrac & Hnd3).
    rewrite <- !app_assoc.
    rewrite (Hiloc _ Hnd3), Hfrac, Hexp.
    destruct fp, ep as [[? ?]|]; injection Hv as <-; reflexivity.
Qed.

Lemma scan_units_local (n : nat) :
  forall (s : str), (length s <= n)%nat ->
  forall (opening : nat) (acc us : list (N * bool)) (r : str),
    scan_units opening s acc = Parsed us r ->
    exists c,
      s = c ++ 34%N :: r /\
      forall opening' r',
        scan_units opening' (c ++ 34%N :: r') acc = Parsed us r'.
Proof.
  induction n as [|n IH]; intros s Hlen opening acc us r.
  { destruct s; [discriminate | cbn in Hlen; lia]. }
  destruct s as [|c0 t]; [discriminate|].
  cbn [scan_units].
  destruct (c0 =? 34)%N eqn:E34.
  { intros [= <- <-]; apply N.eqb_eq in E34; subst c0.
    exists []; split; [reflexivity|]; intros; reflexivity. }
  destruct (c0 =? 92)%N eqn:E92.
  - destruct t as [|e t']; [discriminate|].
    destruct (e =? 117)%N eqn:E117.
    + destruct t' as [|h1 [|h2 [|h3 [|h4 [|x t4]]]]]; try discriminate.
      destruct (hex4 h1 h2 h3 h4) as [u|] eqn:Eh; [|discriminate].
      intros H.
      destruct (IH (x :: t4) ltac:(cbn in Hlen |- *; lia) _ _ _ _ H)
        as (c & Hc & Hloc).
      exists (c0 :: e :: h1 :: h2 :: h3 :: h4 :: c).
      split; [cbn [app]; rewrite <- Hc; reflexivity|].
      intros opening' r'; cbn [app scan_units].
      rewrite E34, E92, E117.
      specialize (Hloc opening' r').
      destruct c as [|y c']; cbn [app] in Hloc |- *; rewrite Eh; exact Hloc.
    + destruct (unescape e) as [c'|] eqn:Eu; [|discriminate].
      intros H.
      destruct (IH t' ltac:(cbn in Hlen; lia) _ _ _ _ H) as (c & Hc & Hloc).
      exists (c0 :: e :: c).
      split; [cbn [app]; rewrite <- Hc; reflexivity|].
      intros opening' r'; cbn [app scan_units].
      rewrite E34, E92, E117, Eu; apply Hloc.
  - destruct (c0 <=? 31)%N eqn:E31; [discriminate|].
    intros H.
    destruct (IH t ltac:(cbn in Hlen; lia) _ _ _ _ H) as (c & Hc & Hloc).
    exists (c0 :: c).
    split; [cbn [app]; rewrite <- Hc; reflexivity|].
    intros opening' r'; cbn [app scan_units].
    rewrite E34, E92, E31; apply Hloc.
Qed.

Lemma scanstring_local (opening : nat) (s k r : str) :
  scanstring opening s = Parsed k r ->
  exists c,
    s = c ++ 34%N :: r /\
    forall opening' r', scanstring opening' (c ++ 34%N :: r') = Parsed k r'.
Proof.
  unfold scanstring.
  destruct (scan_units opening s []) as [us r0| |] eqn:E; try discriminate.
  intros [= <- <-].
  destruct (scan_units_local (length s) s (le_n _) _ _ _ _ E) as (c & Hc & Hloc).
  exists c; split; [exact Hc|].
  intros opening' r'; rewrite Hloc; reflexivity.
Qed.

Lemma edge_digit (x : N) : is_digit x = true -> edge x = true.
Proof.
  intros H; apply is_digit_range in H.
  unfold edge, isspace.
  repeat match goal with
         | |- context [(?a <=? ?b)%N] =>
             destruct (N.leb_spec a b); try lia
         | |- context [(?a =? ?b)%N] =>
             destruct (N.eqb_spec a b); try lia
         end.
  all: try reflexivity.
Qed.

Lemma edge_not_space (x : N) : edge x = true -> isspace x = false.
Proof.
  unfold edge; intros H.
  apply andb_prop in H; destruct H as (H & _).
  apply andb_prop in H; destruct H as (H & _).
  apply negb_true_iff in H; exact H.
Qed.

Lemma json_ws_isspace (x : N) : is_json_ws x = true -> isspace x = true.
Proof.
  unfold is_json_ws; intros H.
  repeat (apply orb_prop in H; destruct H as [H|H]);
    apply N.eqb_eq in H; subst x; reflexivity.
Qed.

Lemma json_ws_stops (x : N) (r : str) : is_json_ws x = true -> stops (x :: r).
Proof.
  unfold is_json_ws; intros H.
  repeat (apply orb_prop in H; destruct H as [H|H]);
    apply N.eqb_eq in H; subst x; cbn; repeat split; discriminate.
Qed.

Lemma stops_after_blank (w : str) (x : N) (r : str) :
  json_blank w -> stops (x :: r) -> stops (w ++ x :: r).
Proof.
  intros Hw Hx; destruct Hw as [|y w Hy _]; [exact Hx|].
  cbn [app]; apply json_ws_stops; exact Hy.
Qed.

Lemma skip_ws_to (w : str) (x : N) (r : str) :
  json_blank w -> is_json_ws x = false -> skip_ws (w ++ x :: r) = x :: r.
Proof.
  intros Hw Hx; rewrite skip_ws_app by exact Hw; cbn; rewrite Hx; reflexivity.
Qed.

Lemma skip_ws_to_text (w c r r' : str) :
  json_blank w -> c <> [] -> head_not_blank (c ++ r) ->
  skip_ws (w ++ c ++ r') = c ++ r'.
Proof.
  intros Hw Hc Hh; rewrite skip_ws_app by exact Hw.
  apply skip_ws_fixed, (head_not_blank_app c r r' Hc Hh).
Qed.

Lemma head_is_app (x : N) (c r r' : str) :
  c <> [] -> head_is x (c ++ r') = head_is x (c ++ r).
Proof. destruct c; [contradiction | reflexivity]. Qed.

Lemma startswith_split (p s : str) :
  startswith s p = true -> s = p ++ skipn (length p) s.
Proof.
  revert s; induction p as [|x p IH]; intros s; [reflexivity|].
  destruct s as [|y s]; [discriminate|].
  cbn; intros H; apply andb_prop in H; destruct H as (Hxy & Hp).
  apply N.eqb_eq in Hxy; subst y; f_equal; apply IH; exact Hp.
Qed.

Lemma match_constant_local (s : str) (v : pyval) (rest : str) :
  match_constant s = Some (v, rest) ->
  exists c,
    s = c ++ rest /\ constant_text c /\
    forall rest', match_constant (c ++ rest') = Some (v, rest').
Proof.
  unfold match_constant, constant_text.
  destruct (startswith s NULL) eqn:E1.
  { intros [= <- <-]; exists NULL; split;
      [exact (startswith_split _ _ E1) | split; [tauto | reflexivity]]. }
  destruct (startswith s TRUE) eqn:E2.
  { intros [= <- <-]; exists TRUE; split;
      [exact (startswith_split _ _ E2) | split; [tauto | reflexivity]]. }
  destruct (startswith s FALSE) eqn:E3.
  { intros [= <- <-]; exists FALSE; split;
      [exact (startswith_split _ _ E3) | split; [tauto | reflexivity]]. }
  destruct (startswith s NAN) eqn:E4.
  { intros [= <- <-]; exists NAN; split;
      [exact (startswith_split _ _ E4) | split; [tauto | reflexivity]]. }
  destruct (startswith s INFINITY) eqn:E5.
  { intros [= <- <-]; exists INFINITY; split;
      [exact (startswith_split _ _ E5) | split; [tauto | reflexivity]]. }
  destruct (startswith s NEG_INFINITY) eqn:E6; [|discriminate].
  intros [= <- <-]; exists NEG_INFINITY; split;
    [exact (startswith_split _ _ E6) | split; [tauto | reflexivity]].
Qed.

Lemma constant_value_text (c : str) : constant_text c -> value_text c.
Proof.
  intros [-> | [-> | [-> | [-> | [-> | ->]]]]];
    (split; [discriminate | split; reflexivity]).
Qed.

Lemma match_constant_number (c r : str) :
  number_text c -> match_constant (c ++ r) = None.
Proof.
  intros ((d & c' & Hd & Hc) & _).
  pose proof (is_digit_range d Hd) as Hr.
  assert (Hne : forall x, (x < 48 \/ 57 < x)%N -> (x =? d)%N = false).
  { intros x Hx; apply N.eqb_neq; lia. }
  unfold match_constant.
  destruct Hc as [-> | ->]; cbn [app startswith NULL TRUE FALSE NAN INFINITY
                                 NEG_INFINITY];
    rewrite ?Hne by lia; cbn; rewrite ?Hne by lia; reflexivity.
Qed.

Lemma number_value_text (c : str) : number_text c -> value_text c.
Proof.
  intros ((d & c' & Hd & Hc) & (c'' & l & Hl & Hc'')).
  split; [destruct Hc as [-> | ->]; discriminate|]; split.
  - destruct Hc as [-> | ->]; [apply edge_digit; exact Hd | reflexivity].
  - rewrite Hc'', last_last; apply edge_digit; exact Hl.
Qed.

Lemma last_cons_snoc (x : N) (c : str) (y : N) : last (x :: c ++ [y]) 0%N = y.
Proof. exact (last_last (x :: c) y 0%N). Qed.

Section DecoderStep.

Variable f : nat.

Hypothesis IHv : forall s v rest,
    scan_once f s = Parsed v rest -> value_local s v rest.
Hypothesis IHa : forall s acc v rest,
    array_loop f s acc = Parsed v rest -> array_local s acc v rest.
Hypothesis IHo : forall s d v rest,
    object_loop f s d = Parsed v rest -> object_local s d v rest.

Lemma scan_once_step (s : str) (v : pyval) (rest : str) :
  scan_once (S f) s = Parsed v rest -> value_local s v rest.
Proof.
  cbn [scan_once].
  destruct s as [|c0 t]; [discriminate|].
  destruct (c0 =? 34)%N eqn:E34.
  { (* a string *)
    destruct (scanstring (length (c0 :: t)) t) as [k r| |] eqn:Es;
      try discriminate.
    intros [= <- <-].
    destruct (scanstring_local _ _ _ _ Es) as (c & -> & Hloc).
    apply N.eqb_eq in E34; subst c0.
    exists (34%N :: c ++ [34%N]).
    split; [cbn [app]; rewrite <- app_assoc; reflexivity|].
    split; [split; [discriminate | split;
                    [reflexivity | rewrite last_cons_snoc; reflexivity]]|].
    intros fuel rest' Hfuel _.
    destruct fuel as [|fuel]; [cbn in Hfuel; lia|].
    cbn [app]; rewrite <- app_assoc; cbn [app scan_once].
    rewrite N.eqb_refl, Hloc; reflexivity. }
  destruct (c0 =? 123)%N eqn:E123.
  { (* an object *)
    cbv zeta.
    apply N.eqb_eq in E123; subst c0.
    destruct (skip_ws_split t) as (w & Hw & Ht).
    destruct (head_is 125 (skip_ws t)) eqn:Eh.
    - intros [= <- <-].
      destruct (skip_ws t) as [|x r0]; [discriminate|].
      cbn in Eh; apply N.eqb_eq in Eh; subst x.
      cbn [tl]; rewrite Ht.
      exists (123%N :: w ++ [125%N]).
      split; [cbn [app]; rewrite <- app_assoc; reflexivity|].
      split; [split; [discriminate | split;
                      [reflexivity | rewrite last_cons_snoc; reflexivity]]|].
      intros fuel rest' Hfuel _.
      destruct fuel as [|fuel]; [cbn in Hfuel; lia|].
      cbn [app]; rewrite <- app_assoc; cbn [app scan_once].
      cbn [N.eqb Pos.eqb]; cbv zeta.
      rewrite (skip_ws_to w 125 rest' Hw eq_refl); reflexivity.
    - intros H.
      destruct (IHo _ _ _ _ H) as (c & Hc & Hne & Hloc).
      pose proof (skip_ws_head t) as Hhead.
      rewrite Ht, Hc.
      exists (123%N :: w ++ c ++ [125%N]).
      split; [cbn [app]; rewrite <- !app_assoc; reflexivity|].
      split; [split; [discriminate | split; [reflexivity|]]|].
      { rewrite app_assoc, last_cons_snoc; reflexivity. }
      intros fuel rest' Hfuel _.
      destruct fuel as [|fuel]; [cbn in Hfuel; lia|].
      cbn [app]; rewrite <- !app_assoc; cbn [app scan_once].
      cbn [N.eqb Pos.eqb]; cbv zeta.
      rewrite Hc in Hhead, Eh.
      rewrite (skip_ws_to_text w c (125%N :: rest) (125%N :: rest') Hw Hne Hhead).
      rewrite (head_is_app 125 c (125%N :: rest) (125%N :: rest') Hne), Eh.
      apply Hloc.
      cbn [length] in Hfuel; rewrite !length_app in Hfuel; cbn in Hfuel; lia. }
  destruct (c0 =? 91)%N eqn:E91.
  { (* an array *)
    cbv zeta.
    apply N.eqb_eq in E91; subst c0.
    destruct (skip_ws_split t) as (w & Hw & Ht).
    destruct (head_is 93 (skip_ws t)) eqn:Eh.
    - intros [= <- <-].
      destruct (skip_ws t) as [|x r0]; [discriminate|].
      cbn in Eh; apply N.eqb_eq in Eh; subst x.
      cbn [tl]; rewrite Ht.
      exists (91%N :: w ++ [93%N]).
      split; [cbn [app]; rewrite <- app_assoc; reflexivity|].
      split; [split; [discriminate | split;
                      [reflexivity | rewrite last_cons_snoc; reflexivity]]|].
      intros fuel rest' Hfuel _.
      destruct fuel as [|fuel]; [cbn in Hfuel; lia|].
      cbn [app]; rewrite <- app_assoc; cbn [app scan_once].
      cbn [N.eqb Pos.eqb]; cbv zeta.
      rewrite (skip_ws_to w 93 rest' Hw eq_refl); reflexivity.
    - intros H.
      destruct (IHa _ _ _ _ H) as (c & Hc & Hne & Hloc).
      pose proof (skip_ws_head t) as Hhead.
      rewrite Ht, Hc.
      exists (91%N :: w ++ c ++ [93%N]).
      split; [cbn [app]; rewrite <- !app_assoc; reflexivity|].
      split; [split; [discriminate | split; [reflexivity|]]|].
      { rewrite app_assoc, last_cons_snoc; reflexivity. }
      intros fuel rest' Hfuel _.
      destruct fuel as [|fuel]; [cbn in Hfuel; lia|].
      cbn [app]; rewrite <- !app_assoc; cbn [app scan_once].
      cbn [N.eqb Pos.eqb]; cbv zeta.
      rewrite Hc in Hhead, Eh.
      rewrite (skip_ws_to_text w c (93%N :: rest) (93%N :: rest') Hw Hne Hhead).
      rewrite (head_is_app 93 c (93%N :: rest) (93%N :: rest') Hne), Eh.
      apply Hloc.
      cbn [length] in Hfuel; rewrite !length_app in Hfuel; cbn in Hfuel; lia. }
  destruct (match_constant (c0 :: t)) as [[v0 r0]|] eqn:Ec.
  { (* a named constant *)
    intros [= <- <-].
    destruct (match_constant_local _ _ _ Ec) as (c & Hc & Htext & Hloc).
    exists c; split; [exact Hc|].
    split; [apply constant_value_text; exact Htext|].
    intros fuel rest' Hfuel _.
    destruct c as [|x c']; [destruct (constant_value_text _ Htext); congruence|].
    destruct fuel as [|fuel]; [cbn in Hfuel; lia|].
    cbn [app] in Hc; injection Hc as <- _.
    specialize (Hloc rest').
    cbn [app scan_once] in Hloc |- *.
    rewrite E34, E123, E91, Hloc; reflexivity. }
  destruct (match_number (c0 :: t)) as [[v0 r0]|] eqn:En; [|discriminate].
  (* a number *)
  intros [= <- <-].
  destruct (match_number_local _ _ _ En) as (c & Hc & Htext & Hloc).
  exists c; split; [exact Hc|].
  split; [apply number_value_text; exact Htext|].
  intros fuel rest' Hfuel Hstop.
  pose proof (match_constant_number c rest' Htext) as Hconst.
  destruct c as [|x c']; [destruct (number_value_text _ Htext); congruence|].
  destruct fuel as [|fuel]; [cbn in Hfuel; lia|].
  cbn [app] in Hc; injection Hc as <- _.
  specialize (Hloc rest' Hstop).
  cbn [app scan_once] in Hloc, Hconst |- *.
  rewrite E34, E123, E91, Hconst, Hloc; reflexivity.
Qed.

Lemma value_then (s : str) (v : pyval) (r : str) (x : N) (r2 : str) :
  scan_once f s = Parsed v r ->
  skip_ws r = x :: r2 ->
  is_json_ws x = false ->
  x <> 46%N -> x <> 101%N -> x <> 69%N -> is_digit x = false ->
  exists c w,
    s = c ++ w ++ x :: r2 /\ c <> [] /\ json_blank w /\
    forall fuel tail,
      (2 * length c <= fuel)%nat ->
      scan_once fuel (c ++ w ++ x :: tail) = Parsed v (w ++ x :: tail).
Proof.
  intros Hv Hws Hx H46 H101 H69 Hd.
  destruct (IHv _ _ _ Hv) as (c & -> & (Hne & _) & Hloc).
  destruct (skip_ws_split r) as (w & Hw & Hr).
  rewrite Hws in Hr; subst r.
  exists c, w; repeat split; auto.
  intros fuel tail Hfuel; apply Hloc; [exact Hfuel|].
  apply stops_after_blank; [exact Hw|].
  cbn; auto.
Qed.

Lemma array_loop_step (s : str) (acc : list pyval) (v : pyval) (rest : str) :
  array_loop (S f) s acc = Parsed v rest -> array_local s acc v rest.
Proof.
  cbn [array_loop].
  destruct (scan_once f s) as [v1 r1| |] eqn:Ev; try discriminate.
  destruct (skip_ws r1) as [|x r2] eqn:Ews; [discriminate|].
  pose proof (skip_ws_head r1) as Hx; rewrite Ews in Hx; cbn in Hx.
  destruct (x =? 93)%N eqn:E93.
  - intros [= <- <-].
    apply N.eqb_eq in E93; subst x.
    destruct (value_then _ _ _ _ _ Ev Ews Hx) as (c & w & -> & Hne & Hw & Hloc);
      try discriminate; try reflexivity.
    exists (c ++ w).
    split; [rewrite <- app_assoc; reflexivity|].
    split; [destruct c; [contradiction | discriminate]|].
    intros fuel rest' Hfuel.
    destruct fuel as [|fuel]; [lia|].
    rewrite <- app_assoc; cbn [array_loop].
    rewrite Hloc by (rewrite length_app in Hfuel; lia).
    rewrite (skip_ws_to w 93 rest' Hw eq_refl); reflexivity.
  - destruct (x =? 44)%N eqn:E44; [|discriminate].
    intros H.
    apply N.eqb_eq in E44; subst x.
    destruct (value_then _ _ _ _ _ Ev Ews Hx) as (c & w & -> & Hne & Hw & Hloc);
      try discriminate; try reflexivity.
    destruct (IHa _ _ _ _ H) as (c2 & Hc2 & Hne2 & Hloc2).
    destruct (skip_ws_split r2) as (w2 & Hw2 & Hr2).
    pose proof (skip_ws_head r2) as Hhead.
    rewrite Hc2 in Hr2, Hhead; subst r2.
    exists (c ++ w ++ 44%N :: w2 ++ c2).
    split; [rewrite <- !app_assoc; cbn [app]; rewrite <- !app_assoc;
            reflexivity|].
    split; [destruct c; [contradiction | discriminate]|].
    intros fuel rest' Hfuel.
    destruct fuel as [|fuel]; [lia|].
    rewrite !length_app in Hfuel; cbn [length] in Hfuel;
      rewrite !length_app in Hfuel.
    rewrite <- !app_assoc; cbn [app]; rewrite <- !app_assoc.
    cbn [array_loop].
    rewrite Hloc by lia.
    rewrite (skip_ws_to w 44 _ Hw eq_refl).
    cbn [N.eqb Pos.eqb].
    rewrite (skip_ws_to_text w2 c2 (93%N :: rest) (93%N :: rest') Hw2 Hne2 Hhead).
    apply Hloc2; lia.
Qed.

Lemma object_loop_step (s : str) (d : list (str * pyval)) (v : pyval)
    (rest : str) :
  object_loop (S f) s d = Parsed v rest -> object_local s d v rest.
Proof.
  cbn [object_loop].
  destruct s as [|q t]; [discriminate|].
  destruct (q =? 34)%N eqn:E34; [|discriminate].
  apply N.eqb_eq in E34; subst q.
  destruct (scanstring (length (34%N :: t)) t) as [key r| |] eqn:Es;
    try discriminate.
  destruct (scanstring_local _ _ _ _ Es) as (ck & -> & Hkey).
  destruct (skip_ws r) as [|x r'] eqn:Ews1; [discriminate|].
  destruct (x =? 58)%N eqn:E58; [|discriminate].
  apply N.eqb_eq in E58; subst x.
  destruct (skip_ws_split r) as (w1 & Hw1 & Hr); rewrite Ews1 in Hr; subst r.
  destruct (scan_once f (skip_ws r')) as [v1 r2| |] eqn:Ev; try discriminate.
  destruct (skip_ws_split r') as (w2 & Hw2 & Hr').
  pose proof (skip_ws_head r') as Hhead2.
  destruct (skip_ws r2) as [|x r3] eqn:Ews2; [discriminate|].
  pose proof (skip_ws_head r2) as Hx; rewrite Ews2 in Hx; cbn in Hx.
  cbv zeta.
  destruct (x =? 125)%N eqn:E125.
  - intros [= <- <-].
    apply N.eqb_eq in E125; subst x.
    destruct (value_then _ _ _ _ _ Ev Ews2 Hx) as (c & w & Hc & Hne & Hw & Hloc);
      try discriminate; try reflexivity.
    rewrite Hc in Hr', Hhead2; subst r'.
    exists (34%N :: ck ++ 34%N :: w1 ++ 58%N :: w2 ++ c ++ w).
    split; [cbn [app]; rewrite <- !app_assoc; cbn [app];
            rewrite <- !app_assoc; cbn [app]; rewrite <- !app_assoc;
            reflexivity|].
    split; [discriminate|].
    intros fuel rest' Hfuel.
    destruct fuel as [|fuel]; [lia|].
    cbn [length] in Hfuel; rewrite !length_app in Hfuel;
      cbn [length] in Hfuel; rewrite !length_app in Hfuel;
      cbn [length] in Hfuel; rewrite !length_app in Hfuel.
    cbn [app]; rewrite <- !app_assoc; cbn [app];
      rewrite <- !app_assoc; cbn [app]; rewrite <- !app_assoc.
    cbn [object_loop N.eqb Pos.eqb].
    rewrite Hkey.
    rewrite (skip_ws_to w1 58 _ Hw1 eq_refl).
    cbn [N.eqb Pos.eqb].
    rewrite (skip_ws_to_text w2 c _ (w ++ 125%N :: rest') Hw2 Hne Hhead2).
    rewrite Hloc by lia.
    cbv zeta.
    rewrite (skip_ws_to w 125 _ Hw eq_refl); reflexivity.
  - destruct (x =? 44)%N eqn:E44; [|discriminate].
    intros H.
    apply N.eqb_eq in E44; subst x.
    destruct (value_then _ _ _ _ _ Ev Ews2 Hx) as (c & w & Hc & Hne & Hw & Hloc);
      try discriminate; try reflexivity.
    rewrite Hc in Hr', Hhead2; subst r'.
    destruct (IHo _ _ _ _ H) as (c2 & Hc2 & Hne2 & Hloc2).
    destruct (skip_ws_split r3) as (w3 & Hw3 & Hr3).
    pose proof (skip_ws_head r3) as Hhead3.
    rewrite Hc2 in Hr3, Hhead3; subst r3.
    exists (34%N :: ck ++ 34%N :: w1 ++ 58%N :: w2 ++ c ++ w ++ 44%N
              :: w3 ++ c2).
    split; [cbn [app]; rewrite <- !app_assoc; cbn [app];
            rewrite <- !app_assoc; cbn [app]; rewrite <- !app_assoc;
            cbn [app]; rewrite <- !app_assoc; reflexivity|].
    split; [discriminate|].
    intros fuel rest' Hfuel.
    destruct fuel as [|fuel]; [lia|].
    cbn [length] in Hfuel; rewrite !length_app in Hfuel;
      cbn [length] in Hfuel; rewrite !length_app in Hfuel;
      cbn [length] in Hfuel; rewrite !length_app in Hfuel;
      cbn [length] in Hfuel; rewrite !length_app in Hfuel.
    cbn [app]; rewrite <- !app_assoc; cbn [app];
      rewrite <- !app_assoc; cbn [app]; rewrite <- !app_assoc;
      cbn [app]; rewrite <- !app_assoc.
    cbn [object_loop N.eqb Pos.eqb].
    rewrite Hkey.
    rewrite (skip_ws_to w1 58 _ Hw1 eq_refl).
    cbn [N.eqb Pos.eqb].
    rewrite (skip_ws_to_text w2 c (w ++ 44%N :: w3 ++ c2 ++ 125%N :: rest)
               (w ++ 44%N :: w3 ++ c2 ++ 125%N :: rest') Hw2 Hne Hhead2).
    rewrite Hloc by lia.
    cbv zeta.
    rewrite (skip_ws_to w 44 _ Hw eq_refl).
    cbn [N.eqb Pos.eqb].
    rewrite (skip_ws_to_text w3 c2 (125%N :: rest) (125%N :: rest')
               Hw3 Hne2 Hhead3).
    apply Hloc2; lia.
Qed.

End DecoderStep.

(** A value that was read is read again, to the same result, from its own
    text followed by anything that cannot extend a number, with any fuel
    of at least twice the length of that text. *)
Lemma decoder_local (fuel : nat) :
  (forall s v rest, scan_once fuel s = Parsed v rest -> value_local s v rest)
  /\ (forall s acc v rest,
         array_loop fuel s acc = Parsed v rest -> array_local s acc v rest)
  /\ (forall s d v rest,
         object_loop fuel s d = Parsed v rest -> object_local s d v rest).
Proof.
  induction fuel as [|fuel (IHv & IHa & IHo)].
  - repeat split; intros; discriminate.
  - split; [|split].
    + apply scan_once_step; assumption.
    + apply array_loop_step; assumption.
    + apply object_loop_step; assumption.
Qed.

Lemma json_blank_blank (w : str) : json_blank w -> blank w.
Proof.
  unfold json_blank, blank; intros H.
  eapply Forall_impl; [|exact H].
  intros x; apply json_ws_isspace.
Qed.

Lemma value_text_ends (c : str) :
  value_text c ->
  exists x c' y c'',
    c = x :: c' /\ c = c'' ++ [y] /\ edge x = true /\ edge y = true.
Proof.
  intros (Hne & Hhd & Hlast).
  destruct c as [|x c']; [contradiction|].
  destruct (exists_last Hne) as (c'' & y & Hc).
  exists x, c', y, c''; repeat split; [exact Hc | exact Hhd |].
  rewrite Hc, last_last in Hlast; exact Hlast.
Qed.

(** Trimming a text that has no whitespace at its ends, with whitespace
    around it, gives the text. *)
Lemma strip_padded (w1 c w2 : str) (x y : N) (c' c'' : str) :
  blank w1 -> blank w2 ->
  c = x :: c' -> c = c'' ++ [y] ->
  isspace x = false -> isspace y = false ->
  strip (w1 ++ c ++ w2) = c.
Proof.
  intros Hw1 Hw2 Hhd Hlast Hx Hy.
  unfold strip.
  rewrite (lstrip_spaces w1 _ Hw1).
  rewrite (lstrip_fixed (c ++ w2)) by (rewrite Hhd; exact Hx).
  unfold rstrip.
  rewrite rev_app_distr, lstrip_spaces by (apply Forall_rev; exact Hw2).
  rewrite lstrip_fixed, rev_involutive; [reflexivity|].
  rewrite Hlast, rev_app_distr; exact Hy.
Qed.

Lemma startswith_app (p r : str) : startswith (p ++ r) p = true.
Proof.
  induction p as [|x p IH]; [reflexivity|].
  cbn; rewrite N.eqb_refl; exact IH.
Qed.

Lemma endswith_app (r q : str) : endswith (r ++ q) q = true.
Proof. unfold endswith; rewrite rev_app_distr; apply startswith_app. Qed.

Lemma slice_drop_prefix (p r : str) :
  slice (p ++ r) (Some (Z.of_nat (length p))) None = r.
Proof.
  unfold slice, adjust_index.
  rewrite length_app, Nat2Z.inj_add.
  destruct (Z.ltb_spec (Z.of_nat (length p)) 0) as [E|E]; [lia|].
  rewrite Z.min_l by lia.
  rewrite Nat2Z.id, skipn_app, skipn_all, Nat.sub_diag; cbn [app skipn].
  replace (Z.to_nat _) with (length r) by lia.
  apply firstn_all.
Qed.

Lemma slice_drop_suffix (r q : str) :
  q <> [] ->
  slice (r ++ q) None (Some (- Z.of_nat (length q))) = r.
Proof.
  intros Hq; unfold slice, adjust_index.
  rewrite length_app, Nat2Z.inj_add.
  assert (0 < length q)%nat by (destruct q; [contradiction | cbn; lia]).
  destruct (Z.ltb_spec (- Z.of_nat (length q)) 0) as [E|E]; [|lia].
  rewrite Z.max_r by lia.
  cbn [Z.to_nat skipn].
  replace (Z.to_nat _) with (length r) by lia.
  rewrite firstn_app, Nat.sub_diag, firstn_all; cbn; apply app_nil_r.
Qed.

(** A document that decodes is whitespace, the text of one value, and
    whitespace; the text alone decodes to the same value. *)
Lemma json_loads_text (p : str) (v : pyval) :
  json_loads p = Ok v ->
  exists w1 c w2,
    p = w1 ++ c ++ w2 /\ json_blank w1 /\ json_blank w2 /\
    value_text c /\ json_loads c = Ok v.
Proof.
  unfold json_loads at 1.
  destruct (startswith p [65279%N]); [discriminate|].
  destruct (scan_once (S (2 * length p)) (skip_ws p)) as [obj rest| |] eqn:Ev;
    try discriminate.
  destruct (skip_ws rest) as [|e extra] eqn:Er; [|discriminate].
  intros [= <-].
  destruct (skip_ws_split p) as (w1 & Hw1 & Hp).
  destruct (proj1 (decoder_local _) _ _ _ Ev) as (c & Hc & Htext & Hloc).
  destruct (skip_ws_split rest) as (w2 & Hw2 & Hrest).
  rewrite Er, app_nil_r in Hrest; subst rest.
  exists w1, c, w2.
  split; [rewrite Hp at 1; rewrite Hc; reflexivity|].
  split; [exact Hw1|]; split; [exact Hw2|]; split; [exact Htext|].
  destruct (value_text_ends c Htext) as (x & c' & y & c'' & Hx & Hy & Ex & Ey).
  unfold json_loads.
  assert (Hbom : startswith c [65279%N] = false).
  { rewrite Hx; cbn [startswith].
    unfold edge in Ex; apply andb_prop in Ex; destruct Ex as (_ & Ex).
    apply negb_true_iff in Ex; rewrite N.eqb_sym, Ex; reflexivity. }
  rewrite Hbom.
  assert (Hskip : skip_ws c = c).
  { apply skip_ws_fixed; rewrite Hx; cbn [head_not_blank].
    destruct (is_json_ws x) eqn:E; [|reflexivity].
    apply json_ws_isspace in E.
    rewrite (edge_not_space x Ex) in E; discriminate. }
  rewrite Hskip.
  specialize (Hloc (S (2 * length c)) [] ltac:(lia) I).
  rewrite app_nil_r in Hloc; rewrite Hloc; reflexivity.
Qed.

Lemma edge_not_backquote (x : N) : edge x = true -> (96 =? x)%N = false.
Proof.
  unfold edge; intros H.
  apply andb_prop in H; destruct H as (H & _).
  apply andb_prop in H; destruct H as (_ & H).
  apply negb_true_iff in H; rewrite N.eqb_sym; exact H.
Qed.

Lemma strip_value_text (w1 c w2 : str) :
  blank w1 -> blank w2 -> value_text c -> strip (w1 ++ c ++ w2) = c.
Proof.
  intros Hw1 Hw2 Htext.
  destruct (value_text_ends c Htext) as (x & c' & y & c'' & Hx & Hy & Ex & Ey).
  exact (strip_padded w1 c w2 x y c' c'' Hw1 Hw2 Hx Hy
           (edge_not_space x Ex) (edge_not_space y Ey)).
Qed.

(** The text of a value carries no fence: cleaning leaves it as it is. *)
Lemma strip_fence_value_text (w1 c w2 : str) :
  blank w1 -> blank w2 -> value_text c ->
  Para.strip_fence (w1 ++ c ++ w2) = ([], Ok c).
Proof.
  intros Hw1 Hw2 Htext.
  unfold Para.strip_fence; cbv zeta.
  rewrite (strip_value_text w1 c w2 Hw1 Hw2 Htext).
  destruct (value_text_ends c Htext) as (x & c' & y & c'' & Hx & Hy & Ex & Ey).
  assert (Hopen : startswith c Para.FENCE_JSON = false).
  { rewrite Hx; cbn [startswith Para.FENCE_JSON].
    rewrite (edge_not_backquote x Ex); reflexivity. }
  assert (Hclose : endswith c Para.FENCE = false).
  { unfold endswith; rewrite Hy, rev_app_distr.
    cbn [rev app startswith Para.FENCE].
    rewrite (edge_not_backquote y Ey); reflexivity. }
  rewrite Hopen; io_step; rewrite Hclose.
  pose proof (strip_value_text [] c [] (Forall_nil _) (Forall_nil _) Htext)
    as Hstrip.
  cbn [app] in Hstrip; rewrite app_nil_r in Hstrip; rewrite Hstrip.
  reflexivity.
Qed.

(** Cleaning removes the tagged opening marker and the closing marker, and
    the whitespace around them and around the text of the value. *)
Lemma strip_fence_fenced (a1 a2 a3 a4 w1 c w2 : str) :
  blank a1 -> blank a2 -> blank a3 -> blank a4 ->
  blank w1 -> blank w2 -> value_text c ->
  Para.strip_fence (fenced Para.FENCE_JSON a1 a2 a3 a4 (w1 ++ c ++ w2))
  = ([PrintFenceDetected], Ok c).
Proof.
  intros Ha1 Ha2 Ha3 Ha4 Hw1 Hw2 Htext.
  unfold Para.strip_fence, fenced; cbv zeta.
  set (inner := a2 ++ (w1 ++ c ++ w2) ++ a3).
  assert (Houter : strip (a1 ++ Para.FENCE_JSON ++ a2 ++ (w1 ++ c ++ w2)
                          ++ a3 ++ Para.FENCE ++ a4)
                   = Para.FENCE_JSON ++ inner ++ Para.FENCE).
  { replace (a1 ++ Para.FENCE_JSON ++ a2 ++ (w1 ++ c ++ w2)
             ++ a3 ++ Para.FENCE ++ a4)
      with (a1 ++ (Para.FENCE_JSON ++ inner ++ Para.FENCE) ++ a4)
      by (unfold inner; rewrite <- !app_assoc; reflexivity).
    apply (strip_padded a1 _ a4 96%N 96%N
             ([96; 96; 106; 115; 111; 110]%N ++ inner ++ Para.FENCE)
             (Para.FENCE_JSON ++ inner ++ [96; 96]%N) Ha1 Ha4);
      try reflexivity.
    rewrite <- !app_assoc; reflexivity. }
  rewrite Houter, startswith_app; io_step.
  change 7 with (Z.of_nat (length Para.FENCE_JSON)).
  rewrite slice_drop_prefix.
  cbn [io_bind ret fst snd app].
  rewrite endswith_app.
  change (-3) with (- Z.of_nat (length Para.FENCE)).
  rewrite slice_drop_suffix by discriminate.
  unfold inner.
  replace (a2 ++ (w1 ++ c ++ w2) ++ a3) with ((a2 ++ w1) ++ c ++ (w2 ++ a3))
    by (rewrite <- !app_assoc; reflexivity).
  rewrite strip_value_text;
    [reflexivity | apply Forall_app; auto | apply Forall_app; auto | exact Htext].
Qed.

Lemma parse_payload_of_content (full_content content : str)
    (out : list event) :
  Para.strip_fence full_content = (out, Ok content) ->
  snd (Para.parse_payload full_content)
  = snd (try_except (Para.decode_sections content) is_JSONDecodeError
           (Para.on_decode_error content)).
Proof.
  intros H; unfold Para.parse_payload.
  rewrite print_bind, H, (io_bind_ok _ _ content) by reflexivity.
  reflexivity.
Qed.

Lemma decode_sections_structured (content : str) (v : pyval) :
  json_loads content = Ok v -> structured_result v ->
  snd (Para.decode_sections content) = Ok v.
Proof.
  intros Hjson (d & sections & -> & Hget); unfold Para.decode_sections.
  cbn [io_bind print lift ret app]; rewrite Hjson.
  cbn [io_bind print lift ret app contains getitem]; rewrite Hget.
  reflexivity.
Qed.

(** C4 as the code has it: a payload that decodes as JSON, put between the
    opening marker tagged [json] and the closing marker with any whitespace
    around the markers and the payload, is parsed to the same outcome as
    the payload alone; when it decodes to an object with a [sections]
    array, that object is the result of both. *)
Theorem C4_tagged_fence_is_transparent
    (payload : str) (v : pyval) (w1 w2 w3 w4 : str) :
  blank w1 -> blank w2 -> blank w3 -> blank w4 ->
  json_loads payload = Ok v ->
  snd (Para.parse_payload (fenced Para.FENCE_JSON w1 w2 w3 w4 payload))
  = snd (Para.parse_payload payload) /\
  (structured_result v ->
   snd (Para.parse_payload (fenced Para.FENCE_JSON w1 w2 w3 w4 payload))
   = Ok v /\
   snd (Para.parse_payload payload) = Ok v).
Proof.
  intros H1 H2 H3 H4 Hjson.
  destruct (json_loads_text payload v Hjson)
    as (b1 & c & b2 & -> & Hb1 & Hb2 & Htext & Hc).
  apply json_blank_blank in Hb1, Hb2.
  pose proof (strip_fence_fenced w1 w2 w3 w4 b1 c b2 H1 H2 H3 H4 Hb1 Hb2 Htext)
    as Hfenced.
  pose proof (strip_fence_value_text b1 c b2 Hb1 Hb2 Htext) as Hplain.
  rewrite (parse_payload_of_content _ _ _ Hfenced).
  rewrite (parse_payload_of_content _ _ _ Hplain).
  split; [reflexivity|].
  intros Hv.
  pose proof (decode_sections_structured c v Hc Hv) as Hd.
  rewrite (try_except_ok _ _ _ v Hd), Hd; auto.
Qed.

Lemma C4_tagged_fence_is_transparent_witness :
  snd (Para.parse_payload
         (fenced Para.FENCE_JSON [] [10%N] [10%N] [32%N]
            payload_empty_sections))
  = Ok (PDict [(lit "sections", PList [])]).
Proof.
  apply (C4_tagged_fence_is_transparent payload_empty_sections
           (PDict [(lit "sections", PList [])]) [] [10%N] [10%N] [32%N]).
  - constructor.
  - repeat constructor.
  - repeat constructor.
  - repeat constructor.
  - reflexivity.
  - exists [(lit "sections", PList [])], []; split; reflexivity.
Defined.

(** C4 as the specification words it fails for the opening marker without
    the tag: it is left in the payload, which then is not JSON. *)
Lemma C4_untagged_fence_is_not_removed :
  json_loads payload_empty_sections = Ok (PDict [(lit "sections", PList [])])
  /\ snd (Para.parse_payload payload_empty_sections)
     = Ok (PDict [(lit "sections", PList [])])
  /\ snd (Para.parse_payload
            (fenced Para.FENCE [] [10%N] [10%N] [] payload_empty_sections))
     = Raise (AttributeError (lit "char"))
  /\ snd (Para.parse_payload
            (fenced Para.FENCE [] [10%N] [10%N] [] payload_empty_sections))
     <> snd (Para.parse_payload payload_empty_sections).
Proof.
  repeat split; try (vm_compute; reflexivity).
  vm_compute; discriminate.
Qed.

(** ** The fuel of [json_loads] is enough *)

Lemma skip_ws_length (s : str) : (length (skip_ws s) <= length s)%nat.
Proof.
  destruct (skip_ws_split s) as (w & _ & H).
  rewrite H at 2; rewrite length_app; lia.
Qed.

Lemma scan_units_no_overflow (opening : nat) (s : str)
    (acc : list (N * bool)) :
  scan_units opening s acc <> Overflow.
Proof.
  remember (length s) as n eqn:Hn.
  assert (Hlen : (length s <= n)%nat) by lia; clear Hn.
  revert s Hlen acc; induction n as [|n IH]; intros s Hlen acc.
  { destruct s; [discriminate | cbn in Hlen; lia]. }
  destruct s as [|c0 t]; [discriminate|].
  cbn [scan_units].
  destruct (c0 =? 34)%N; [discriminate|].
  destruct (c0 =? 92)%N.
  - destruct t as [|e t']; [discriminate|].
    destruct (e =? 117)%N.
    + destruct t' as [|h1 [|h2 [|h3 [|h4 [|x t4]]]]]; try discriminate.
      destruct (hex4 h1 h2 h3 h4); [|discriminate].
      apply IH; cbn in Hlen |- *; lia.
    + destruct (unescape e); [|discriminate].
      apply IH; cbn in Hlen; lia.
  - destruct (c0 <=? 31)%N; [discriminate|].
    apply IH; cbn in Hlen; lia.
Qed.

Lemma scanstring_no_overflow (opening : nat) (s : str) :
  scanstring opening s <> Overflow.
Proof.
  unfold scanstring.
  destruct (scan_units opening s []) eqn:E; try discriminate.
  exact (fun _ => scan_units_no_overflow _ _ _ E).
Qed.

Lemma scanstring_shorter (opening : nat) (s k r : str) :
  scanstring opening s = Parsed k r -> (length r < length s)%nat.
Proof.
  intros H; destruct (scanstring_local _ _ _ _ H) as (c & -> & _).
  rewrite length_app; cbn; lia.
Qed.

Lemma scan_once_shorter (fuel : nat) (s : str) (v : pyval) (r : str) :
  scan_once fuel s = Parsed v r -> (length r < length s)%nat.
Proof.
  intros H.
  destruct (proj1 (decoder_local fuel) _ _ _ H) as (c & -> & (Hne & _) & _).
  rewrite length_app; destruct c; [contradiction | cbn; lia].
Qed.

Lemma decoder_no_overflow (fuel : nat) :
  (forall s, (2 * length s + 1 <= fuel)%nat -> scan_once fuel s <> Overflow)
  /\ (forall s acc, (2 * length s + 2 <= fuel)%nat ->
                    array_loop fuel s acc <> Overflow)
  /\ (forall s d, (2 * length s + 2 <= fuel)%nat ->
                  object_loop fuel s d <> Overflow).
Proof.
  induction fuel as [|fuel (IHv & IHa & IHo)].
  { repeat split; intros; lia. }
  split; [|split].
  - intros s Hfuel; cbn [scan_once].
    destruct s as [|c0 t]; [discriminate|].
    cbn [length] in Hfuel.
    pose proof (skip_ws_length t) as Hws.
    destruct (c0 =? 34)%N.
    { destruct (scanstring (length (c0 :: t)) t) eqn:E; try discriminate.
      exact (fun _ => scanstring_no_overflow _ _ E). }
    destruct (c0 =? 123)%N.
    { cbv zeta; destruct (head_is 125 (skip_ws t)); [discriminate|].
      apply IHo; lia. }
    destruct (c0 =? 91)%N.
    { cbv zeta; destruct (head_is 93 (skip_ws t)); [discriminate|].
      apply IHa; lia. }
    destruct (match_constant (c0 :: t)) as [[? ?]|]; [discriminate|].
    destruct (match_number (c0 :: t)) as [[? ?]|]; discriminate.
  - intros s acc Hfuel; cbn [array_loop].
    destruct (scan_once fuel s) as [v r| |] eqn:Ev; [|discriminate|].
    + pose proof (scan_once_shorter _ _ _ _ Ev) as Hr.
      pose proof (skip_ws_length r) as Hws.
      destruct (skip_ws r) as [|x r'] eqn:Er; [discriminate|].
      pose proof (skip_ws_length r') as Hws'.
      cbn [length] in Hws.
      destruct (x =? 93)%N; [discriminate|].
      destruct (x =? 44)%N; [|discriminate].
      apply IHa; lia.
    + exact (fun _ => IHv s ltac:(lia) Ev).
  - intros s d Hfuel; cbn [object_loop].
    destruct s as [|q t]; [discriminate|].
    cbn [length] in Hfuel.
    destruct (q =? 34)%N; [|discriminate].
    destruct (scanstring (length (q :: t)) t) as [key r| |] eqn:Es;
      [|discriminate|].
    + pose proof (scanstring_shorter _ _ _ _ Es) as Hr.
      pose proof (skip_ws_length r) as Hws.
      destruct (skip_ws r) as [|x r'] eqn:Er; [discriminate|].
      cbn [length] in Hws.
      destruct (x =? 58)%N; [|discriminate].
      pose proof (skip_ws_length r') as Hws'.
      destruct (scan_once fuel (skip_ws r')) as [v r2| |] eqn:Ev;
        [|discriminate|].
      * pose proof (scan_once_shorter _ _ _ _ Ev) as Hr2.
        pose proof (skip_ws_length r2) as Hws2.
        cbv zeta.
        destruct (skip_ws r2) as [|x2 r3] eqn:Er2; [discriminate|].
        pose proof (skip_ws_length r3) as Hws3.
        cbn [length] in Hws2.
        destruct (x2 =? 125)%N; [discriminate|].
        destruct (x2 =? 44)%N; [|discriminate].
        apply IHo; lia.
      * exact (fun _ => IHv (skip_ws r') ltac:(lia) Ev).
    + exact (fun _ => scanstring_no_overflow _ _ Es).
Qed.

(** [json_loads] returns a value or raises a [JSONDecodeError]; the fuel
    never runs out. *)
Lemma json_loads_decides (s : str) :
  (exists v, json_loads s = Ok v) \/
  (exists msg pos, json_loads s = Raise (JSONDecodeError msg s pos)).
Proof.
  unfold json_loads.
  destruct (startswith s [65279%N]); [right; eauto|].
  pose proof (skip_ws_length s) as Hws.
  destruct (scan_once (S (2 * length s)) (skip_ws s)) as [obj rest|msg n|] eqn:E.
  - destruct (skip_ws rest); [left | right]; eauto.
  - right; eauto.
  - exfalso.
    apply (proj1 (decoder_no_overflow (S (2 * length s))) (skip_ws s));
      [lia | exact E].
Qed.


(** ** More on the paragraph materializer *)

Lemma split_from_word (w s : str) : split_from (Some w) s <> [].
Proof.
  revert w; induction s as [|c t IH]; intros w; cbn; [discriminate|].
  destruct (isspace c); [discriminate | apply IH].
Qed.

Lemma split_nil_blank (s : str) : split s = [] -> blank s.
Proof.
  unfold split; induction s as [|c t IH]; cbn; [constructor|].
  destruct (isspace c) eqn:E.
  - intros H; constructor; [exact E | exact (IH H)].
  - intros H; destruct (split_from_word _ _ H).
Qed.

Lemma trimmed_blank_empty (s : str) : no_lead s -> blank s -> s = [].
Proof.
  destruct s as [|c t]; [reflexivity|].
  cbn; intros Hc Hb; inversion Hb as [|? ? Hc' _]; congruence.
Qed.

Lemma strip_trimmed (s : str) :
  strip (strip s) = strip s /\ no_lead (strip s) /\ no_lead (rev (strip s)).
Proof.
  split; [apply strip_idem|]; split.
  - apply rstrip_no_lead, lstrip_no_lead.
  - unfold strip, rstrip; rewrite rev_involutive; apply lstrip_no_lead.
Qed.

(** What [_create_paragraph_dict] returns, when it returns. *)
Lemma create_paragraph_dict_fields (new_id content : str)
    (heading_level chapter_path : pyval) (page_num : Z)
    (p : Para.ParagraphRecord) :
  Para._create_paragraph_dict new_id content heading_level chapter_path
    page_num = Ok p ->
  Para.paragraph_id p = new_id /\
  Para.heading_level p = heading_level /\
  Para.content p = strip content /\
  Para.word_count p = Z.of_nat (length (split content)) /\
  Para.translation_status p = Para.PENDING /\
  Para.position_page p = page_num /\
  Para.position_sequence p = PNone.
Proof.
  unfold Para._create_paragraph_dict.
  destruct (gt_zero heading_level) as [[|]|]; cbn [bind]; try discriminate.
  - destruct (hashes heading_level); cbn [bind]; [|discriminate].
    intros [= <-]; repeat split.
  - intros [= <-]; repeat split.
Qed.

(** What the body of the loop returns, when it returns. *)
Lemma materialize_section_fields (uuid4 : nat -> str) (full_text : str)
    (n : nat) (section : pyval) (p : Para.ParagraphRecord) :
  Para.materialize_section uuid4 full_text n section = Ok p ->
  exists span,
    Para.paragraph_id p = uuid4 n /\
    Para.content p = strip span /\
    Para.word_count p = Z.of_nat (length (split (strip span))) /\
    Para.translation_status p = Para.PENDING /\
    1 <= Para.position_page p /\
    Para.position_sequence p = PNone.
Proof.
  unfold Para.materialize_section.
  destruct (getitem section (lit "start_position")) as [s|]; [|discriminate].
  cbn [bind].
  destruct (getitem section (lit "end_position")) as [e|]; [|discriminate].
  cbn [bind].
  destruct (slice_val full_text s e) as [span|]; [|discriminate].
  cbn [bind].
  destruct (getitem section (lit "heading_level")) as [h|]; [|discriminate].
  cbn [bind].
  destruct (getitem section (lit "chapter_path")) as [c|]; [|discriminate].
  cbn [bind].
  destruct (Para.estimate_page_of s) as [page|] eqn:Ep; [|discriminate].
  cbn [bind].
  intros H; apply create_paragraph_dict_fields in H.
  destruct H as (Hid & _ & Hc & Hw & Hs & Hp & Hq).
  exists span; rewrite Hc, strip_idem.
  repeat split; auto.
  rewrite Hp.
  destruct s; try discriminate; injection Ep as <-;
    apply estimate_page_number_lower.
Qed.

Lemma materialize_from_fields (uuid4 : nat -> str) (full_text : str)
    (sections : list pyval) :
  forall (n : nat) (paragraphs : list Para.ParagraphRecord),
    Para.materialize_from uuid4 full_text n sections = Ok paragraphs ->
    length paragraphs = length sections /\
    map Para.paragraph_id paragraphs = map uuid4 (seq n (length sections)) /\
    Forall (fun p =>
              strip (Para.content p) = Para.content p /\
              no_lead (Para.content p) /\
              no_lead (rev (Para.content p)) /\
              Para.word_count p
                = Z.of_nat (length (split (Para.content p))) /\
              (Para.word_count p = 0 <-> Para.content p = []) /\
              Para.translation_status p = Para.PENDING /\
              1 <= Para.position_page p /\
              Para.position_sequence p = PNone)
           paragraphs.
Proof.
  induction sections as [|section rest IH]; intros n paragraphs; cbn.
  - intros [= <-]; repeat split; constructor.
  - destruct (Para.materialize_section uuid4 full_text n section) as [p|] eqn:Ep;
      cbn [bind]; [|discriminate].
    destruct (Para.materialize_from uuid4 full_text (S n) rest) as [ps|] eqn:Eps;
      cbn [bind]; [|discriminate].
    intros [= <-].
    destruct (IH _ _ Eps) as (Hlen & Hids & Hall).
    destruct (materialize_section_fields _ _ _ _ _ Ep)
      as (span & Hid & Hc & Hw & Hs & Hp & Hq).
    destruct (strip_trimmed span) as (Hidem & Hl & Hr).
    cbn [length map]; rewrite Hlen, Hid, Hids.
    split; [reflexivity|]; split; [reflexivity|].
    constructor; [|exact Hall].
    rewrite Hc, Hw.
    repeat split; auto.
    + intros H0.
      assert (Hn : split (strip span) = []).
      { destruct (split (strip span)); [reflexivity | cbn in H0; lia]. }
      apply trimmed_blank_empty; [exact Hl | apply split_nil_blank; exact Hn].
    + intros ->; reflexivity.
Qed.

Lemma materialize_sections (uuid4 : nat -> str) (full_text : str)
    (llm_result : pyval) (paragraphs : list Para.ParagraphRecord) :
  Para.materialize uuid4 full_text llm_result = Ok paragraphs ->
  exists sections_val sections,
    getitem llm_result (lit "sections") = Ok sections_val /\
    py_iter sections_val = Ok sections /\
    Para.materialize_from uuid4 full_text 0 sections = Ok paragraphs.
Proof.
  unfold Para.materialize.
  destruct (negb (truthy llm_result)); [discriminate|].
  destruct (getitem llm_result (lit "sections")) as [sv|] eqn:Es;
    [|discriminate].
  cbn [bind].
  destruct (py_iter sv) as [ss|] eqn:Ei; [|discriminate].
  cbn [bind]; intros H; exists sv, ss; auto.
Qed.


Lemma NoDup_map_injective {A B : Type} (f : A -> B) (l : list A) :
  (forall x y, f x = f y -> x = y) -> NoDup l -> NoDup (map f l).
Proof.
  intros Hinj; induction 1 as [|x l Hx _ IH]; cbn; constructor; [|exact IH].
  intros Hin; apply in_map_iff in Hin; destruct Hin as (y & Hy & Hin).
  apply Hinj in Hy; subst y; exact (Hx Hin).
Qed.

(** X2: the records take their identifiers from successive calls of the
    generator, one call per record in array order; so the identifiers of a
    run are pairwise distinct as soon as the generator does not repeat
    itself. *)
Theorem X2_identifiers_are_fresh
    (uuid4 : nat -> str) (full_text : str) (llm_result : pyval)
    (paragraphs : list Para.ParagraphRecord) :
  Para.materialize uuid4 full_text llm_result = Ok paragraphs ->
  map Para.paragraph_id paragraphs
    = map uuid4 (seq 0 (length paragraphs)) /\
  ((forall i j, uuid4 i = uuid4 j -> i = j) ->
   NoDup (map Para.paragraph_id paragraphs)).
Proof.
  intros H; destruct (materialize_sections _ _ _ _ H) as (sv & ss & _ & _ & Hm).
  destruct (materialize_from_fields _ _ _ _ _ Hm) as (Hlen & Hids & _).
  rewrite Hlen; split; [exact Hids|].
  intros Hinj; rewrite Hids.
  apply NoDup_map_injective; [exact Hinj | apply seq_NoDup].
Qed.

(** The loop over two arrays in a row is the loop over the first, then the
    loop over the second with the identifiers that are left. *)
Lemma materialize_from_app (uuid4 : nat -> str) (full_text : str)
    (a b : list pyval) (n : nat) :
  Para.materialize_from uuid4 full_text n (a ++ b)
  = (x <- Para.materialize_from uuid4 full_text n a ;;
     y <- Para.materialize_from uuid4 full_text (n + length a) b ;;
     Ok (x ++ y)).
Proof.
  revert n; induction a as [|s a IH]; intros n; cbn [app Para.materialize_from].
  - cbn [bind length]; rewrite Nat.add_0_r.
    destruct (Para.materialize_from uuid4 full_text n b); reflexivity.
  - destruct (Para.materialize_section uuid4 full_text n s) as [p|];
      cbn [bind]; [|reflexivity].
    rewrite IH; cbn [length]; rewrite Nat.add_succ_r.
    change (S n + length a)%nat with (S (n + length a)).
    destruct (Para.materialize_from uuid4 full_text (S n) a) as [x|];
      cbn [bind]; [|reflexivity].
    destruct (Para.materialize_from uuid4 full_text (S (n + length a)) b);
      reflexivity.
Qed.

(** X3: the run has no partial result.  When the sections before some
    section are materialized and that section raises, the materializer
    raises the same exception: the records already built are dropped and
    the sections after it are not looked at. *)
Theorem X3_one_bad_section_fails_the_run
    (uuid4 : nat -> str) (full_text : str) (llm_result : pyval)
    (before after : list pyval) (bad : pyval)
    (built : list Para.ParagraphRecord) (e : exn) :
  getitem llm_result (lit "sections") = Ok (PList (before ++ bad :: after)) ->
  Para.materialize_from uuid4 full_text 0 before = Ok built ->
  Para.materialize_section uuid4 full_text (length before) bad = Raise e ->
  Para.materialize uuid4 full_text llm_result = Raise e.
Proof.
  intros Hget Hbefore Hbad.
  unfold Para.materialize.
  assert (Ht : truthy llm_result = true).
  { destruct llm_result; try discriminate Hget.
    destruct d; [discriminate Hget | reflexivity]. }
  rewrite Ht, Hget; cbn [negb bind py_iter].
  rewrite materialize_from_app, Hbefore; cbn [bind Para.materialize_from Nat.add].
  rewrite Hbad; reflexivity.
Qed.

(** X4: a section that is not an object raises [TypeError]; an object that
    lacks one of the four keys raises the [KeyError] of the first key, in
    the order [start_position], [end_position], [heading_level],
    [chapter_path], that it lacks (the offsets being integers when they are
    there). *)
Theorem X4_missing_field_is_a_key_error
    (uuid4 : nat -> str) (full_text : str) (n : nat) (section : pyval) :
  ((forall d, section <> PDict d) ->
   Para.materialize_section uuid4 full_text n section = Raise TypeError) /\
  (forall d, section = PDict d ->
     (dict_get d (lit "start_position") = None ->
      Para.materialize_section uuid4 full_text n section
      = Raise (KeyError (PStr (lit "start_position")))) /\
     (forall s,
        dict_get d (lit "start_position") = Some s ->
        dict_get d (lit "end_position") = None ->
        Para.materialize_section uuid4 full_text n section
        = Raise (KeyError (PStr (lit "end_position")))) /\
     (forall a b,
        dict_get d (lit "start_position") = Some (PInt a) ->
        dict_get d (lit "end_position") = Some (PInt b) ->
        dict_get d (lit "heading_level") = None ->
        Para.materialize_section uuid4 full_text n section
        = Raise (KeyError (PStr (lit "heading_level")))) /\
     (forall a b h,
        dict_get d (lit "start_position") = Some (PInt a) ->
        dict_get d (lit "end_position") = Some (PInt b) ->
        dict_get d (lit "heading_level") = Some h ->
        dict_get d (lit "chapter_path") = None ->
        Para.materialize_section uuid4 full_text n section
        = Raise (KeyError (PStr (lit "chapter_path"))))).
Proof.
  split.
  - intros Hnot; unfold Para.materialize_section.
    destruct section; try reflexivity.
    destruct (Hnot d eq_refl).
  - intros d ->; unfold Para.materialize_section, getitem.
    split; [intros ->; reflexivity|].
    split; [intros s -> ->; reflexivity|].
    split; [intros a b -> -> ->; reflexivity|].
    intros a b h -> -> -> ->; reflexivity.
Qed.

(** X5: the two offsets are not treated alike when the model gives
    [null].  A null [end_position] is accepted and means the end of the
    text (for a heading level of at most 6, as in the data model); a null
    [start_position] passes the slicing but then has no floor division, so
    the section raises [TypeError]. *)
Theorem X5_null_offsets
    (uuid4 : nat -> str) (full_text : str) (n : nat)
    (d : list (str * pyval)) (h : Z) (c : str) :
  dict_get d (lit "heading_level") = Some (PInt h) ->
  dict_get d (lit "chapter_path") = Some (PStr c) ->
  (forall e,
     dict_get d (lit "start_position") = Some PNone ->
     dict_get d (lit "end_position") = Some e ->
     Para.materialize_section uuid4 full_text n (PDict d) = Raise TypeError) /\
  (forall a,
     h <= 6 ->
     dict_get d (lit "start_position") = Some (PInt a) ->
     dict_get d (lit "end_position") = Some PNone ->
     exists p,
       Para.materialize_section uuid4 full_text n (PDict d) = Ok p /\
       Para.content p
       = strip (skipn (Z.to_nat
                         (adjust_index (Z.of_nat (length full_text)) a))
                      full_text)).
Proof.
  intros Hh Hc; split.
  - intros e Hs He; unfold Para.materialize_section, getitem.
    rewrite Hs, He, Hh, Hc; cbn [bind].
    destruct e; reflexivity.
  - intros a Hlevel Hs He; unfold Para.materialize_section, getitem.
    rewrite Hs, He, Hh, Hc.
    cbn [bind slice_val as_bound Para.estimate_page_of].
    unfold Para._create_paragraph_dict; cbn [gt_zero bind].
    destruct (Z.ltb_spec 0 h) as [Hpos|Hneg]; cbn [bind];
      try rewrite (hashes_level h) by lia; cbn [bind];
      (eexists; split; [reflexivity|]); cbn [Para.content];
      rewrite strip_idem; unfold slice; f_equal; apply firstn_all2;
      rewrite length_skipn;
      pose proof (adjust_index_range (Z.of_nat (length full_text)) a
                    (Nat2Z.is_nonneg _)); lia.
Qed.

(** X6: the validation of [analyze_document] lets a [sections] that is a
    string or an object through; the materializer then iterates over its
    characters or keys, none of which is an object.  So an empty string or
    object gives an empty result, and any other raises [TypeError]. *)
Theorem X6_sections_that_are_no_array
    (uuid4 : nat -> str) (full_text : str) (llm_result sections : pyval) :
  getitem llm_result (lit "sections") = Ok sections ->
  (exists s, sections = PStr s) \/ (exists d, sections = PDict d) ->
  (exists n, py_len sections = Ok n) /\
  (truthy sections = false ->
   Para.materialize uuid4 full_text llm_result = Ok []) /\
  (truthy sections = true ->
   Para.materialize uuid4 full_text llm_result = Raise TypeError).
Proof.
  intros Hget Hkind.
  assert (Ht : truthy llm_result = true).
  { destruct llm_result; try discriminate Hget.
    destruct d; [discriminate Hget | reflexivity]. }
  unfold Para.materialize; rewrite Ht, Hget; cbn [negb bind].
  destruct Hkind as [(s & ->) | (d & ->)].
  - split; [eexists; reflexivity|].
    destruct s as [|x s]; split; intros H; try discriminate H; reflexivity.
  - split; [eexists; reflexivity|].
    destruct d as [|[k v] d]; split; intros H; try discriminate H; reflexivity.
Qed.

(** ** More on the streaming assembler *)

Lemma receive_cons (line : bytes) (rest : list bytes)
    (o1 o2 : list event) (a1 a2 : str) :
  Para.stream_line [] line = (o1, Ok a1) ->
  Para.receive rest [] = (o2, Ok a2) ->
  Para.receive (line :: rest) [] = (o1 ++ o2, Ok (a1 ++ a2)).
Proof.
  intros H1 H2.
  apply (receive_app [line] rest o1 o2 a1 a2); [|exact H2].
  cbn [Para.receive]; rewrite H1, (io_bind_ok _ _ a1) by reflexivity.
  cbn [fst snd ret]; rewrite app_nil_r; reflexivity.
Qed.

Lemma receive_total (lines : list bytes) :
  exists out text, Para.receive lines [] = (out, Ok text).
Proof.
  destruct (receive_appends lines []) as (out & text & _ & H & _).
  exists out, text; exact H.
Qed.

(** X7: the assembler never raises, whatever the lines are, and it works
    line by line with no memory but the text: the text and the output of two
    streams in a row are the texts and the outputs of each, one after the
    other. *)
Theorem X7_assembly_of_consecutive_streams (l1 l2 : list bytes) :
  exists t1 t2,
    assembled l1 = Ok t1 /\
    assembled l2 = Ok t2 /\
    assembled (l1 ++ l2) = Ok (t1 ++ t2) /\
    fst (Para.receive (l1 ++ l2) [])
    = fst (Para.receive l1 []) ++ fst (Para.receive l2 []).
Proof.
  destruct (receive_total l1) as (o1 & t1 & H1).
  destruct (receive_total l2) as (o2 & t2 & H2).
  exists t1, t2; unfold assembled.
  rewrite (receive_app l1 l2 o1 o2 t1 t2 H1 H2), H1, H2; auto.
Qed.

Lemma echoed_app (a b : list event) : echoed (a ++ b) = echoed a ++ echoed b.
Proof.
  induction a as [|ev a IH]; [reflexivity|].
  destruct ev as [| | |[| | | |s| |]| | | | | | | | | | | | | | | | | | | |];
    cbn [app echoed]; rewrite IH; try reflexivity.
  apply app_assoc.
Qed.

Ltac echo_done :=
  cbn [try_except is_Exception io_bind print ret lift app fst snd str_iadd];
  try (eexists _, _; split; reflexivity).

Lemma stream_line_echo (line : bytes) :
  exists out added,
    Para.stream_line [] line = (out, Ok added) /\ echoed out = added.
Proof.
  destruct line as [|b line']; [echo_done|].
  set (line := b :: line').
  unfold Para.stream_line; fold line.
  unfold Para.stream_chunk.
  destruct (utf8_decode line) as [text|e]; io_step; [|echo_done].
  destruct (startswith text Para.DATA_PREFIX); [|echo_done].
  destruct (json_loads (slice text (Some 6) None)) as [data|e];
    io_step; [|echo_done].
  destruct (Para.first_choice data) as [choice|e]; io_step; [|echo_done].
  destruct (getitem choice (lit "finish_reason")) as [reason|e];
    io_step; [|echo_done].
  destruct (negb (is_none reason)); [echo_done|].
  destruct (getitem choice (lit "delta")) as [delta|e]; io_step; [|echo_done].
  destruct (get_method delta (lit "content") (PStr [])) as [content|e];
    io_step; [|echo_done].
  destruct (truthy content) eqn:Ht; [|echo_done].
  destruct content as [| | | |s| |]; cbn [print_value];
    try destruct (console_accepts s); io_step; echo_done.
  eexists _, _; split; [reflexivity|]; cbn; apply app_nil_r.
Qed.

(** X8: what the console shows is what is accumulated: the string
    fragments printed while the stream is read, put end to end, are the
    assembled text. *)
Theorem X8_console_echo_is_the_payload (lines : list bytes) :
  assembled lines = Ok (echoed (fst (Para.receive lines []))).
Proof.
  unfold assembled; induction lines as [|line rest IH].
  - reflexivity.
  - destruct (stream_line_echo line) as (o1 & a1 & H1 & He).
    destruct (receive_total rest) as (o2 & a2 & H2).
    rewrite H2 in IH; cbn [fst snd] in IH; injection IH as IH.
    rewrite (receive_cons line rest o1 o2 a1 a2 H1 H2); cbn [fst snd].
    rewrite echoed_app, He, <- IH; reflexivity.
Qed.

(** A line that leaves the text as it is can be taken out of the stream:
    the assembled text is the same, and the output differs by what that
    line printed. *)
Lemma receive_without (l1 l2 : list bytes) (line : bytes)
    (out : list event) :
  Para.stream_line [] line = (out, Ok []) ->
  assembled (l1 ++ line :: l2) = assembled (l1 ++ l2) /\
  fst (Para.receive (l1 ++ line :: l2) [])
  = fst (Para.receive l1 []) ++ out ++ fst (Para.receive l2 []).
Proof.
  intros Hline.
  destruct (receive_total l1) as (o1 & t1 & H1).
  destruct (receive_total l2) as (o2 & t2 & H2).
  pose proof (receive_cons line l2 out o2 [] t2 Hline H2) as Hc.
  cbn [app] in Hc.
  unfold assembled.
  rewrite (receive_app l1 (line :: l2) _ _ _ _ H1 Hc).
  rewrite (receive_app l1 l2 _ _ _ _ H1 H2), H1, H2; auto.
Qed.


(** X9: empty lines and lines that do not begin with the marker [data: ]
    (comments, other fields, the marker without its space) are passed over
    in silence: with or without such a line the text and the output are the
    same. *)
Theorem X9_lines_without_marker_are_ignored
    (l1 l2 : list bytes) (line : bytes) :
  not_a_chunk line ->
  Para.receive (l1 ++ line :: l2) [] = Para.receive (l1 ++ l2) [].
Proof.
  intros Hline.
  assert (H : Para.stream_line [] line = ([], Ok [])).
  { destruct Hline as [-> | (text & Hdec & Hpre)]; [reflexivity|].
    destruct line as [|b line']; [reflexivity|].
    unfold Para.stream_line, Para.stream_chunk.
    rewrite Hdec; io_step; rewrite Hpre; reflexivity. }
  destruct (receive_without l1 l2 line [] H) as (Ha & Ho).
  destruct (receive_total (l1 ++ line :: l2)) as (o & t & E).
  destruct (receive_total (l1 ++ l2)) as (o' & t' & E').
  destruct (receive_total l1) as (o1 & t1 & E1).
  destruct (receive_total l2) as (o2 & t2 & E2).
  unfold assembled in Ha; rewrite E, E' in Ha; cbn [snd] in Ha.
  rewrite E in Ho; cbn [fst app] in Ho.
  rewrite (receive_app l1 l2 _ _ _ _ E1 E2) in E'; injection E' as <- <-.
  rewrite E1, E2 in Ho; cbn [fst] in Ho.
  rewrite E, Ho; injection Ha as ->.
  rewrite (receive_app l1 l2 _ _ _ _ E1 E2); reflexivity.
Qed.


Lemma stream_line_of_choice (line : bytes) (choice : pyval)
    (full_content : str) :
  chunk_of_choice line choice ->
  Para.stream_line full_content line
  = try_except
      (finish_reason <~ lift (getitem choice (lit "finish_reason")) ;;
       if negb (is_none finish_reason) then ret full_content
       else
         delta <~ lift (getitem choice (lit "delta")) ;;
         content <~ lift (get_method delta (lit "content") (PStr [])) ;;
         if truthy content then
           print_value content (PrintFragment content) >>
           lift (str_iadd full_content content)
         else ret full_content)
      is_Exception
      (fun e => print (PrintStreamError e) >> ret full_content).
Proof.
  intros (Hne & text & data & Hdec & Hpre & Hjson & Hchoice).
  destruct line as [|b line']; [contradiction|].
  unfold Para.stream_line, Para.stream_chunk.
  rewrite Hdec; io_step; rewrite Hpre, Hjson; io_step.
  rewrite Hchoice; io_step.
  reflexivity.
Qed.

(** X10: a chunk whose finish reason is not null is passed over in
    silence, with whatever its delta holds: its content, if it has one, is
    not added to the text. *)
Theorem X10_finishing_chunk_adds_nothing
    (l1 l2 : list bytes) (line : bytes) (choice reason : pyval) :
  chunk_of_choice line choice ->
  getitem choice (lit "finish_reason") = Ok reason ->
  reason <> PNone ->
  (forall full_content,
      Para.stream_line full_content line = ([], Ok full_content)) /\
  assembled (l1 ++ line :: l2) = assembled (l1 ++ l2).
Proof.
  intros Hline Hreason Hnot.
  assert (H : forall fc, Para.stream_line fc line = ([], Ok fc)).
  { intros fc; rewrite (stream_line_of_choice line choice fc Hline).
    rewrite Hreason; io_step.
    destruct reason; [contradiction | reflexivity ..]. }
  split; [exact H|].
  exact (proj1 (receive_without l1 l2 line [] (H []))).
Qed.

(** X11: a chunk whose first choice is an object without the key
    [finish_reason] raises [KeyError] on line 124, before its delta is
    read: the error is printed and the content of the chunk is lost. *)
Theorem X11_chunk_without_finish_reason_is_lost
    (l1 l2 : list bytes) (line : bytes) (choice : list (str * pyval)) :
  chunk_of_choice line (PDict choice) ->
  dict_get choice (lit "finish_reason") = None ->
  (forall full_content,
      Para.stream_line full_content line
      = ([PrintStreamError (KeyError (PStr (lit "finish_reason")))],
         Ok full_content)) /\
  assembled (l1 ++ line :: l2) = assembled (l1 ++ l2).
Proof.
  intros Hline Hmissing.
  assert (H : forall fc,
             Para.stream_line fc line
             = ([PrintStreamError (KeyError (PStr (lit "finish_reason")))],
                Ok fc)).
  { intros fc; rewrite (stream_line_of_choice line _ fc Hline).
    unfold getitem at 1; rewrite Hmissing; reflexivity. }
  split; [exact H|].
  exact (proj1 (receive_without l1 l2 line _ (H []))).
Qed.

(** X12: a content that is not a string is never added to the text.  When
    it is false ([null], zero, an empty array or object) the chunk is
    passed over in silence; otherwise it is printed, the concatenation
    raises [TypeError], and the error is printed. *)
Theorem X12_content_that_is_no_string
    (l1 l2 : list bytes) (line : bytes) (choice delta content : pyval) :
  chunk_of_choice line choice ->
  getitem choice (lit "finish_reason") = Ok PNone ->
  getitem choice (lit "delta") = Ok delta ->
  get_method delta (lit "content") (PStr []) = Ok content ->
  (forall s, content <> PStr s) ->
  (forall full_content,
      Para.stream_line full_content line
      = (if truthy content
         then [PrintFragment content; PrintStreamError TypeError]
         else [],
         Ok full_content)) /\
  assembled (l1 ++ line :: l2) = assembled (l1 ++ l2).
Proof.
  intros Hline Hreason Hdelta Hget Hnot.
  assert (H : forall fc,
             Para.stream_line fc line
             = (if truthy content
                then [PrintFragment content; PrintStreamError TypeError]
                else [],
                Ok fc)).
  { intros fc; rewrite (stream_line_of_choice line choice fc Hline).
    rewrite Hreason; io_step; cbn [is_none negb].
    rewrite Hdelta; io_step; rewrite Hget; io_step.
    destruct (truthy content) eqn:Ht; [|reflexivity].
    io_step.
    destruct content; try reflexivity.
    destruct (Hnot s eq_refl). }
  split; [exact H|].
  exact (proj1 (receive_without l1 l2 line _ (H []))).
Qed.

(** ** More on the structured result parser *)

Lemma on_decode_error_raises_always (content : str) (e : exn) :
  exists e', snd (Para.on_decode_error content e) = Raise e'.
Proof.
  destruct e; try (eexists; reflexivity).
Qed.

Lemma decode_sections_returns (content : str) (v : pyval) :
  snd (Para.decode_sections content) = Ok v ->
  json_loads content = Ok v /\
  exists d sections n,
    v = PDict d /\
    dict_get d (lit "sections") = Some sections /\
    py_len sections = Ok n.
Proof.
  unfold Para.decode_sections.
  cbn [io_bind print lift ret app].
  destruct (json_loads content) as [parsed|e]; [|discriminate].
  cbn [io_bind print lift ret app].
  destruct (contains parsed (lit "sections")) as [[|]|] eqn:Ec;
    cbn [io_bind print lift ret app negb]; try discriminate.
  destruct (getitem parsed (lit "sections")) as [sections|] eqn:Eg;
    cbn [io_bind print lift ret app]; [|discriminate].
  destruct (py_len sections) as [n|] eqn:El;
    cbn [io_bind print lift ret app snd]; [|discriminate].
  intros [= <-]; split; [reflexivity|].
  destruct parsed; try discriminate Eg.
  cbn [getitem] in Eg.
  destruct (dict_get d (lit "sections")) eqn:Ed; [|discriminate].
  injection Eg as ->.
  exists d, sections, n; auto.
Qed.

Lemma parse_payload_returns (full_content : str) (v : pyval) :
  snd (Para.parse_payload full_content) = Ok v ->
  exists content,
    snd (Para.strip_fence full_content) = Ok content /\
    snd (Para.decode_sections content) = Ok v.
Proof.
  destruct (strip_fence_total full_content) as (out & content & Hsf & _).
  rewrite (parse_payload_of_content _ _ _ Hsf), Hsf.
  intros H; exists content; split; [reflexivity|].
  destruct (Para.decode_sections content) as [o [a|e]]; [exact H|].
  cbn [try_except] in H.
  destruct (is_JSONDecodeError e); [|discriminate H].
  destruct (on_decode_error_raises_always content e) as (e' & He').
  destruct (Para.on_decode_error content e); cbn [snd] in *.
  rewrite He' in H; discriminate H.
Qed.

Lemma analyze_document_returns (status_code : Z) (lines : list bytes)
    (text : str) (v : pyval) :
  snd (Para.analyze_document status_code lines text) = Ok v ->
  status_code = 200 /\
  exists full_content,
    assembled lines = Ok full_content /\
    snd (Para.parse_payload full_content) = Ok v.
Proof.
  unfold Para.analyze_document.
  rewrite print_bind; cbn [fst snd].
  destruct (Z.eqb_spec status_code 200) as [->|Hne].
  - destruct (receive_total lines) as (o & fc & Hr).
    rewrite !print_bind, Hr, (io_bind_ok _ _ fc) by reflexivity.
    rewrite !print_bind; cbn [fst snd].
    intros H; split; [reflexivity|].
    exists fc; split; [unfold assembled; rewrite Hr; reflexivity|].
    destruct (Para.parse_payload fc) as [o' [a|e]]; [exact H|].
    discriminate H.
  - rewrite print_bind; cbn; discriminate.
Qed.

(** X13: [analyze_document] returns only what it has checked.  When it
    returns, the status was 200, and the value it returns is the decoded
    cleaned payload, an object with a key [sections] whose value has a
    length (an array, but also a string or an object). *)
Theorem X13_analyze_document_returns_checked_objects
    (status_code : Z) (lines : list bytes) (text : str) (v : pyval) :
  snd (Para.analyze_document status_code lines text) = Ok v ->
  status_code = 200 /\
  exists full_content content d sections n,
    assembled lines = Ok full_content /\
    snd (Para.strip_fence full_content) = Ok content /\
    json_loads content = Ok v /\
    v = PDict d /\
    dict_get d (lit "sections") = Some sections /\
    py_len sections = Ok n /\
    ((exists l, sections = PList l) \/ (exists s, sections = PStr s)
     \/ (exists d', sections = PDict d')).
Proof.
  intros H; destruct (analyze_document_returns _ _ _ _ H) as (Hs & fc & Ha & Hp).
  split; [exact Hs|].
  destruct (parse_payload_returns _ _ Hp) as (content & Hc & Hd).
  destruct (decode_sections_returns _ _ Hd) as (Hj & d & sections & n & Hv & Hg & Hl).
  exists fc, content, d, sections, n; repeat split; auto.
  destruct sections; try discriminate Hl; eauto.
Qed.

(** X14: each marker is removed on its own.  A payload that decodes is
    parsed to the same outcome when it is followed by the closing marker
    only, when it is preceded by the tagged opening marker only, and when
    there is only whitespace around it. *)
Theorem X14_single_markers_are_removed
    (payload : str) (v : pyval) (w1 w2 w3 : str) :
  blank w1 -> blank w2 -> blank w3 ->
  json_loads payload = Ok v ->
  snd (Para.parse_payload (w1 ++ payload ++ w2 ++ Para.FENCE ++ w3))
  = snd (Para.parse_payload payload) /\
  snd (Para.parse_payload (w1 ++ Para.FENCE_JSON ++ w2 ++ payload ++ w3))
  = snd (Para.parse_payload payload) /\
  snd (Para.parse_payload (w1 ++ payload ++ w3))
  = snd (Para.parse_payload payload).
Proof.
  intros H1 H2 H3 Hjson.
  destruct (json_loads_text payload v Hjson)
    as (b1 & c & b2 & -> & Hb1 & Hb2 & Htext & Hc).
  apply json_blank_blank in Hb1, Hb2.
  pose proof (strip_fence_value_text b1 c b2 Hb1 Hb2 Htext) as Hplain.
  rewrite (parse_payload_of_content _ _ _ Hplain).
  destruct (value_text_ends c Htext) as (x & c' & y & c'' & Hx & Hy & Ex & Ey).
  assert (Hopen : startswith c Para.FENCE_JSON = false).
  { rewrite Hx; cbn [startswith Para.FENCE_JSON].
    rewrite (edge_not_backquote x Ex); reflexivity. }
  assert (Hclose : endswith c Para.FENCE = false).
  { unfold endswith; rewrite Hy, rev_app_distr.
    cbn [rev app startswith Para.FENCE].
    rewrite (edge_not_backquote y Ey); reflexivity. }
  assert (Hstrip : forall a b, blank a -> blank b -> strip (a ++ c ++ b) = c).
  { intros a b Ha Hb; apply strip_value_text; assumption. }
  split; [|split].
  - (* the closing marker only *)
    assert (Hsf : Para.strip_fence
                    (w1 ++ (b1 ++ c ++ b2) ++ w2 ++ Para.FENCE ++ w3)
                  = ([], Ok c)).
    { unfold Para.strip_fence; cbv zeta.
      set (inner := c ++ b2 ++ w2).
      assert (Houter : strip (w1 ++ (b1 ++ c ++ b2) ++ w2 ++ Para.FENCE ++ w3)
                       = inner ++ Para.FENCE).
      { replace (w1 ++ (b1 ++ c ++ b2) ++ w2 ++ Para.FENCE ++ w3)
          with ((w1 ++ b1) ++ (inner ++ Para.FENCE) ++ w3)
          by (unfold inner; rewrite <- !app_assoc; reflexivity).
        apply (strip_padded (w1 ++ b1) _ w3 x 96%N
                 (c' ++ b2 ++ w2 ++ Para.FENCE)
                 (inner ++ [96; 96]%N));
          [apply Forall_app; auto | exact H3 | | | | reflexivity].
        - unfold inner; rewrite Hx, <- !app_assoc; reflexivity.
        - rewrite <- !app_assoc; reflexivity.
        - exact (edge_not_space x Ex). }
      rewrite Houter.
      assert (Hno : startswith (inner ++ Para.FENCE) Para.FENCE_JSON = false).
      { unfold inner; rewrite Hx; cbn [app startswith Para.FENCE_JSON].
        rewrite (edge_not_backquote x Ex); reflexivity. }
      rewrite Hno; io_step.
      rewrite endswith_app.
      change (-3) with (- Z.of_nat (length Para.FENCE)).
      rewrite slice_drop_suffix by discriminate.
      unfold inner.
      replace (c ++ b2 ++ w2) with ([] ++ c ++ (b2 ++ w2)) by reflexivity.
      rewrite Hstrip; [reflexivity | constructor | apply Forall_app; auto]. }
    rewrite (parse_payload_of_content _ _ _ Hsf); reflexivity.
  - (* the opening marker only *)
    assert (Hsf : Para.strip_fence
                    (w1 ++ Para.FENCE_JSON ++ w2 ++ (b1 ++ c ++ b2) ++ w3)
                  = ([PrintFenceDetected], Ok c)).
    { unfold Para.strip_fence; cbv zeta.
      set (inner := w2 ++ b1 ++ c).
      assert (Houter : strip (w1 ++ Para.FENCE_JSON ++ w2 ++ (b1 ++ c ++ b2)
                              ++ w3)
                       = Para.FENCE_JSON ++ inner).
      { replace (w1 ++ Para.FENCE_JSON ++ w2 ++ (b1 ++ c ++ b2) ++ w3)
          with (w1 ++ (Para.FENCE_JSON ++ inner) ++ (b2 ++ w3))
          by (unfold inner; rewrite <- !app_assoc; reflexivity).
        apply (strip_padded w1 _ (b2 ++ w3) 96%N y
                 ([96; 96; 106; 115; 111; 110]%N ++ inner)
                 (Para.FENCE_JSON ++ w2 ++ b1 ++ c''));
          [exact H1 | apply Forall_app; auto | reflexivity | | reflexivity |].
        - unfold inner; rewrite Hy, <- !app_assoc; reflexivity.
        - exact (edge_not_space y Ey). }
      rewrite Houter, startswith_app; io_step.
      change 7 with (Z.of_nat (length Para.FENCE_JSON)).
      rewrite slice_drop_prefix.
      cbn [io_bind ret fst snd app].
      assert (Hno : endswith inner Para.FENCE = false).
      { unfold endswith, inner; rewrite Hy, !app_assoc, rev_app_distr.
        cbn [rev app startswith Para.FENCE].
        rewrite (edge_not_backquote y Ey); reflexivity. }
      rewrite Hno.
      unfold inner.
      replace (w2 ++ b1 ++ c) with ((w2 ++ b1) ++ c ++ [])
        by (rewrite app_nil_r, <- app_assoc; reflexivity).
      rewrite Hstrip; [reflexivity | apply Forall_app; auto | constructor]. }
    rewrite (parse_payload_of_content _ _ _ Hsf); reflexivity.
  - (* whitespace only *)
    assert (Hsf : Para.strip_fence (w1 ++ (b1 ++ c ++ b2) ++ w3) = ([], Ok c)).
    { replace (w1 ++ (b1 ++ c ++ b2) ++ w3) with ((w1 ++ b1) ++ c ++ (b2 ++ w3))
        by (rewrite <- !app_assoc; reflexivity).
      apply strip_fence_value_text; [apply Forall_app; auto .. | exact Htext]. }
    rewrite (parse_payload_of_content _ _ _ Hsf); reflexivity.
Qed.

(** X15: with a status other than 200 the body of the response is not
    read: whatever its lines are, the run prints the status and the body
    text and fails with the error that carries both, and nothing of the
    stream or of the parser is printed. *)
Theorem X15_status_other_than_200
    (uuid4 : nat -> str) (full_text : str) (status_code : Z)
    (lines : list bytes) (text : str) :
  status_code <> 200 ->
  Para.extract_text uuid4 full_text status_code lines text
  = ([PrintStatus status_code; PrintApiFailed status_code text;
      PrintLLMError (ApiError status_code text);
      PrintTraceback (ApiError status_code text);
      LogError (ApiError status_code text)],
     Raise (ApiError status_code text)).
Proof.
  intros Hne; unfold Para.extract_text, Para.analyze_document.
  apply Z.eqb_neq in Hne; rewrite Hne.
  reflexivity.
Qed.

Lemma decode_sections_raises (content : str) (v : pyval) (e : exn) :
  json_loads content = Ok v ->
  (present <- contains v (lit "sections") ;;
   if negb present then Raise (ValueError Para.MISSING_SECTIONS)
   else sections <- getitem v (lit "sections") ;;
        n <- py_len sections ;; Ok v) = Raise e ->
  Para.decode_sections content
  = ([PrintFinalHeader; PrintDivider; PrintFinalContent content;
      PrintDivider; PrintParsing; PrintParsed],
     Raise e).
Proof.
  intros Hjson; unfold Para.decode_sections.
  cbn [io_bind print lift ret app]; rewrite Hjson.
  cbn [io_bind print lift ret app].
  destruct (contains v (lit "sections")) as [[|]|];
    cbn [bind io_bind print lift ret app negb]; try (intros [= <-]; reflexivity).
  destruct (getitem v (lit "sections")) as [sections|];
    cbn [bind io_bind print lift ret app]; try (intros [= <-]; reflexivity).
  destruct (py_len sections);
    cbn [bind io_bind print lift ret app]; intros [= <-]; reflexivity.
Qed.

(** X16: what the validation does with a payload that decodes to
    something else than an object with a sized [sections].  An object whose
    [sections] is [null], a boolean or a number fails with [TypeError], not
    with the missing-field error.  An array or a string is searched for the
    word: without it the missing-field error is raised, with it a
    [TypeError].  [null], booleans and numbers fail with [TypeError].  No
    such payload is a JSON error, so the handler of line 165 is not
    entered. *)
Theorem X16_payloads_that_fail_validation
    (full_content content : str) (v : pyval) :
  snd (Para.strip_fence full_content) = Ok content ->
  json_loads content = Ok v ->
  (forall d s,
     v = PDict d -> dict_get d (lit "sections") = Some s ->
     (forall n, py_len s <> Ok n) ->
     snd (Para.parse_payload full_content) = Raise TypeError) /\
  (forall l,
     v = PList l ->
     snd (Para.parse_payload full_content)
     = Raise (if existsb (fun x => match x with
                                   | PStr s => str_eqb s (lit "sections")
                                   | _ => false
                                   end) l
              then TypeError
              else ValueError Para.MISSING_SECTIONS)) /\
  (forall s,
     v = PStr s ->
     snd (Para.parse_payload full_content)
     = Raise (if is_substring (lit "sections") s
              then TypeError
              else ValueError Para.MISSING_SECTIONS)) /\
  ((v = PNone \/ (exists b, v = PBool b) \/ (exists z, v = PInt z)
    \/ (exists f, v = PFloat f)) ->
   snd (Para.parse_payload full_content) = Raise TypeError).
Proof.
  intros Hfence Hjson.
  destruct (strip_fence_total full_content) as (out & c & Hsf & _).
  rewrite Hsf in Hfence; injection Hfence as ->.
  rewrite (parse_payload_of_content _ _ _ Hsf).
  assert (Hraise : forall e,
             (present <- contains v (lit "sections") ;;
              if negb present then Raise (ValueError Para.MISSING_SECTIONS)
              else sections <- getitem v (lit "sections") ;;
                   n <- py_len sections ;; Ok v) = Raise e ->
             is_JSONDecodeError e = false ->
             snd (try_except (Para.decode_sections content)
                    is_JSONDecodeError (Para.on_decode_error content))
             = Raise e).
  { intros e He Hk.
    rewrite (decode_sections_raises content v e Hjson He).
    cbn [try_except]; rewrite Hk; reflexivity. }
  split; [|split; [|split]].
  - intros d s -> Hs Hlen; apply Hraise; [|reflexivity].
    cbn [contains getitem bind]; rewrite Hs; cbn [negb bind].
    destruct s; try reflexivity; destruct (Hlen _ eq_refl).
  - intros l ->.
    destruct (existsb _ l) eqn:E; apply Hraise; try reflexivity;
      cbn [contains bind]; rewrite E; reflexivity.
  - intros s ->.
    destruct (is_substring (lit "sections") s) eqn:E; apply Hraise;
      try reflexivity; cbn [contains bind]; rewrite E; reflexivity.
  - intros [-> | [(b & ->) | [(z & ->) | (f & ->)]]];
      apply Hraise; reflexivity.
Qed.

Lemma analyze_document_ok (lines : list bytes) (text full_content : str)
    (v : pyval) :
  assembled lines = Ok full_content ->
  snd (Para.parse_payload full_content) = Ok v ->
  snd (Para.analyze_document 200 lines text) = Ok v.
Proof.
  intros Hlines Hparse.
  destruct (receive_total lines) as (o & fc & Hr).
  unfold assembled in Hlines; rewrite Hr in Hlines; injection Hlines as ->.
  unfold Para.analyze_document.
  cbn [Z.eqb Pos.eqb].
  rewrite !print_bind, Hr, (io_bind_ok _ _ full_content) by reflexivity.
  rewrite !print_bind.
  destruct (Para.parse_payload full_content) as [o' r].
  cbn [snd] in Hparse; subst r; reflexivity.
Qed.

Lemma extract_text_ok (uuid4 : nat -> str) (full_text : str)
    (status_code : Z) (lines : list bytes) (text : str) (v : pyval) :
  snd (Para.analyze_document status_code lines text) = Ok v ->
  snd (Para.extract_text uuid4 full_text status_code lines text)
  = Para.materialize uuid4 full_text v.
Proof.
  intros H; unfold Para.extract_text.
  rewrite (io_bind_ok _ _ v H).
  destruct (Para.materialize uuid4 full_text v); reflexivity.
Qed.

(** X17: the whole pipeline.  When the stream is made of well-formed
    chunks whose fragments the console can show, their fragments put end to
    end are a payload that decodes (bare, or between the tagged opening
    marker and the closing marker), and the payload is an object whose
    [sections] array holds descriptors of the data model (a heading level
    from 0 to 6) with valid offsets, then [extract_text] returns one record
    per descriptor, in order, each with the span of the text without the
    whitespace at its ends as its content and the estimated page of its
    start. *)
Theorem X17_stream_to_records
    (uuid4 : nat -> str) (full_text : str) (lines : list bytes) (text : str)
    (fragments : list str) (payload : str) (v : pyval)
    (w1 w2 w3 w4 : str) (sections : list pyval)
    (ds : list SectionDescriptor) :
  Forall2 chunk_carries lines fragments ->
  blank w1 -> blank w2 -> blank w3 -> blank w4 ->
  concat fragments = w1 ++ payload ++ w4 \/
  concat fragments = fenced Para.FENCE_JSON w1 w2 w3 w4 payload ->
  json_loads payload = Ok v ->
  getitem v (lit "sections") = Ok (PList sections) ->
  Forall2 describes sections ds ->
  Forall valid_level ds ->
  Forall (valid_offsets full_text) ds ->
  exists paragraphs,
    snd (Para.extract_text uuid4 full_text 200 lines text) = Ok paragraphs /\
    Forall2 (fun d p =>
               Para.heading_level p = PInt (d_heading_level d) /\
               trimmed (span full_text (d_start_position d)
                                       (d_end_position d))
                       (Para.content p) /\
               Para.position_page p
               = Para._estimate_page_number (d_start_position d))
            ds paragraphs.
Proof.
  intros Hchunks H1 H2 H3 H4 Hcat Hjson Hget Hds Hlevels Hvalid.
  pose proof (assembled_chunks lines fragments Hchunks) as Hasm.
  assert (Hv : structured_result v).
  { destruct v; try discriminate Hget.
    cbn [getitem] in Hget.
    destruct (dict_get d (lit "sections")) eqn:E; [|discriminate Hget].
    injection Hget as ->; exists d, sections; auto. }
  assert (Hbare : snd (Para.parse_payload payload) = Ok v).
  { destruct (json_loads_text payload v Hjson)
      as (b1 & c & b2 & -> & Hb1 & Hb2 & Htext & Hc).
    apply json_blank_blank in Hb1, Hb2.
    rewrite (parse_payload_of_content _ _ _
               (strip_fence_value_text b1 c b2 Hb1 Hb2 Htext)).
    pose proof (decode_sections_structured c v Hc Hv) as Hd.
    rewrite (try_except_ok _ _ _ v Hd); exact Hd. }
  assert (Hparse : snd (Para.parse_payload (concat fragments)) = Ok v).
  { destruct Hcat as [-> | ->].
    - destruct (json_loads_text payload v Hjson)
        as (b1 & c & b2 & -> & Hb1 & Hb2 & Htext & Hc).
      apply json_blank_blank in Hb1, Hb2.
      assert (Hsf : Para.strip_fence (w1 ++ (b1 ++ c ++ b2) ++ w4)
                    = ([], Ok c)).
      { replace (w1 ++ (b1 ++ c ++ b2) ++ w4)
          with ((w1 ++ b1) ++ c ++ (b2 ++ w4))
          by (rewrite <- !app_assoc; reflexivity).
        apply strip_fence_value_text;
          [apply Forall_app; auto | apply Forall_app; auto | exact Htext]. }
      rewrite (parse_payload_of_content _ _ _ Hsf).
      pose proof (decode_sections_structured c v Hc Hv) as Hd.
      rewrite (try_except_ok _ _ _ v Hd); exact Hd.
    - destruct (json_loads_text payload v Hjson)
        as (b1 & c & b2 & -> & Hb1 & Hb2 & Htext & Hc).
      apply json_blank_blank in Hb1, Hb2.
      rewrite (parse_payload_of_content _ _ _
                 (strip_fence_fenced w1 w2 w3 w4 b1 c b2 H1 H2 H3 H4
                    Hb1 Hb2 Htext)).
      pose proof (decode_sections_structured c v Hc Hv) as Hd.
      rewrite (try_except_ok _ _ _ v Hd); exact Hd. }
  pose proof (analyze_document_ok lines text _ v Hasm Hparse) as Ha.
  rewrite (extract_text_ok uuid4 full_text 200 lines text v Ha).
  destruct (materialize_described uuid4 full_text v sections ds Hget Hds
              Hlevels)
    as (ps & Hps & Hall).
  exists ps; split; [exact Hps|].
  clear Hps Hds Hget Hlevels.
  induction Hall as [|d p ds' ps' (Hh & Hc & Hp) _ IH]; constructor.
  - inversion Hvalid as [|? ? (H0 & Hle & Hlen) _]; subst.
    split; [exact Hh|]; split; [|exact Hp].
    rewrite Hc, slice_adjusted, !adjust_index_inside by lia.
    apply strip_is_trimmed.
  - apply IH; inversion Hvalid; assumption.
Qed.

(** X18: how a failure is reported.  A failure of [analyze_document] is
    printed with its traceback by the handler of line 189 and then logged
    by the handler of line 240; a failure of the materializer is only
    logged.  In both cases the exception that fails the run is the one
    that was raised, and the log entry is the last thing written. *)
Theorem X18_failures_are_logged_last
    (uuid4 : nat -> str) (full_text : str) (status_code : Z)
    (lines : list bytes) (text : str) (e : exn) :
  (snd (Para.analyze_document status_code lines text) = Raise e ->
   snd (Para.extract_text uuid4 full_text status_code lines text) = Raise e /\
   exists out,
     fst (Para.extract_text uuid4 full_text status_code lines text)
     = out ++ [PrintLLMError e; PrintTraceback e; LogError e]) /\
  (forall v,
     snd (Para.analyze_document status_code lines text) = Ok v ->
     Para.materialize uuid4 full_text v = Raise e ->
     Para.extract_text uuid4 full_text status_code lines text
     = (fst (Para.analyze_document status_code lines text) ++ [LogError e],
        Raise e)).
Proof.
  split.
  - intros Ha.
    assert (Hout : exists out,
               fst (Para.analyze_document status_code lines text)
               = out ++ [PrintLLMError e; PrintTraceback e]).
    { revert Ha; unfold Para.analyze_document.
      match goal with
      | |- context [try_except ?b _ _] => destruct b as [o [a|e0]]
      end; cbn [try_except is_Exception Para.on_error io_bind print lift
                  fst snd app]; [discriminate|].
      intros [= ->]; exists o; reflexivity. }
    destruct Hout as (out & Hout).
    unfold Para.extract_text.
    rewrite (io_bind_raise _ _ e Ha), Hout.
    cbn [try_except is_Exception io_bind print lift fst snd app].
    split; [reflexivity|].
    exists out; rewrite <- app_assoc; reflexivity.
  - intros v Ha Hm; unfold Para.extract_text.
    rewrite (io_bind_ok _ _ v Ha), Hm.
    cbn [lift fst snd try_except is_Exception io_bind print app].
    rewrite !app_nil_r; reflexivity.
Qed.

(** ** The overview table *)

Lemma column_text_length (s : str) : length (column_text s) = 30%nat.
Proof.
  unfold column_text.
  destruct (Nat.ltb_spec 30 (length s)).
  - rewrite length_app, length_firstn; cbn [length]; lia.
  - rewrite length_app, repeat_length; lia.
Qed.

Lemma chapter_column_string (dict_slice_error : exn) (s : str) :
  Summary.chapter_column dict_slice_error (PStr s) = Ok (column_text s).
Proof.
  unfold Summary.chapter_column, column_text, Summary.ljust;
    cbn [py_len bind].
  destruct (Nat.ltb_spec 30 (length s)) as [H|H].
  - replace (30 <? Z.of_nat (length s)) with true
      by (symmetry; apply Z.ltb_lt; lia).
    unfold slice, adjust_index; cbn [Z.ltb Z.compare].
    rewrite Z.min_l by lia; cbn [skipn Z.to_nat].
    reflexivity.
  - replace (30 <? Z.of_nat (length s)) with false
      by (symmetry; apply Z.ltb_ge; lia).
    reflexivity.
Qed.

Lemma chapter_column_other (dict_slice_error : exn) (chapter : pyval) :
  (forall s, chapter <> PStr s) ->
  exists e, Summary.chapter_column dict_slice_error chapter = Raise e.
Proof.
  intros Hs; unfold Summary.chapter_column.
  destruct chapter; cbn [py_len bind]; try (eexists; reflexivity).
  - destruct (Hs s eq_refl).
  - destruct (30 <? _); eexists; reflexivity.
  - destruct (30 <? _); eexists; reflexivity.
Qed.

(** What the console accepts: the parts of a text it accepts, and the
    characters the program adds. *)
Lemma console_accepts_firstn (n : nat) (s : str) :
  console_accepts s = true -> console_accepts (firstn n s) = true.
Proof.
  intros H; rewrite <- (firstn_skipn n s), console_accepts_app in H.
  apply andb_prop in H; exact (proj1 H).
Qed.

Lemma console_accepts_skipn (n : nat) (s : str) :
  console_accepts s = true -> console_accepts (skipn n s) = true.
Proof.
  intros H; rewrite <- (firstn_skipn n s), console_accepts_app in H.
  apply andb_prop in H; exact (proj2 H).
Qed.

Lemma console_accepts_repeat (c : N) (n : nat) :
  is_surrogate c = false -> console_accepts (repeat c n) = true.
Proof.
  intros H; induction n as [|n IH]; [reflexivity|].
  cbn [repeat console_accepts forallb]; rewrite H; exact IH.
Qed.

Lemma console_accepts_strip (s : str) :
  console_accepts s = true -> console_accepts (strip s) = true.
Proof.
  destruct (strip_is_trimmed s) as (w1 & w2 & E & _).
  intros H; rewrite E, !console_accepts_app in H.
  apply andb_prop in H; destruct H as [_ H].
  apply andb_prop in H; exact (proj1 H).
Qed.

Lemma console_accepts_slice (s : str) (a b : option Z) :
  console_accepts s = true -> console_accepts (slice s a b) = true.
Proof.
  intros H; unfold slice.
  apply console_accepts_firstn, console_accepts_skipn; exact H.
Qed.

Lemma column_text_accepted (s : str) :
  console_accepts s = true -> console_accepts (column_text s) = true.
Proof.
  intros H; unfold column_text.
  destruct (30 <? length s)%nat; rewrite console_accepts_app.
  - rewrite (console_accepts_firstn 28 s H); reflexivity.
  - rewrite H, console_accepts_repeat; reflexivity.
Qed.

(** The comprehension keeps the listed records, in order. *)
Lemma significant_paras_filter (paragraphs : list Para.ParagraphRecord) :
  Forall (fun p => exists b, gt_zero (Para.heading_level p) = Ok b)
         paragraphs ->
  Summary.significant_paras paragraphs = Ok (filter listed paragraphs).
Proof.
  induction 1 as [|p ps (b & Hb) _ IH]; [reflexivity|].
  cbn [Summary.significant_paras filter]; unfold listed at 1.
  unfold Summary.significant; rewrite Hb; cbn [bind]; rewrite IH; cbn [bind].
  destruct (b || _); reflexivity.
Qed.

(** The rows of records whose chapters are strings that the console
    accepts. *)
Lemma summary_rows_strings (dict_slice_error : exn)
    (paras : list Para.ParagraphRecord) :
  Forall (fun p => (exists b, gt_zero (Para.heading_level p) = Ok b) /\
                   exists s, Para.chapter p = PStr s /\
                             console_accepts s = true) paras ->
  forall idx, exists rows,
    Summary.summary_rows dict_slice_error idx paras = (rows, Ok tt) /\
    length rows = length paras /\
    forall i p s,
      nth_error paras i = Some p ->
      Para.chapter p = PStr s ->
      nth_error rows i
      = Some (Summary.SummaryRow (idx + Z.of_nat i) (label p) (column_text s)
                (Para.word_count p) (Para.position_page p)
                (Para.translation_status p)).
Proof.
  induction 1 as [|p ps ((b & Hb) & (s & Hs & Ha)) _ IH]; intros idx.
  - exists []; repeat split; intros [|i] q t H; discriminate H.
  - destruct (IH (idx + 1)) as (rows & Hrows & Hlen & Hnth).
    cbn [Summary.summary_rows].
    rewrite Hb, Hs, chapter_column_string, (column_text_accepted s Ha), Hrows.
    eexists; split; [reflexivity|]; split; [cbn; congruence|].
    intros [|i] q t Hq Ht.
    + injection Hq as <-; rewrite Hs in Ht; injection Ht as <-.
      cbn [nth_error]; unfold label; rewrite Hb.
      rewrite Z.add_0_r; destruct b; reflexivity.
    + cbn [nth_error] in Hq |- *; rewrite (Hnth i q t Hq Ht).
      do 2 f_equal; lia.
Qed.

Lemma total_words_sum (paragraphs : list Para.ParagraphRecord) :
  Summary.total_words paragraphs
  = fold_right Z.add 0 (map Para.word_count paragraphs).
Proof.
  unfold Summary.total_words.
  assert (H : forall acc,
             fold_left (fun a p => a + Para.word_count p) paragraphs acc
             = acc + fold_right Z.add 0 (map Para.word_count paragraphs)).
  { induction paragraphs as [|p ps IH]; intros acc; cbn; [lia|].
    rewrite IH; lia. }
  rewrite H; lia.
Qed.

Lemma summary_of_strings (dict_slice_error : exn)
    (paragraphs : list Para.ParagraphRecord) :
  Forall (fun p => (exists b, gt_zero (Para.heading_level p) = Ok b) /\
                   exists s, Para.chapter p = PStr s /\
                             console_accepts s = true) paragraphs ->
  exists rows,
    Summary.print_summary dict_slice_error paragraphs
    = ([Summary.SummaryTitle; Summary.SummaryRule; Summary.SummaryColumns;
        Summary.SummaryRule] ++ rows ++
       [Summary.SummaryRule;
        Summary.SummaryTotals (Z.of_nat (length paragraphs))
          (fold_right Z.add 0 (map Para.word_count paragraphs))],
       Ok tt) /\
    length rows = length (filter listed paragraphs) /\
    forall i p s,
      nth_error (filter listed paragraphs) i = Some p ->
      Para.chapter p = PStr s ->
      nth_error rows i
      = Some (Summary.SummaryRow (1 + Z.of_nat i) (label p) (column_text s)
                (Para.word_count p) (Para.position_page p)
                (Para.translation_status p)).
Proof.
  intros H.
  assert (Hg : Forall (fun p => exists b,
                         gt_zero (Para.heading_level p) = Ok b) paragraphs).
  { eapply Forall_impl; [|exact H]; intros p [Hp _]; exact Hp. }
  assert (Hf : Forall (fun p =>
                         (exists b, gt_zero (Para.heading_level p) = Ok b) /\
                         exists s, Para.chapter p = PStr s /\
                                   console_accepts s = true)
                      (filter listed paragraphs)).
  { apply Forall_forall; intros p Hp; apply filter_In in Hp.
    exact (proj1 (Forall_forall _ _) H p (proj1 Hp)). }
  destruct (summary_rows_strings dict_slice_error _ Hf 1)
    as (rows & Hrows & Hlen & Hnth).
  exists rows; unfold Summary.print_summary.
  rewrite (significant_paras_filter _ Hg), Hrows, total_words_sum; auto.
Qed.

(** The records of sections of the data model have integer levels and
    chapters that are strings; the console accepts the chapters when it
    accepts the text and the chapter paths. *)
Lemma materialize_from_described_chapters (uuid4 : nat -> str)
    (full_text : str) (sections : list pyval) (ds : list SectionDescriptor) :
  console_accepts full_text = true ->
  Forall2 describes sections ds ->
  Forall valid_level ds ->
  Forall (fun d => console_accepts (d_chapter_path d) = true) ds ->
  forall n paragraphs,
    Para.materialize_from uuid4 full_text n sections = Ok paragraphs ->
    Forall (fun p => (exists z, Para.heading_level p = PInt z) /\
                     exists s, Para.chapter p = PStr s /\
                               console_accepts s = true) paragraphs.
Proof.
  intros Htext.
  induction 1 as [|section d sections ds (Hh & Hc & Hs & He) _ IH];
    intros Hlevels Hpaths n paragraphs; cbn [Para.materialize_from].
  - intros [= <-]; constructor.
  - inversion Hlevels as [|? ? Hlevel Hlevels']; subst.
    inversion Hpaths as [|? ? Hpath Hpaths']; subst.
    unfold Para.materialize_section at 1.
    rewrite Hs, He, Hh, Hc;
      cbn [bind slice_val as_bound Para.estimate_page_of].
    unfold Para._create_paragraph_dict; cbn [gt_zero bind].
    rewrite (hashes_level _ Hlevel).
    destruct (Para.materialize_from uuid4 full_text (S n) sections)
      as [ps|e] eqn:E.
    + specialize (IH Hlevels' Hpaths' (S n) ps E).
      assert (Hcontent :
                console_accepts
                  (strip (slice full_text (Some (d_start_position d))
                                          (Some (d_end_position d)))) = true)
        by (apply console_accepts_strip, console_accepts_slice; exact Htext).
      destruct (0 <? d_heading_level d) eqn:El; cbn [bind truthy];
        intros [= <-]; constructor; try exact IH;
        cbn [Para.heading_level Para.chapter];
        (split; [eexists; reflexivity|]).
      * eexists; split; [reflexivity|].
        unfold str_mul; rewrite !console_accepts_app.
        rewrite console_accepts_repeat by reflexivity.
        cbn [andb console_accepts forallb is_surrogate].
        exact Hcontent.
      * destruct (d_chapter_path d) eqn:Ep;
          eexists; (split; [reflexivity|]);
          [reflexivity | exact Hpath].
    + destruct (0 <? d_heading_level d); cbn [bind]; discriminate.
Qed.

(** X19: when the sections are those of the data model and the console
    can show the text and the chapter paths, the extraction and the
    overview both succeed.  The table has the four head lines, then one row
    for each record that is a heading (a level above 0) or has more than
    100 words, in order and numbered from 1, then the totals: the number of
    records and the sum of their word counts.  A row has the label of a
    heading or of a body, and the chapter in exactly 30 characters: its
    first 28 characters and two dots when it has more than 30, the chapter
    followed by spaces otherwise. *)
Theorem X19_overview_of_typed_sections
    (dict_slice_error : exn) (uuid4 : nat -> str) (full_text : str)
    (llm_result : pyval) (sections : list pyval)
    (ds : list SectionDescriptor) :
  getitem llm_result (lit "sections") = Ok (PList sections) ->
  Forall2 describes sections ds ->
  Forall valid_level ds ->
  console_accepts full_text = true ->
  Forall (fun d => console_accepts (d_chapter_path d) = true) ds ->
  exists paragraphs rows,
    Para.materialize uuid4 full_text llm_result = Ok paragraphs /\
    Summary.print_summary dict_slice_error paragraphs
    = ([Summary.SummaryTitle; Summary.SummaryRule; Summary.SummaryColumns;
        Summary.SummaryRule] ++ rows ++
       [Summary.SummaryRule;
        Summary.SummaryTotals (Z.of_nat (length ds))
          (fold_right Z.add 0 (map Para.word_count paragraphs))],
       Ok tt) /\
    let shown :=
      filter (fun p => match Para.heading_level p with
                       | PInt level => (0 <? level) || (100 <? Para.word_count p)
                       | _ => false
                       end) paragraphs in
    length rows = length shown /\
    forall i p,
      nth_error shown i = Some p ->
      exists level s column,
        Para.heading_level p = PInt level /\
        Para.chapter p = PStr s /\
        nth_error rows i
        = Some (Summary.SummaryRow (Z.of_nat i + 1)
                  (if 0 <? level then [26631; 39064]%N
                   else [27491; 25991]%N)
                  column
                  (Para.word_count p) (Para.position_page p)
                  (lit "pending")) /\
        length column = 30%nat /\
        column = if (30 <? length s)%nat
                 then firstn 28 s ++ [46; 46]%N
                 else s ++ repeat 32%N (30 - length s).
Proof.
  intros Hget Hds Hlevels Htext Hpaths.
  destruct (materialize_described uuid4 full_text _ _ _ Hget Hds Hlevels)
    as (paragraphs & Hm & Hall).
  destruct (materialize_sections _ _ _ _ Hm) as (sv & ss & Hsv & Hss & Hfrom).
  rewrite Hget in Hsv; injection Hsv as <-.
  cbn [py_iter] in Hss; injection Hss as <-.
  pose proof (materialize_from_described_chapters _ _ _ _ Htext Hds Hlevels
                Hpaths _ _ Hfrom) as Hshape.
  assert (Hstrings :
            Forall (fun p =>
                      (exists b, gt_zero (Para.heading_level p) = Ok b) /\
                      exists s, Para.chapter p = PStr s /\
                                console_accepts s = true) paragraphs).
  { eapply Forall_impl; [|exact Hshape].
    intros p ((z & Hz) & Hs); split; [|exact Hs].
    rewrite Hz; eexists; reflexivity. }
  destruct (summary_of_strings dict_slice_error _ Hstrings)
    as (rows & Hp & Hlen & Hnth).
  assert (Hfilter :
            filter (fun p => match Para.heading_level p with
                             | PInt level =>
                                 (0 <? level) || (100 <? Para.word_count p)
                             | _ => false
                             end) paragraphs
            = filter listed paragraphs).
  { apply filter_ext_in; intros p Hin.
    destruct (proj1 (Forall_forall _ _) Hshape p Hin) as ((z & Hz) & _).
    unfold listed, Summary.significant; rewrite Hz; reflexivity. }
  exists paragraphs, rows.
  split; [exact Hm|]; split.
  { rewrite Hp, (Forall2_length Hall); reflexivity. }
  cbv zeta; rewrite Hfilter; split; [exact Hlen|].
  intros i p Hi.
  assert (Hin : In p paragraphs).
  { apply nth_error_In in Hi; apply filter_In in Hi; exact (proj1 Hi). }
  destruct (proj1 (Forall_forall _ _) Hshape p Hin)
    as ((z & Hz) & s & Hs & _).
  assert (Hstatus : Para.translation_status p = lit "pending").
  { pose proof (proj2 (proj2 (materialize_from_fields _ _ _ _ _ Hfrom)))
      as Hfields.
    destruct (proj1 (Forall_forall _ _) Hfields p Hin)
      as (_ & _ & _ & _ & _ & Hst & _).
    exact Hst. }
  exists z, s, (column_text s); split; [exact Hz|]; split; [exact Hs|].
  split; [|split; [apply column_text_length | reflexivity]].
  rewrite (Hnth i p s Hi Hs), Hstatus.
  unfold label; rewrite Hz; cbn [gt_zero].
  replace (1 + Z.of_nat i) with (Z.of_nat i + 1) by lia.
  destruct (0 <? z); reflexivity.
Qed.

(** A record whose chapter is not a string stops the table. *)
Lemma summary_rows_raises (dict_slice_error : exn)
    (paras : list Para.ParagraphRecord) (p : Para.ParagraphRecord) :
  In p paras ->
  (forall s, Para.chapter p <> PStr s) ->
  forall idx, exists rows e,
    Summary.summary_rows dict_slice_error idx paras = (rows, Raise e) /\
    forall a b, ~ In (Summary.SummaryTotals a b) rows.
Proof.
  intros Hin Hs; induction paras as [|q qs IH]; [destruct Hin|]; intros idx.
  cbn [Summary.summary_rows].
  destruct (gt_zero (Para.heading_level q)) as [b|e].
  2:{ exists [], e; split; [reflexivity | intros a b' []]. }
  destruct (Summary.chapter_column dict_slice_error (Para.chapter q))
    as [c|e] eqn:Ec.
  2:{ exists [], e; split; [reflexivity | intros a b' []]. }
  destruct (console_accepts c).
  2:{ exists [], UnicodeEncodeError; split;
        [reflexivity | intros a b' []]. }
  destruct Hin as [<- | Hin].
  - destruct (chapter_column_other dict_slice_error _ Hs) as (e & He).
    rewrite He in Ec; discriminate Ec.
  - destruct (IH Hin (idx + 1)) as (rows & e & Hrows & Hno).
    rewrite Hrows; eexists; exists e; split; [reflexivity|].
    intros a b' [H|H]; [discriminate H | exact (Hno a b' H)].
Qed.

(** The records of a run have a heading level that compares with zero; a
    chapter that is not a string is the chapter path of a body section. *)
Lemma materialize_from_shape (uuid4 : nat -> str) (full_text : str)
    (sections : list pyval) :
  forall n paragraphs,
    Para.materialize_from uuid4 full_text n sections = Ok paragraphs ->
    Forall (fun p =>
              (exists b, gt_zero (Para.heading_level p) = Ok b) /\
              ((exists s, Para.chapter p = PStr s) \/
               gt_zero (Para.heading_level p) = Ok false /\
               truthy (Para.chapter p) = true))
           paragraphs.
Proof.
  induction sections as [|section sections IH]; intros n paragraphs;
    cbn [Para.materialize_from].
  - intros [= <-]; constructor.
  - destruct (Para.materialize_section uuid4 full_text n section)
      as [p|e] eqn:Ep; cbn [bind]; [|discriminate].
    destruct (Para.materialize_from uuid4 full_text (S n) sections)
      as [ps|e] eqn:Eps; cbn [bind]; [|discriminate].
    intros [= <-]; constructor; [|exact (IH _ _ Eps)].
    revert Ep; unfold Para.materialize_section.
    destruct (getitem section (lit "start_position")) as [a|];
      cbn [bind]; [|discriminate].
    destruct (getitem section (lit "end_position")) as [b|];
      cbn [bind]; [|discriminate].
    destruct (slice_val full_text a b) as [sp|]; cbn [bind]; [|discriminate].
    destruct (getitem section (lit "heading_level")) as [h|];
      cbn [bind]; [|discriminate].
    destruct (getitem section (lit "chapter_path")) as [c|];
      cbn [bind]; [|discriminate].
    destruct (Para.estimate_page_of a) as [pg|]; cbn [bind]; [|discriminate].
    unfold Para._create_paragraph_dict.
    destruct (gt_zero h) as [[|]|] eqn:Eg; cbn [bind]; [| |discriminate].
    + destruct (hashes h); cbn [bind]; [|discriminate].
      intros [= <-]; cbn; split; [eauto | left; eauto].
    + intros [= <-]; cbn; split; [eauto|].
      destruct (truthy c) eqn:Et; [right; auto | left; eauto].
Qed.

(** The table of a list with a listed record whose chapter is not a
    string is cut before the totals. *)
Lemma print_summary_raises (dict_slice_error : exn)
    (paragraphs : list Para.ParagraphRecord) (p : Para.ParagraphRecord) :
  Forall (fun q => exists b, gt_zero (Para.heading_level q) = Ok b)
         paragraphs ->
  In p paragraphs ->
  listed p = true ->
  (forall s, Para.chapter p <> PStr s) ->
  exists out e,
    Summary.print_summary dict_slice_error paragraphs = (out, Raise e) /\
    forall a b, ~ In (Summary.SummaryTotals a b) out.
Proof.
  intros Hgt Hin Hlisted Hs.
  assert (Hl : In p (filter listed paragraphs))
    by (apply filter_In; split; assumption).
  destruct (summary_rows_raises dict_slice_error _ p Hl Hs 1)
    as (rows & e & Hrows & Hno).
  unfold Summary.print_summary.
  rewrite (significant_paras_filter _ Hgt), Hrows.
  eexists; exists e; split; [reflexivity|].
  intros a b Hin'; apply in_app_or in Hin'; destruct Hin' as [H|H].
  - cbn in H; repeat (destruct H as [H|H]; [discriminate H|]); exact H.
  - exact (Hno a b H).
Qed.

Lemma materialize_shape (uuid4 : nat -> str) (full_text : str)
    (llm_result : pyval) (paragraphs : list Para.ParagraphRecord) :
  Para.materialize uuid4 full_text llm_result = Ok paragraphs ->
  Forall (fun p =>
            (exists b, gt_zero (Para.heading_level p) = Ok b) /\
            ((exists s, Para.chapter p = PStr s) \/
             gt_zero (Para.heading_level p) = Ok false /\
             truthy (Para.chapter p) = true))
         paragraphs.
Proof.
  intros Hm.
  destruct (materialize_sections _ _ _ _ Hm) as (sv & ss & _ & _ & Hfrom).
  exact (materialize_from_shape _ _ _ _ _ Hfrom).
Qed.

Lemma listed_long_body (p : Para.ParagraphRecord) :
  gt_zero (Para.heading_level p) = Ok false ->
  100 < Para.word_count p ->
  listed p = true.
Proof.
  intros Hg Hw; unfold listed, Summary.significant.
  rewrite Hg; cbn [bind orb]; apply Z.ltb_lt; exact Hw.
Qed.

(** X20: the overview can fail after an extraction that succeeded.  A
    record of the run whose chapter is not a string is a body paragraph
    whose chapter path (a number, [true], an array or an object) was passed
    through; when it has more than 100 words it is listed, and then the
    overview raises: the table is cut before the totals. *)
Theorem X20_overview_fails_on_a_chapter_that_is_no_string
    (dict_slice_error : exn) (uuid4 : nat -> str) (full_text : str)
    (llm_result : pyval) (paragraphs : list Para.ParagraphRecord)
    (p : Para.ParagraphRecord) :
  Para.materialize uuid4 full_text llm_result = Ok paragraphs ->
  In p paragraphs ->
  (forall s, Para.chapter p <> PStr s) ->
  gt_zero (Para.heading_level p) = Ok false /\
  truthy (Para.chapter p) = true /\
  (100 < Para.word_count p ->
   exists out e,
     Summary.print_summary dict_slice_error paragraphs = (out, Raise e) /\
     forall a b, ~ In (Summary.SummaryTotals a b) out).
Proof.
  intros Hm Hin Hs.
  pose proof (materialize_shape _ _ _ _ Hm) as Hshape.
  destruct (proj1 (Forall_forall _ _) Hshape p Hin)
    as (_ & [(s & Hc) | (Hg & Ht)]); [destruct (Hs s Hc)|].
  split; [exact Hg|]; split; [exact Ht|]; intros Hw.
  apply (print_summary_raises dict_slice_error paragraphs p); auto.
  - eapply Forall_impl; [|exact Hshape]; intros q [Hq _]; exact Hq.
  - apply listed_long_body; assumption.
Qed.

(** ** The program *)

Section ProgramFacts.

Variable dict_slice_error : exn.
Variable uuid4 : nat -> str.

Lemma main_extract_text_result (w : Main.World) (pdf_path : str) :
  snd (Main.extract_text uuid4 w pdf_path)
  = match Main.pdf_text w pdf_path with
    | Raise e => Raise e
    | Ok full_text =>
        snd (Para.extract_text uuid4 full_text (Main.status_code w)
               (Main.lines w) (Main.text w))
    end.
Proof.
  unfold Main.extract_text.
  destruct (Main.pdf_text w pdf_path); [|reflexivity].
  destruct (Para.extract_text _ _ _ _ _); reflexivity.
Qed.

Lemma save_json_result (w : Main.World)
    (paragraphs : list Para.ParagraphRecord) (input_path : str) :
  snd (Main.save_json w paragraphs input_path)
  = match Main.write w paragraphs input_path with
    | Ok _ => Ok tt
    | Raise e => Raise e
    end.
Proof.
  unfold Main.save_json; destruct (Main.write w _ _); reflexivity.
Qed.

(** X21: the exit status of [main] is 0 or 1.  It is 0 exactly when the
    four stages all succeed: [welcome] returns a path, the PDF is read and
    [extract_text] returns its records, the result file is written, and
    the overview is printed; the output then ends with the closing
    message.  With status 1 the output ends with the log entry and the
    message of the failure. *)
Theorem X21_exit_status (w : Main.World) :
  (snd (Main.main dict_slice_error uuid4 w) = 0 \/
   snd (Main.main dict_slice_error uuid4 w) = 1) /\
  (snd (Main.main dict_slice_error uuid4 w) = 0 <->
   exists pdf_path full_text paragraphs,
     snd (Main.welcome w) = Main.Done pdf_path /\
     Main.pdf_text w pdf_path = Ok full_text /\
     snd (Para.extract_text uuid4 full_text (Main.status_code w)
            (Main.lines w) (Main.text w)) = Ok paragraphs /\
     Main.write w paragraphs pdf_path = Ok tt /\
     snd (Summary.print_summary dict_slice_error paragraphs) = Ok tt) /\
  (snd (Main.main dict_slice_error uuid4 w) = 0 ->
   exists out,
     fst (Main.main dict_slice_error uuid4 w) = out ++ [Main.PrintDone]) /\
  (snd (Main.main dict_slice_error uuid4 w) = 1 ->
   exists out f,
     fst (Main.main dict_slice_error uuid4 w)
     = out ++ [Main.LogMainError f; Main.PrintMainError f]).
Proof.
  unfold Main.main.
  destruct (Main.welcome w) as [o1 [pdf_path|f]] eqn:Ew; cbn [snd].
  2:{ cbn; repeat split; auto; try discriminate.
      - intros (a & b & c & H & _); discriminate H.
      - intros _; eexists; exists f; reflexivity. }
  pose proof (main_extract_text_result w pdf_path) as He.
  destruct (Main.extract_text uuid4 w pdf_path) as [o2 [paragraphs|e]];
    cbn [snd] in He.
  2:{ cbn; repeat split; auto; try discriminate.
      - intros (a & b & c & [= <-] & Hb & Hc & _).
        rewrite Hb, Hc in He; discriminate He.
      - intros _; eexists; eexists; reflexivity. }
  pose proof (save_json_result w paragraphs pdf_path) as Hs.
  destruct (Main.save_json w paragraphs pdf_path) as [o3 [[]|e]];
    cbn [snd] in Hs.
  2:{ cbn; repeat split; auto; try discriminate.
      - intros (a & b & c & [= <-] & Hb & Hc & Hd & _).
        rewrite Hb, Hc in He; injection He as ->.
        rewrite Hd in Hs; discriminate Hs.
      - intros _; eexists; eexists; reflexivity. }
  destruct (Summary.print_summary dict_slice_error paragraphs)
    as [o4 [[]|e]] eqn:Ep.
  2:{ cbn; repeat split; auto; try discriminate.
      - intros (a & b & c & [= <-] & Hb & Hc & _ & Hd).
        rewrite Hb, Hc in He; injection He as ->.
        rewrite Ep in Hd; discriminate Hd.
      - intros _; eexists; eexists; reflexivity. }
  cbn [fst snd]; repeat split; auto; try discriminate.
  - intros _.
    destruct (Main.pdf_text w pdf_path) as [full_text|] eqn:Et;
      [|discriminate He].
    exists pdf_path, full_text, paragraphs; repeat split; auto.
    + destruct (Main.write w paragraphs pdf_path) as [[]|];
        [reflexivity | discriminate Hs].
    + rewrite Ep; reflexivity.
  - intros _; exists (o1 ++ o2 ++ o3 ++ map Main.Table o4).
    rewrite <- !app_assoc; reflexivity.
Qed.

(** X22: a run can write its result file and still end with status 1.
    When the extraction succeeds and the file is written, but one record
    of more than 100 words has a chapter that is not a string, the
    overview raises: [main] has logged the saving, does not print the
    closing message, and returns 1. *)
Theorem X22_saved_and_failed
    (w : Main.World) (pdf_path full_text : str) (v : pyval)
    (paragraphs : list Para.ParagraphRecord) (p : Para.ParagraphRecord) :
  snd (Main.welcome w) = Main.Done pdf_path ->
  Main.pdf_text w pdf_path = Ok full_text ->
  snd (Para.analyze_document (Main.status_code w) (Main.lines w)
         (Main.text w)) = Ok v ->
  Para.materialize uuid4 full_text v = Ok paragraphs ->
  Main.write w paragraphs pdf_path = Ok tt ->
  In p paragraphs ->
  (forall s, Para.chapter p <> PStr s) ->
  100 < Para.word_count p ->
  snd (Main.main dict_slice_error uuid4 w) = 1 /\
  In (Main.LogSaved pdf_path) (fst (Main.main dict_slice_error uuid4 w)) /\
  ~ In Main.PrintDone (fst (Main.main dict_slice_error uuid4 w)).
Proof.
  intros Hw Ht Ha Hm Hwr Hin Hs Hwc.
  pose proof (materialize_shape _ _ _ _ Hm) as Hshape.
  destruct (proj1 (Forall_forall _ _) Hshape p Hin)
    as (_ & [(s & Hc) | (Hg & _)]); [destruct (Hs s Hc)|].
  destruct (print_summary_raises dict_slice_error paragraphs p)
    as (o4 & e & Hp & _); auto.
  { eapply Forall_impl; [|exact Hshape]; intros q [Hq _]; exact Hq. }
  { apply listed_long_body; assumption. }
  unfold Main.main.
  destruct (Main.welcome w) as [o1 r] eqn:Ew; cbn [snd] in Hw; subst r.
  assert (Hbanner : ~ In Main.PrintDone o1).
  { revert Ew; unfold Main.welcome.
    destruct (Main.typed w) as [answer|];
      [|intros [= <- _]; cbn; intuition discriminate].
    destruct (strip answer).
    - destruct (Main.pdf_files w); intros [= <- _]; cbn;
        intuition discriminate.
    - destruct (negb _); intros [= <- _]; cbn; intuition discriminate. }
  unfold Main.extract_text; rewrite Ht.
  pose proof (extract_text_ok uuid4 full_text _ _ _ v Ha) as He.
  rewrite Hm in He.
  destruct (Para.extract_text uuid4 full_text _ _ _) as [o2 r];
    cbn [snd] in He; subst r.
  unfold Main.save_json; rewrite Hwr, Hp.
  unfold Main.report_failure; cbn [fst snd].
  split; [reflexivity|]; split.
  - apply in_or_app; left; apply in_or_app; right.
    apply in_or_app; right; apply in_or_app; left; left; reflexivity.
  - intros H.
    repeat (apply in_app_or in H; destruct H as [H|H]);
      try (apply Hbanner; exact H).
    + cbn in H; destruct H as [H|[H|[H|H]]]; try discriminate H.
      apply in_map_iff in H; destruct H as (x & Hx & _); discriminate Hx.
    + cbn in H; destruct H as [H|[]]; discriminate H.
    + apply in_map_iff in H; destruct H as (x & Hx & _); discriminate Hx.
    + cbn in H; destruct H as [H|[H|[]]]; discriminate H.
Qed.

End ProgramFacts.

(** ** The requests *)

Section RequestFacts.

Variable unicode_decimal : N -> option Z.
Variable render_other : str -> str -> option N -> option str -> result str.

Lemma para_prompt_formats (text : str) :
  Format.format unicode_decimal render_other ParaRequest.prompt text
  = Ok (ParaRequest.PROMPT_HEAD ++ text ++ ParaRequest.PROMPT_TAIL).
Proof. vm_compute; reflexivity. Qed.

Lemma kimi_prompt_raises (text : str) :
  Format.format unicode_decimal render_other KimiRequest.prompt text
  = Raise (KeyError (PStr KimiRequest.FIRST_FIELD)).
Proof. vm_compute; reflexivity. Qed.

(** X23: the request of [para.py] is built for every document, and the
    document is not read as a format string: the user message is the prompt
    with its doubled braces halved and the text put in place of the field,
    whatever braces the text holds itself.  The request asks for a stream
    at temperature 0.3. *)
Theorem X23_request_carries_the_document (model : pyval) (text : str) :
  request_data unicode_decimal render_other model text
  = Ok (PDict
          [(lit "model", model);
           (lit "messages",
            PList [PDict [(lit "role", PStr (lit "system"));
                          (lit "content", PStr PARA_SYSTEM_MESSAGE)];
                   PDict [(lit "role", PStr (lit "user"));
                          (lit "content",
                           PStr (ParaRequest.PROMPT_HEAD ++ text
                                 ++ ParaRequest.PROMPT_TAIL))]]);
           (lit "temperature", PFloat (FDec false 3 (-1)));
           (lit "stream", PBool true)]).
Proof.
  unfold request_data; rewrite para_prompt_formats; reflexivity.
Qed.

Variable post : pyval -> result KimiLLM.Response.

(** X24: [analyze_document] of [para-kimi.py] never sends its request.
    The braces of the JSON example in its prompt are not doubled, so the
    example is read as a replacement field, and formatting the prompt
    raises [KeyError] for every document; the handler prints it and the
    function returns [None], whatever the service would have answered. *)
Theorem X24_kimi_prompt_is_no_format_string (model : pyval) (text : str) :
  KimiLLM.request_json unicode_decimal render_other model text
  = Raise (KeyError (PStr KimiRequest.FIRST_FIELD)) /\
  KimiLLM.analyze_document unicode_decimal render_other post model text
  = ([KimiLLM.PrintError (KeyError (PStr KimiRequest.FIRST_FIELD))], PNone).
Proof.
  assert (H : KimiLLM.request_json unicode_decimal render_other model text
              = Raise (KeyError (PStr KimiRequest.FIRST_FIELD))).
  { unfold KimiLLM.request_json; rewrite kimi_prompt_raises; reflexivity. }
  split; [exact H|].
  unfold KimiLLM.analyze_document, KimiLLM.call; rewrite H; reflexivity.
Qed.

Variable uuid4 : nat -> str.
Variable str_of : pyval -> str.
Variable float_page : pyfloat -> pyval.

(** X25: [extract_text] of [para-kimi.py] fails for every document and
    every answer of the service: it gets [None] from [analyze_document],
    raises the exception of line 144 and logs it; no record is built. *)
Theorem X25_kimi_extraction_always_fails (model : pyval) (full_text : str) :
  KimiPDF.extract_text uuid4 str_of float_page unicode_decimal render_other
    post model full_text
  = ([KimiLLM.PrintError (KeyError (PStr KimiRequest.FIRST_FIELD));
      KimiLLM.LogFailure (Exception KimiPDF.ANALYSIS_FAILED)],
     Raise (Exception KimiPDF.ANALYSIS_FAILED)).
Proof.
  unfold KimiPDF.extract_text, KimiLLM.analyze_document, KimiLLM.call,
    KimiLLM.request_json.
  rewrite kimi_prompt_raises; reflexivity.
Qed.

Lemma hashes_positive (level : pyval) (h : str) :
  gt_zero level = Ok true -> hashes level = Ok h ->
  exists rest, h = 35%N :: rest.
Proof.
  destruct level as [|[|]|z| | | |]; try discriminate.
  - intros _ [= <-]; eexists; reflexivity.
  - cbn [gt_zero hashes]; intros [= H].
    destruct ((PY_SSIZE_T_MAX <? z) || (z <? - PY_SSIZE_T_MAX - 1));
      [discriminate|].
    destruct (ADDRESS_SPACE <=? z); [discriminate|].
    intros [= <-]; apply Z.ltb_lt in H.
    unfold str_mul.
    destruct (Z.to_nat z) eqn:E; [lia | eexists; reflexivity].
Qed.

Lemma hashes_not_positive (level : pyval) (h : str) :
  gt_zero level = Ok false -> hashes level = Ok h -> h = [].
Proof.
  destruct level as [|[|]|z| | | |]; try discriminate.
  - intros _ [= <-]; reflexivity.
  - cbn [gt_zero hashes]; intros [= H].
    destruct ((PY_SSIZE_T_MAX <? z) || (z <? - PY_SSIZE_T_MAX - 1));
      [discriminate|].
    destruct (ADDRESS_SPACE <=? z); [discriminate|].
    intros [= <-]; apply Z.ltb_ge in H.
    unfold str_mul.
    destruct (Z.to_nat z) eqn:E; [reflexivity | lia].
Qed.

(** X26: the loop of [extract_text] in [para-kimi.py] hands
    [_create_paragraph_dict] a stack of one pair, so the fallback chapter of
    line 187 is never used: the chapter of a heading begins with a hash,
    and the chapter of a body paragraph is a space followed by the chapter
    path of its section. *)
Theorem X26_kimi_chapters
    (n : nat) (section : pyval) (p : KimiPDF.ParagraphRecord) :
  KimiPDF.paragraph_of uuid4 str_of float_page n section = Ok p ->
  KimiPDF.chapter p <> ParaKimi.FALLBACK_CHAPTER /\
  ((gt_zero (KimiPDF.heading_level p) = Ok true /\
    exists rest, KimiPDF.chapter p = 35%N :: rest) \/
   (gt_zero (KimiPDF.heading_level p) = Ok false /\
    exists title,
      getitem section (lit "chapter_path") = Ok title /\
      KimiPDF.chapter p = 32%N :: KimiPDF.shown str_of title)).
Proof.
  unfold KimiPDF.paragraph_of.
  destruct (getitem section (lit "content")) as [c|]; cbn [bind];
    [|discriminate].
  destruct (getitem section (lit "heading_level")) as [h|]; cbn [bind];
    [|discriminate].
  destruct (getitem section (lit "chapter_path")) as [t|]; cbn [bind];
    [|discriminate].
  destruct (getitem section (lit "start_position")) as [s|]; cbn [bind];
    [|discriminate].
  destruct (KimiPDF._estimate_page_number float_page s) as [pg|];
    cbn [bind]; [|discriminate].
  unfold KimiPDF._create_paragraph_dict.
  destruct (gt_zero h) as [[|]|] eqn:Eg; cbn [bind]; [| |discriminate].
  - destruct (hashes h) as [hs|] eqn:Eh; cbn [bind]; [|discriminate].
    destruct (hashes_positive h hs Eg Eh) as (rest & ->).
    destruct c; try discriminate.
    intros [= <-]; cbn [KimiPDF.chapter KimiPDF.heading_level].
    split; [discriminate|]; left; split; [exact Eg|].
    eexists; reflexivity.
  - cbn [KimiPDF.format_paths].
    destruct (hashes h) as [hs|] eqn:Eh; cbn [bind]; [|discriminate].
    rewrite (hashes_not_positive h hs Eg Eh).
    destruct c; try discriminate.
    intros [= <-]; cbn [KimiPDF.chapter KimiPDF.heading_level].
    split; [discriminate|]; right; split; [exact Eg|].
    exists t; split; reflexivity.
Qed.

End RequestFacts.

(** ** The fuel of [Format.format] is enough *)

Lemma literal_run_length (s l r : str) :
  Format.literal_run s = (l, r) -> (length r <= length s)%nat.
Proof.
  revert l r; induction s as [|c s IH]; intros l r; cbn [Format.literal_run].
  - intros [= <- <-]; cbn; lia.
  - destruct ((c =? 123) || (c =? 125))%N.
    + intros [= <- <-]; cbn; lia.
    + destruct (Format.literal_run s) as [l' r'].
      intros [= <- <-]; specialize (IH l' r' eq_refl); cbn; lia.
Qed.

Lemma field_name_end_length (s : str) :
  forall inside name stop after,
    Format.field_name_end inside s = Ok (name, stop, after) ->
    (length after < length s)%nat.
Proof.
  induction s as [|c s IH]; intros inside name stop after;
    cbn [Format.field_name_end]; [discriminate|].
  destruct inside.
  - destruct (Format.field_name_end (negb (c =? 93)%N) s)
      as [[[n t] a]|] eqn:E; cbn [bind]; [|discriminate].
    intros [= <- <- <-]; specialize (IH _ _ _ _ E); cbn; lia.
  - destruct (c =? 123)%N; [discriminate|].
    destruct ((c =? 125) || (c =? 58) || (c =? 33))%N.
    + intros [= <- <- <-]; cbn; lia.
    + destruct (Format.field_name_end (c =? 91)%N s)
        as [[[n t] a]|] eqn:E; cbn [bind]; [|discriminate].
      intros [= <- <- <-]; specialize (IH _ _ _ _ E); cbn; lia.
Qed.

Lemma spec_end_length (s : str) :
  forall depth spec after,
    Format.spec_end depth s = Ok (spec, after) ->
    (length after < length s)%nat.
Proof.
  induction s as [|c s IH]; intros depth spec after;
    cbn [Format.spec_end]; [discriminate|].
  destruct (c =? 123)%N.
  - destruct (Format.spec_end (S depth) s) as [[sp a]|] eqn:E; cbn [bind];
      [|discriminate].
    intros [= <- <-]; specialize (IH _ _ _ E); cbn; lia.
  - destruct (c =? 125)%N.
    + destruct depth as [|depth'].
      * intros [= <- <-]; cbn; lia.
      * destruct (Format.spec_end depth' s) as [[sp a]|] eqn:E; cbn [bind];
          [|discriminate].
        intros [= <- <-]; specialize (IH _ _ _ E); cbn; lia.
    + destruct (Format.spec_end depth s) as [[sp a]|] eqn:E; cbn [bind];
        [|discriminate].
      intros [= <- <-]; specialize (IH _ _ _ E); cbn; lia.
Qed.

Lemma parse_field_length (s : str) (f : Format.field) :
  Format.parse_field s = Ok f ->
  (length (Format.remaining f) < length s)%nat.
Proof.
  unfold Format.parse_field.
  destruct (Format.field_name_end false s) as [[[name stop] rest]|] eqn:E;
    cbn [bind]; [|discriminate].
  pose proof (field_name_end_length _ _ _ _ _ E) as Hrest.
  destruct (stop =? 125)%N; [intros [= <-]; exact Hrest|].
  destruct (stop =? 33)%N.
  - destruct rest as [|conv [|c rest']]; try discriminate.
    destruct (c =? 125)%N; [intros [= <-]; cbn in *; lia|].
    destruct (c =? 58)%N; [|discriminate].
    destruct (Format.spec_end 0 rest') as [[sp a]|] eqn:Es; cbn [bind];
      [|discriminate].
    pose proof (spec_end_length _ _ _ _ Es).
    intros [= <-]; cbn in *; lia.
  - destruct (Format.spec_end 0 rest) as [[sp a]|] eqn:Es; cbn [bind];
      [|discriminate].
    pose proof (spec_end_length _ _ _ _ Es).
    intros [= <-]; cbn in *; lia.
Qed.

(** With fuel for the length of the template the loop never runs out of
    it: more fuel changes nothing. *)
Lemma build_string_fuel
    (unicode_decimal : N -> option Z)
    (render_other : str -> str -> option N -> option str -> result str)
    (text : str) (n : nat) :
  forall template fuel fuel',
    (length template <= n)%nat -> (n <= fuel)%nat -> (n <= fuel')%nat ->
    Format.build_string unicode_decimal render_other fuel text template
    = Format.build_string unicode_decimal render_other fuel' text template.
Proof.
  induction n as [|n IH]; intros template fuel fuel' Hlen Hf Hf'.
  - destruct template; [|cbn in Hlen; lia].
    destruct fuel, fuel'; reflexivity.
  - destruct fuel as [|fuel]; [lia|]; destruct fuel' as [|fuel']; [lia|].
    cbn [Format.build_string].
    destruct (Format.literal_run template) as [l rest] eqn:El.
    pose proof (literal_run_length _ _ _ El) as Hrest.
    destruct rest as [|c [|c' rest'']]; try reflexivity.
    cbn [length] in Hrest.
    destruct (c' =? c)%N.
    + rewrite (IH rest'' fuel fuel') by lia; reflexivity.
    + destruct (c =? 125)%N; [reflexivity|].
      destruct (Format.parse_field (c' :: rest'')) as [f|] eqn:Ep;
        cbn [bind]; [|reflexivity].
      pose proof (parse_field_length _ _ Ep) as Hp; cbn [length] in Hp.
      destruct (Format.field_text _ _ _ _); cbn [bind]; [|reflexivity].
      rewrite (IH (Format.remaining f) fuel fuel') by lia; reflexivity.
Qed.

(** ** What the console refuses *)

Lemma strip_fence_accepted (full_content content : str) :
  console_accepts full_content = true ->
  snd (Para.strip_fence full_content) = Ok content ->
  console_accepts content = true.
Proof.
  intros Ha; unfold Para.strip_fence.
  pose proof (console_accepts_strip _ Ha) as Hs.
  destruct (startswith (strip full_content) Para.FENCE_JSON);
    cbv [io_bind print ret]; cbv zeta; cbn [snd fst app].
  - pose proof (console_accepts_slice _ (Some 7) None Hs) as Hc.
    destruct (endswith _ Para.FENCE); intros [= <-];
      apply console_accepts_strip;
      first [exact Hc | apply console_accepts_slice; exact Hc].
  - destruct (endswith _ Para.FENCE); intros [= <-];
      apply console_accepts_strip;
      first [exact Hs | apply console_accepts_slice; exact Hs].
Qed.

(** X27: a fragment that the console cannot show is lost, and only such a
    fragment.  The echo of line 128 raises before line 129 adds the
    fragment, the handler prints the error, and the text stays as it was.
    So the assembled text holds only what was shown: the console accepts
    it, and the payload cut out of it, and line 150 prints that payload
    without raising. *)
Theorem X27_refused_fragment_is_lost :
  (forall line fragment full_content,
     chunk_holds line fragment ->
     console_accepts fragment = false ->
     Para.stream_line full_content line
     = ([PrintStreamError UnicodeEncodeError], Ok full_content)) /\
  (forall line fragment full_content,
     chunk_holds line fragment ->
     console_accepts fragment = true ->
     snd (Para.stream_line full_content line)
     = Ok (full_content ++ fragment)) /\
  (forall lines text content,
     assembled lines = Ok text ->
     snd (Para.strip_fence text) = Ok content ->
     console_accepts text = true /\ console_accepts content = true).
Proof.
  split; [exact stream_line_refused|]; split.
  - intros line fragment fc Hh Ha.
    destruct (stream_line_chunk line fragment (conj Hh Ha)) as (o & Ho).
    destruct (stream_line_appends line fc) as (o' & a & H1 & H2 & _).
    rewrite Ho in H2; injection H2 as <- <-.
    rewrite H1; reflexivity.
  - intros lines text content Hl Hc.
    pose proof (assembled_accepted lines text Hl) as Ha.
    split; [exact Ha | exact (strip_fence_accepted _ _ Ha Hc)].
Qed.

(** ** Worked examples *)


Lemma counting_uuid4_injective (i j : nat) :
  counting_uuid4 i = counting_uuid4 j -> i = j.
Proof.
  intros H; apply (f_equal (@length N)) in H.
  unfold counting_uuid4 in H; rewrite !repeat_length in H; exact H.
Qed.

Lemma X2_identifiers_are_fresh_witness :
  exists paragraphs,
    Para.materialize counting_uuid4 title_text two_result = Ok paragraphs /\
    map Para.content paragraphs = [lit "Title"; lit "body of the text"] /\
    map Para.paragraph_id paragraphs = [[]; [97%N]] /\
    NoDup (map Para.paragraph_id paragraphs).
Proof.
  exists (records_of title_text two_result).
  split; [vm_compute; reflexivity|].
  split; [vm_compute; reflexivity|].
  destruct (X2_identifiers_are_fresh counting_uuid4 title_text two_result
              (records_of title_text two_result))
    as [Hids Hnodup]; [vm_compute; reflexivity|].
  split; [rewrite Hids; reflexivity|].
  apply Hnodup; exact counting_uuid4_injective.
Defined.

Lemma X3_one_bad_section_fails_the_run_witness :
  Para.materialize counting_uuid4 title_text
    (PDict [(lit "sections",
             PList ([section_object title_descriptor] ++ PNone :: []))])
  = Raise TypeError.
Proof.
  eapply (X3_one_bad_section_fails_the_run counting_uuid4 title_text _
            [section_object title_descriptor] [] PNone).
  - reflexivity.
  - vm_compute; reflexivity.
  - reflexivity.
Defined.

Lemma X4_missing_field_is_a_key_error_witness :
  Para.materialize_section counting_uuid4 title_text 0
    (PDict [(lit "start_position", PInt 0); (lit "end_position", PInt 5)])
  = Raise (KeyError (PStr (lit "heading_level"))).
Proof.
  apply (proj2 (X4_missing_field_is_a_key_error counting_uuid4 title_text 0 _)
           _ eq_refl) with (a := 0) (b := 5); reflexivity.
Defined.

Lemma X5_null_offsets_witness :
  exists p,
    Para.materialize_section counting_uuid4 title_text 0
      (PDict [(lit "heading_level", PInt 0);
              (lit "chapter_path", PStr (lit "Title"));
              (lit "start_position", PInt 6);
              (lit "end_position", PNone)]) = Ok p /\
    Para.content p
    = strip (skipn (Z.to_nat
                      (adjust_index (Z.of_nat (length title_text)) 6))
                   title_text).
Proof.
  apply (proj2 (X5_null_offsets counting_uuid4 title_text 0
                  [(lit "heading_level", PInt 0);
                   (lit "chapter_path", PStr (lit "Title"));
                   (lit "start_position", PInt 6);
                   (lit "end_position", PNone)]
                  0 (lit "Title") eq_refl eq_refl) 6);
    [lia | reflexivity | reflexivity].
Defined.

Lemma X6_sections_that_are_no_array_witness :
  Para.materialize counting_uuid4 title_text
    (PDict [(lit "sections", PStr (lit "none"))])
  = Raise TypeError.
Proof.
  apply (X6_sections_that_are_no_array counting_uuid4 title_text
           (PDict [(lit "sections", PStr (lit "none"))]) (PStr (lit "none"))).
  - reflexivity.
  - left; eexists; reflexivity.
  - reflexivity.
Defined.

Lemma X9_lines_without_marker_are_ignored_witness :
  Para.receive ([chunk_ab] ++ keep_alive :: [chunk_cd]) []
  = Para.receive ([chunk_ab] ++ [chunk_cd]) [].
Proof.
  apply X9_lines_without_marker_are_ignored.
  right; exists keep_alive; split; vm_compute; reflexivity.
Defined.

Lemma X10_finishing_chunk_adds_nothing_witness :
  assembled ([chunk_ab] ++ chunk_stop :: [chunk_cd])
  = assembled ([chunk_ab] ++ [chunk_cd]).
Proof.
  apply (X10_finishing_chunk_adds_nothing [chunk_ab] [chunk_cd] chunk_stop
           (PDict [(lit "delta", PDict [(lit "content", PStr (lit "zz"))]);
                   (lit "finish_reason", PStr (lit "stop"))])
           (PStr (lit "stop"))).
  - split; [discriminate|].
    exists chunk_stop; eexists; repeat split; vm_compute; reflexivity.
  - reflexivity.
  - discriminate.
Defined.

Lemma X11_chunk_without_finish_reason_is_lost_witness :
  assembled ([chunk_ab] ++ chunk_bare_delta :: [chunk_cd])
  = assembled ([chunk_ab] ++ [chunk_cd]).
Proof.
  apply (X11_chunk_without_finish_reason_is_lost [chunk_ab] [chunk_cd]
           chunk_bare_delta
           [(lit "delta", PDict [(lit "content", PStr (lit "zz"))])]).
  - split; [discriminate|].
    exists chunk_bare_delta; eexists; repeat split; vm_compute; reflexivity.
  - reflexivity.
Defined.

Lemma X12_content_that_is_no_string_witness :
  Para.stream_line (lit "ab") chunk_number
  = ([PrintFragment (PInt 5); PrintStreamError TypeError], Ok (lit "ab")).
Proof.
  apply (X12_content_that_is_no_string [] [] chunk_number
           (PDict [(lit "delta", PDict [(lit "content", PInt 5)]);
                   (lit "finish_reason", PNone)])
           (PDict [(lit "content", PInt 5)]) (PInt 5)).
  - split; [discriminate|].
    exists chunk_number; eexists; repeat split; vm_compute; reflexivity.
  - reflexivity.
  - reflexivity.
  - reflexivity.
  - discriminate.
Defined.

Lemma X13_analyze_document_returns_checked_objects_witness :
  exists v,
    snd (Para.analyze_document 200 [chunk_title] []) = Ok v /\
    exists full_content content d sections n,
      assembled [chunk_title] = Ok full_content /\
      snd (Para.strip_fence full_content) = Ok content /\
      json_loads content = Ok v /\
      v = PDict d /\
      dict_get d (lit "sections") = Some sections /\
      py_len sections = Ok n /\
      ((exists l, sections = PList l) \/ (exists s, sections = PStr s)
       \/ (exists d', sections = PDict d')).
Proof.
  eexists; split; [vm_compute; reflexivity|].
  apply (X13_analyze_document_returns_checked_objects 200 [chunk_title] []).
  vm_compute; reflexivity.
Defined.

Lemma X14_single_markers_are_removed_witness :
  snd (Para.parse_payload
         ([32%N] ++ payload_empty_sections ++ [10%N] ++ Para.FENCE ++ []))
  = snd (Para.parse_payload payload_empty_sections).
Proof.
  apply (X14_single_markers_are_removed payload_empty_sections
           (PDict [(lit "sections", PList [])]) [32%N] [10%N] []).
  - repeat constructor.
  - repeat constructor.
  - constructor.
  - vm_compute; reflexivity.
Defined.

Lemma X15_status_other_than_200_witness :
  Para.extract_text counting_uuid4 title_text 500 [chunk_title] (lit "busy")
  = ([PrintStatus 500; PrintApiFailed 500 (lit "busy");
      PrintLLMError (ApiError 500 (lit "busy"));
      PrintTraceback (ApiError 500 (lit "busy"));
      LogError (ApiError 500 (lit "busy"))],
     Raise (ApiError 500 (lit "busy"))).
Proof.
  apply X15_status_other_than_200; lia.
Defined.

Lemma X16_payloads_that_fail_validation_witness :
  snd (Para.parse_payload (lit "[1]"))
  = Raise (ValueError Para.MISSING_SECTIONS).
Proof.
  apply (proj1 (proj2 (X16_payloads_that_fail_validation (lit "[1]")
                         (lit "[1]") (PList [PInt 1])
                         ltac:(vm_compute; reflexivity)
                         ltac:(vm_compute; reflexivity)))
           [PInt 1] eq_refl).
Defined.

Lemma X17_stream_to_records_witness :
  exists paragraphs,
    snd (Para.extract_text counting_uuid4 title_text 200
           [chunk_head; chunk_tail] [])
    = Ok paragraphs /\
    Forall2 (fun d p =>
               Para.heading_level p = PInt (d_heading_level d) /\
               trimmed (span title_text (d_start_position d)
                                        (d_end_position d))
                       (Para.content p) /\
               Para.position_page p
               = Para._estimate_page_number (d_start_position d))
            [title_descriptor; body_descriptor] paragraphs /\
    assembled [chunk_head; chunk_tail]
    = Ok (fenced Para.FENCE_JSON [] [10%N] [10%N] []
            (payload_head ++ payload_tail)) /\
    map Para.content paragraphs = [lit "Title"; lit "body of the text"] /\
    map Para.position_page paragraphs = [1; 1].
Proof.
  destruct (X17_stream_to_records counting_uuid4 title_text
              [chunk_head; chunk_tail] []
              [Para.FENCE_JSON ++ [10%N] ++ payload_head;
               payload_tail ++ [10%N] ++ Para.FENCE]
              (payload_head ++ payload_tail) two_result [] [10%N] [10%N] []
              [section_object title_descriptor;
               section_object body_descriptor]
              [title_descriptor; body_descriptor])
    as (paragraphs & Hrun & Hall).
  - constructor; [|constructor; [|constructor]].
    + split; [|reflexivity].
      split; [discriminate|].
      exists chunk_head; do 3 eexists; repeat split; vm_compute; reflexivity.
    + split; [|reflexivity].
      split; [discriminate|].
      exists chunk_tail; do 3 eexists; repeat split; vm_compute; reflexivity.
  - constructor.
  - repeat constructor.
  - repeat constructor.
  - constructor.
  - right; reflexivity.
  - vm_compute; reflexivity.
  - reflexivity.
  - repeat constructor.
  - repeat constructor; cbn; lia.
  - repeat constructor; cbn; lia.
  - exists paragraphs; split; [exact Hrun|]; split; [exact Hall|].
    split; [vm_compute; reflexivity|].
    vm_compute in Hrun; injection Hrun as <-; split; reflexivity.
Defined.

Lemma X18_failures_are_logged_last_witness :
  snd (Para.extract_text counting_uuid4 title_text 500 [] (lit "busy"))
  = Raise (ApiError 500 (lit "busy")) /\
  exists out,
    fst (Para.extract_text counting_uuid4 title_text 500 [] (lit "busy"))
    = out ++ [PrintLLMError (ApiError 500 (lit "busy"));
              PrintTraceback (ApiError 500 (lit "busy"));
              LogError (ApiError 500 (lit "busy"))].
Proof.
  apply (proj1 (X18_failures_are_logged_last counting_uuid4 title_text 500 []
                  (lit "busy") (ApiError 500 (lit "busy")))).
  vm_compute; reflexivity.
Defined.

Lemma X19_overview_of_typed_sections_witness :
  exists paragraphs rows,
    Para.materialize counting_uuid4 overview_text overview_result
    = Ok paragraphs /\
    map Para.word_count paragraphs = [1; 101; 2] /\
    Summary.print_summary TypeError paragraphs
    = ([Summary.SummaryTitle; Summary.SummaryRule; Summary.SummaryColumns;
        Summary.SummaryRule] ++ rows ++
       [Summary.SummaryRule; Summary.SummaryTotals 3 104],
       Ok tt) /\
    rows
    = [Summary.SummaryRow 1 [26631; 39064]%N
         (lit "# Title                       ") 1 1 (lit "pending");
       Summary.SummaryRow 2 [27491; 25991]%N
         (lit "A chapter path of more than ..") 101 1 (lit "pending")].
Proof.
  destruct (X19_overview_of_typed_sections TypeError counting_uuid4
              overview_text overview_result
              (map section_object overview_descriptors)
              overview_descriptors)
    as (paragraphs & rows & Hm & Hp & Hlen & Hnth).
  - reflexivity.
  - repeat constructor.
  - repeat constructor; cbn; lia.
  - vm_compute; reflexivity.
  - repeat constructor.
  - exists paragraphs, rows; split; [exact Hm|].
    vm_compute in Hm; injection Hm as <-.
    split; [reflexivity|]; split; [exact Hp|].
    destruct (Hnth 0%nat _ eq_refl)
      as (l0 & s0 & c0 & [= <-] & [= <-] & H0 & _ & ->).
    destruct (Hnth 1%nat _ eq_refl)
      as (l1 & s1 & c1 & [= <-] & [= <-] & H1 & _ & ->).
    destruct rows as [|r0 [|r1 [|r2 rows]]]; try discriminate Hlen.
    injection H0 as ->; injection H1 as ->.
    vm_compute; reflexivity.
Defined.

Lemma X20_overview_fails_on_a_chapter_that_is_no_string_witness :
  exists out e,
    Summary.print_summary TypeError (records_of long_text long_body_result)
    = (out, Raise e) /\
    forall a b, ~ In (Summary.SummaryTotals a b) out.
Proof.
  apply (X20_overview_fails_on_a_chapter_that_is_no_string TypeError
           counting_uuid4 long_text long_body_result
           (records_of long_text long_body_result)
           (hd (Para.Build_ParagraphRecord [] PNone PNone [] 0 [] 0 PNone)
               (records_of long_text long_body_result))).
  - vm_compute; reflexivity.
  - vm_compute; left; reflexivity.
  - vm_compute; discriminate.
  - vm_compute; reflexivity.
Defined.

Lemma X21_exit_status_witness :
  snd (Main.main TypeError counting_uuid4
         (example_world title_text [chunk_title])) = 0.
Proof.
  apply (proj1 (proj2 (X21_exit_status TypeError counting_uuid4
                         (example_world title_text [chunk_title])))).
  exists (lit "paper.pdf"), title_text, (records_of title_text title_result).
  repeat split; vm_compute; reflexivity.
Defined.

Lemma X22_saved_and_failed_witness :
  snd (Main.main TypeError counting_uuid4
         (example_world long_text [chunk_long_body])) = 1 /\
  In (Main.LogSaved (lit "paper.pdf"))
     (fst (Main.main TypeError counting_uuid4
             (example_world long_text [chunk_long_body]))) /\
  ~ In Main.PrintDone
      (fst (Main.main TypeError counting_uuid4
              (example_world long_text [chunk_long_body]))).
Proof.
  apply (X22_saved_and_failed TypeError counting_uuid4
           (example_world long_text [chunk_long_body])
           (lit "paper.pdf") long_text long_body_result
           (records_of long_text long_body_result)
           (hd (Para.Build_ParagraphRecord [] PNone PNone [] 0 [] 0 PNone)
               (records_of long_text long_body_result))).
  - vm_compute; reflexivity.
  - reflexivity.
  - vm_compute; reflexivity.
  - vm_compute; reflexivity.
  - reflexivity.
  - vm_compute; left; reflexivity.
  - vm_compute; discriminate.
  - vm_compute; reflexivity.
Defined.

Lemma X26_kimi_chapters_witness :
  exists p,
    KimiPDF.paragraph_of counting_uuid4 (fun _ => []) (fun _ => PNone) 0
      kimi_section = Ok p /\
    KimiPDF.chapter p <> ParaKimi.FALLBACK_CHAPTER /\
    KimiPDF.chapter p = 32%N :: lit "Intro".
Proof.
  eexists; split; [reflexivity|].
  destruct (X26_kimi_chapters counting_uuid4 (fun _ => []) (fun _ => PNone)
              0 kimi_section _ eq_refl) as (Hf & _).
  split; [exact Hf | reflexivity].
Defined.

Lemma X27_refused_fragment_is_lost_witness :
  Para.stream_line (lit "ab") chunk_lone
  = ([PrintStreamError UnicodeEncodeError], Ok (lit "ab")) /\
  snd (Para.stream_line (lit "ab") chunk_cd) = Ok (lit "abcd").
Proof.
  split.
  - apply (proj1 X27_refused_fragment_is_lost chunk_lone [LONE_SURROGATE]).
    + split; [discriminate|].
      exists chunk_lone; do 3 eexists; repeat split; vm_compute; reflexivity.
    + reflexivity.
  - apply (proj1 (proj2 X27_refused_fragment_is_lost) chunk_cd (lit "cd")).
    + exact chunk_cd_holds.
    + reflexivity.
Defined.
